(** * Adaptive interview bot: session state machine and answer evaluator

    A shallow embedding of the core of the interview bot
    ([core/answer_evaluator.py], [utils/evaluation_metrics.py],
    [core/question_generator.py], [database/models.py],
    [core/conversation_manager.py], [config/settings.py]) together with
    the properties of its specification.

    Modelling conventions.
    - Python [float] scores are exact rationals ([Q]); [round(x, 3)] is
      rounding of [1000 * x] to the nearest integer, ties to even.
      Equality of scores is [Qeq] ([==]).
    - Python [str] is [string]; characters are read as ASCII code points.
    - Dictionaries with a fixed set of keys are records; a key read with
      [.get(key)] and tested for truth is a field whose absent value is the
      empty string or list.
    - The libraries the code calls (NLTK, scikit-learn, rouge-score, the
      Groq client, [random]) are the fields of the class [Externals];
      a raised exception is [None].  Calls whose result can differ from one
      call to the next (random choices, chat completions) are indexed by a
      counter of such calls that the manager threads through.
    - SQLite tables are lists of rows in insertion order; no row is ever
      deleted by the program, so [lastrowid] is one more than the largest
      id of the table.
    - Wall-clock fields ([start_time], [end_time], [duration],
      [pause_time], [timestamp], [answered_at]) are left out. *)

From Stdlib Require Import QArith Qround Qabs Qminmax Lqa Lia ZArith String Ascii List Bool.
From stdpp Require Import gmap strings list pretty.
Import ListNotations.

(** ** Python built-ins used by the code *)

Module Py.

(** [str.isspace] on one ASCII character: tab, LF, VT, FF, CR, the four
    separators FS GS RS US, and space. *)
Definition is_space (c : ascii) : bool :=
  let n := nat_of_ascii c in
  ((9 <=? n) && (n <=? 13)) || ((28 <=? n) && (n <=? 32)).

Definition is_upper (c : ascii) : bool :=
  let n := nat_of_ascii c in (65 <=? n) && (n <=? 90).

Definition is_alnum_char (c : ascii) : bool :=
  let n := nat_of_ascii c in
  ((48 <=? n) && (n <=? 57)) || ((65 <=? n) && (n <=? 90))
  || ((97 <=? n) && (n <=? 122)).

Definition lower_char (c : ascii) : ascii :=
  if is_upper c then ascii_of_nat (nat_of_ascii c + 32) else c.

(** [s.lower()] *)
Fixpoint lower (s : string) : string :=
  match s with
  | EmptyString => EmptyString
  | String c s' => String (lower_char c) (lower s')
  end.

Fixpoint drop_spaces (l : list ascii) : list ascii :=
  match l with
  | [] => []
  | c :: l' => if is_space c then drop_spaces l' else l
  end.

(** [s.strip()] *)
Definition strip (s : string) : string :=
  string_of_list_ascii
    (rev (drop_spaces (rev (drop_spaces (list_ascii_of_string s))))).

(** [len(s)] *)
Definition len (s : string) : nat := String.length s.

(** [s.isalnum()]: at least one character, all of them alphanumeric. *)
Definition isalnum (s : string) : bool :=
  match s with
  | EmptyString => false
  | _ => forallb is_alnum_char (list_ascii_of_string s)
  end.

Fixpoint split_go (acc : list ascii) (l : list ascii) : list string :=
  match l with
  | [] => match acc with [] => [] | _ => [string_of_list_ascii (rev acc)] end
  | c :: l' =>
      if is_space c then
        match acc with
        | [] => split_go [] l'
        | _ => string_of_list_ascii (rev acc) :: split_go [] l'
        end
      else split_go (c :: acc) l'
  end.

(** [s.split()]: the maximal runs of non-whitespace characters. *)
Definition split (s : string) : list string :=
  split_go [] (list_ascii_of_string s).

Fixpoint split_on_go (sep : ascii) (acc : list ascii) (l : list ascii)
  : list string :=
  match l with
  | [] => [string_of_list_ascii (rev acc)]
  | c :: l' =>
      if Ascii.eqb c sep
      then string_of_list_ascii (rev acc) :: split_on_go sep [] l'
      else split_on_go sep (c :: acc) l'
  end.

(** [s.split(sep)] for a one-character separator. *)
Definition split_on (sep : ascii) (s : string) : list string :=
  split_on_go sep [] (list_ascii_of_string s).

(** [needle in hay] on strings: [needle] occurs as a substring. *)
Fixpoint contains (needle hay : string) : bool :=
  String.prefix needle hay
  || match hay with
     | EmptyString => false
     | String _ hay' => contains needle hay'
     end.

(** [s.endswith(c)] for a one-character suffix. *)
Definition endswith (c : ascii) (s : string) : bool :=
  match rev (list_ascii_of_string s) with
  | d :: _ => Ascii.eqb c d
  | [] => false
  end.

(** [sep.join(l)] *)
Definition join (sep : string) (l : list string) : string :=
  String.concat sep l.

(** [x in l] for a list of strings. *)
Definition mem (x : string) (l : list string) : bool :=
  existsb (String.eqb x) l.

(** [str(n)] for a non-negative integer. *)
Definition str_of_nat (n : nat) : string := pretty n.

Open Scope Q_scope.

Definition Qnat (n : nat) : Q := inject_Z (Z.of_nat n).

Definition Qltb (x y : Q) : bool :=
  match Qcompare x y with Lt => true | _ => false end.

(** [x <= y] as a test. *)
Definition Qleb (x y : Q) : bool :=
  match Qcompare x y with Gt => false | _ => true end.

(** Nearest integer, ties to even. *)
Definition round_half_even (q : Q) : Z :=
  let f := Qfloor q in
  match Qcompare (q - inject_Z f) (1 # 2) with
  | Lt => f
  | Gt => (f + 1)%Z
  | Eq => if Z.even f then f else (f + 1)%Z
  end.

(** [round(x, 3)] *)
Definition round3 (x : Q) : Q :=
  inject_Z (round_half_even (x * 1000)) / 1000.

(** [round(x, 1)] *)
Definition round1 (x : Q) : Q :=
  inject_Z (round_half_even (x * 10)) / 10.

Definition Qsum (l : list Q) : Q := fold_right Qplus 0 l.

(** [np.mean(l)] and [sum(l) / len(l)] *)
Definition mean (l : list Q) : Q := Qsum l / Qnat (List.length l).

(** [max(l)] of a non-empty list of numbers *)
Definition Qmaximum (x : Q) (l : list Q) : Q := fold_left Qmax l x.

End Py.

Open Scope Q_scope.

(** ** Data model *)

(** [config/settings.py] *)
Module Config.
Definition MIN_ANSWER_LENGTH : nat := 10.
Definition MAX_QUESTIONS_PER_SESSION : nat := 10.
Definition SUPPORTED_DOMAINS : list string :=
  [ "Software Engineering"; "Data Science"; "Product Management";
    "Marketing"; "Finance"; "Human Resources"; "Sales"; "Design" ].
End Config.

(** A question dictionary.  [q_db_id] is absent until the question has been
    saved; [q_evaluation_criteria] and [q_sample_answer] are absent in a
    question rebuilt from the database, which every reader tests for truth
    through [.get], so absence is the empty list and the empty string. *)
Record Question := {
  q_id : nat;
  q_db_id : option nat;
  q_question : string;
  q_type : string;
  q_difficulty : string;
  q_expected_keywords : list string;
  q_evaluation_criteria : list string;
  q_sample_answer : string
}.

Record RougeScores := { rouge1 : Q; rouge2 : Q; rougeL : Q }.

Record F1Metrics := {
  accuracy : Q;
  f1_score : Q;
  correlation : Q;
  mean_prediction : option Q;
  mean_ground_truth : option Q
}.

Record BaselineComparison := {
  user_vs_reference : Q;
  nlp_performance_category : string
}.

Record NlpMetrics := {
  rouge_scores : RougeScores;
  bleu_score : Q;
  f1_metrics : F1Metrics;
  composite_nlp_score : Q;
  baseline_comparison : BaselineComparison
}.

(** The dictionary built by [_create_evaluation_result]; the key
    [nlp_metrics] is present exactly when the field is [Some]. *)
Record Evaluation := {
  semantic_score : Q;
  keyword_score : Q;
  structure_score : Q;
  overall_score : Q;
  performance_level : string;
  color : string;
  feedback : string;
  strengths : list string;
  improvements : list string;
  nlp_metrics : option NlpMetrics
}.

(** What [_generate_single_question] returns. *)
Record QuestionData := {
  qd_question : string;
  qd_keywords : list string;
  qd_criteria : list string;
  qd_sample_answer : string
}.

(** What [json.loads(content)] followed by the four [data.get] leads to:
    the decoded fields, [json.JSONDecodeError], or another exception (the
    text decodes to something that is not a dictionary). *)
Inductive JsonOutcome : Type :=
| JsonData (data : QuestionData)
| JsonDecodeError
| JsonOtherError.

(** A call that either returns or raises. *)
Inductive Outcome (A : Type) : Type :=
| Returned (a : A)
| Raised (exn : string).
Arguments Returned {A} a.
Arguments Raised {A} exn.

(** ** The libraries the code calls

    [None] is a raised exception.  The first argument of [rand],
    [groq_question] and [groq_feedback] is the number of such calls made
    before this one. *)
Class Externals := {
  (** [nltk.tokenize.word_tokenize] *)
  word_tokenize : string -> list string;
  (** [nltk.tokenize.sent_tokenize] *)
  sent_tokenize : string -> list string;
  (** membership in [stopwords.words('english')] *)
  is_stop_word : string -> bool;
  (** [TfidfVectorizer(stop_words='english').fit_transform] of the two
      texts followed by [cosine_similarity] of the two rows *)
  tfidf_cosine_similarity : string -> string -> option Q;
  (** [re.search(pattern, text, re.IGNORECASE)] finds a match *)
  re_search_ignorecase : string -> string -> bool;
  (** whether [from rouge_score import rouge_scorer] succeeds *)
  rouge_package_installed : bool;
  (** [RougeScorer.score(reference, generated)]: the three f-measures *)
  rouge_scorer_score : string -> string -> option (Q * Q * Q);
  (** [sklearn.metrics.accuracy_score(y_true, y_pred)] *)
  sklearn_accuracy_score : list bool -> list bool -> option Q;
  (** [sklearn.metrics.f1_score(y_true, y_pred, average='weighted')] *)
  sklearn_f1_score : list bool -> list bool -> option Q;
  (** [np.corrcoef(x, y)[0, 1]] *)
  np_corrcoef : list Q -> list Q -> Q;
  (** the integer behind the n-th [random.choice] *)
  rand : nat -> nat;
  (** the chat completion asked for by [_generate_single_question], as a
      function of what its prompt is built from: domain, question type,
      difficulty, job description *)
  groq_question : nat -> string -> string -> string -> string -> option string;
  (** [json.loads] of a completion followed by the four [data.get] *)
  json_loads_question : string -> JsonOutcome;
  (** the chat completion asked for by [_generate_ai_feedback], as a
      function of what its prompt is built from *)
  groq_feedback : nat -> Question -> string -> option string
}.

(** The state that lives outside the session store: the flag
    [EvaluationMetrics.use_rouge_package] and the number of calls made so
    far to [random.choice] and to the chat-completion service. *)
Record Env := {
  use_rouge_package : bool;
  draws : nat
}.

Definition set_use_rouge_package (b : bool) (e : Env) : Env :=
  {| use_rouge_package := b; draws := draws e |}.

Definition tick (e : Env) : Env :=
  {| use_rouge_package := use_rouge_package e; draws := S (draws e) |}.

(** ** [utils/evaluation_metrics.py] *)

Module EvaluationMetrics.
Section WithExternals.
Context `{!Externals}.

(** [__init__] *)
Definition init : bool := rouge_package_installed.

(** The branch without the rouge-score package. *)
Definition simple_rouge (generated_text reference_text : string)
  : RougeScores :=
  let generated_words : gset string :=
    list_to_set (Py.split (Py.lower generated_text)) in
  let reference_words : gset string :=
    list_to_set (Py.split (Py.lower reference_text)) in
  if decide (size reference_words = 0%nat) then
    {| rouge1 := 0; rouge2 := 0; rougeL := 0 |}
  else
    let overlap := generated_words ∩ reference_words in
    let r1 := Py.Qnat (size overlap) / Py.Qnat (size reference_words) in
    {| rouge1 := Py.round3 r1;
       rouge2 := Py.round3 (r1 * 0.8);
       rougeL := Py.round3 (r1 * 0.9) |}.

(** [calculate_rouge_scores]; the second component is the value of
    [use_rouge_package] after the call. *)
Definition calculate_rouge_scores (use_pkg : bool)
    (generated_text reference_text : string) : RougeScores * bool :=
  if use_pkg then
    match rouge_scorer_score reference_text generated_text with
    | Some (f1, f2, fl) =>
        ({| rouge1 := Py.round3 f1;
            rouge2 := Py.round3 f2;
            rougeL := Py.round3 fl |}, true)
    | None => (simple_rouge generated_text reference_text, false)
    end
  else (simple_rouge generated_text reference_text, false).

(** The loop of [calculate_bleu_score] that collects one precision per
    reference with at least one word. *)
Fixpoint bleu_precisions (generated_words : list string)
    (reference_texts : list string) : list Q :=
  match reference_texts with
  | [] => []
  | reference :: rest =>
      let reference_words := Py.split (Py.lower reference) in
      match reference_words with
      | [] => bleu_precisions generated_words rest
      | _ =>
          let matches :=
            List.length
              (List.filter (fun word => Py.mem word reference_words)
                           generated_words) in
          (Py.Qnat matches / Py.Qnat (List.length generated_words))
            :: bleu_precisions generated_words rest
      end
  end.

(** [calculate_bleu_score] *)
Definition calculate_bleu_score (generated_text : string)
    (reference_texts : list string) : Q :=
  let generated_words := Py.split (Py.lower generated_text) in
  match generated_words with
  | [] => 0
  | _ =>
      match bleu_precisions generated_words reference_texts with
      | [] => 0
      | p :: ps => Py.Qmaximum p ps
      end
  end.

(** [evaluate_answer_quality_metrics]; [None] when one of the two
    scikit-learn calls raises. *)
Definition evaluate_answer_quality_metrics
    (predictions ground_truth : list Q) (threshold : Q)
  : option F1Metrics :=
  let pred_binary := map (fun score => Py.Qleb threshold score) predictions in
  let true_binary := map (fun score => Py.Qleb threshold score) ground_truth in
  match sklearn_accuracy_score true_binary pred_binary with
  | None => None
  | Some acc =>
      match sklearn_f1_score true_binary pred_binary with
      | None => None
      | Some f1 =>
          let corr :=
            if (1 <? List.length predictions)%nat
            then np_corrcoef predictions ground_truth else 0 in
          Some {| accuracy := Py.round3 acc;
                  f1_score := Py.round3 f1;
                  correlation := Py.round3 corr;
                  mean_prediction := Some (Py.round3 (Py.mean predictions));
                  mean_ground_truth :=
                    Some (Py.round3 (Py.mean ground_truth)) |}
      end
  end.

End WithExternals.
End EvaluationMetrics.

(** ** [core/answer_evaluator.py] *)

Record PerformanceDistribution := {
  excellent : nat;
  good : nat;
  fair : nat;
  needs_improvement : nat
}.

(** The dictionary returned by [calculate_session_metrics]; the keys that
    are only present for a non-empty list of evaluations are options. *)
Record SessionMetrics := {
  session_average : Q;
  semantic_average : option Q;
  keyword_average : option Q;
  structure_average : option Q;
  strongest_area : string;
  weakest_area : string;
  total_questions : nat;
  performance_distribution : option PerformanceDistribution
}.

Module AnswerEvaluator.
Section WithExternals.
Context `{!Externals}.

Definition _evaluate_semantic_similarity (question : Question)
    (user_answer : string) : Q :=
  let reference_elements :=
    (match q_sample_answer question with
     | EmptyString => []
     | s => [s]
     end)
    ++ (match q_expected_keywords question with
        | [] => []
        | kws => ["Key topics: " +:+ Py.join " " kws]
        end)
    ++ (match q_evaluation_criteria question with
        | [] => []
        | cs => ["Important aspects: " +:+ Py.join " " cs]
        end)
    ++ [q_question question] in
  match reference_elements with
  | [] => 0.5
  | _ =>
      let reference_text := Py.join " " reference_elements in
      match tfidf_cosine_similarity user_answer reference_text with
      | Some similarity => Qmax 0.2 (Qmin 1.0 (similarity + 0.3))
      | None => 0.5
      end
  end.

(** The set comprehension of [_evaluate_keyword_coverage]; only
    membership in the set is ever asked, so it is kept as a list. *)
Definition retained_words (user_text : string) : list string :=
  List.filter (fun word => negb (is_stop_word word) && Py.isalnum word)
              (word_tokenize user_text).

(** The condition under which the loop counts a keyword. *)
Definition keyword_matched (user_text : string) (user_words : list string)
    (keyword : string) : bool :=
  let keyword_lower := Py.lower keyword in
  Py.contains keyword_lower user_text
  || Py.mem keyword_lower user_words
  || existsb (fun word => Py.contains keyword_lower word) user_words.

Definition matched_keywords (expected_keywords : list string)
    (user_answer : string) : nat :=
  let user_text := Py.lower user_answer in
  let user_words := retained_words user_text in
  List.length (List.filter (keyword_matched user_text user_words)
                           expected_keywords).

Definition _evaluate_keyword_coverage (question : Question)
    (user_answer : string) : Q :=
  match q_expected_keywords question with
  | [] => 0.7
  | expected_keywords =>
      let matched := matched_keywords expected_keywords user_answer in
      let total_keywords := List.length expected_keywords in
      let coverage_score :=
        if (0 <? total_keywords)%nat
        then Py.Qnat matched / Py.Qnat total_keywords else 0.7 in
      Qmin 1.0 coverage_score
  end.

Definition structure_indicators : list string :=
  [ "\b(first|firstly|second|secondly|third|thirdly|finally|lastly)\b";
    "\b(however|therefore|moreover|furthermore|additionally)\b";
    "\b(for example|such as|specifically|particularly)\b";
    "\b(in conclusion|to summarize|overall)\b" ].

Definition _evaluate_answer_structure (user_answer : string) : Q :=
  let sentences := sent_tokenize user_answer in
  let words := word_tokenize user_answer in
  let n_sent := List.length sentences in
  let s1 :=
    if (3 <=? n_sent)%nat && (n_sent <=? 8)%nat then 0.3
    else if (1 <? n_sent)%nat then 0.2 else 0 in
  let word_count := List.length (List.filter Py.isalnum words) in
  let s2 :=
    if (30 <=? word_count)%nat && (word_count <=? 200)%nat then 0.3
    else if (20 <=? word_count)%nat && (word_count <=? 300)%nat then 0.2
    else 0 in
  let structure_score :=
    fold_left
      (fun acc pattern =>
         if re_search_ignorecase pattern user_answer then acc + 0.1 else acc)
      structure_indicators (0 + s1 + s2) in
  Qmin 1.0 structure_score.

Definition connecting_words : list string :=
  ["however"; "therefore"; "moreover"; "furthermore"; "additionally"].

Definition _calculate_answer_quality_score (user_answer : string) : Q :=
  let word_count := List.length (Py.split user_answer) in
  let sentence_count := List.length (sent_tokenize user_answer) in
  let q1 :=
    if (30 <=? word_count)%nat && (word_count <=? 200)%nat then 0.3
    else if (20 <=? word_count)%nat && (word_count <=? 300)%nat then 0.2
    else 0 in
  let q2 :=
    if (2 <=? sentence_count)%nat && (sentence_count <=? 8)%nat
    then 0.3 else 0 in
  let unique_words :=
    size (list_to_set (Py.split (Py.lower user_answer)) : gset string) in
  let q3 :=
    if Py.Qltb 0.5 (Py.Qnat unique_words / Py.Qnat (Nat.max word_count 1))
    then 0.2 else 0 in
  let q4 :=
    if existsb (fun word => Py.contains word (Py.lower user_answer))
               connecting_words
    then 0.2 else 0 in
  Qmin 1.0 (0 + q1 + q2 + q3 + q4).

Definition _categorize_nlp_performance (composite_score : Q) : string :=
  if Py.Qleb 0.8 composite_score then "Excellent"
  else if Py.Qleb 0.6 composite_score then "Good"
  else if Py.Qleb 0.4 composite_score then "Average"
  else "Needs Improvement".

(** The bundle returned by the [except] branch of
    [_calculate_advanced_nlp_metrics]. *)
Definition default_nlp_metrics : NlpMetrics :=
  {| rouge_scores := {| rouge1 := 0.5; rouge2 := 0.4; rougeL := 0.45 |};
     bleu_score := 0.5;
     f1_metrics := {| accuracy := 0.5; f1_score := 0.5; correlation := 0.0;
                      mean_prediction := None; mean_ground_truth := None |};
     composite_nlp_score := 0.5;
     baseline_comparison :=
       {| user_vs_reference := 0.5;
          nlp_performance_category := "Average" |} |}.

Definition nlp_reference_texts (question : Question) : list string :=
  let reference_texts :=
    (match q_sample_answer question with
     | EmptyString => []
     | s => [s]
     end)
    ++ (match q_expected_keywords question ++ q_evaluation_criteria question with
        | [] => []
        | reference_elements =>
            ["A good answer should include: "
               +:+ Py.join ", " reference_elements +:+ "."]
        end) in
  match reference_texts with
  | [] => [q_question question]
  | _ => reference_texts
  end.

(** [_calculate_advanced_nlp_metrics]; the second component is
    [use_rouge_package] after the call. *)
Definition _calculate_advanced_nlp_metrics (use_pkg : bool)
    (question : Question) (user_answer : string) : NlpMetrics * bool :=
  let reference_texts := nlp_reference_texts question in
  let primary_reference :=
    match reference_texts with r :: _ => r | [] => EmptyString end in
  let '(rouge, use_pkg') :=
    EvaluationMetrics.calculate_rouge_scores use_pkg user_answer
      primary_reference in
  let bleu := EvaluationMetrics.calculate_bleu_score user_answer
                reference_texts in
  let predicted_score := _calculate_answer_quality_score user_answer in
  let reference_score := 0.8 in
  match EvaluationMetrics.evaluate_answer_quality_metrics
          [predicted_score] [reference_score] 0.6 with
  | None => (default_nlp_metrics, use_pkg')
  | Some f1m =>
      let composite_score :=
        rouge1 rouge * 0.3 + rougeL rouge * 0.3 + bleu * 0.25
        + f1_score f1m * 0.15 in
      ({| rouge_scores := rouge;
          bleu_score := Py.round3 bleu;
          f1_metrics := f1m;
          composite_nlp_score := Py.round3 composite_score;
          baseline_comparison :=
            {| user_vs_reference := Py.round3 composite_score;
               nlp_performance_category :=
                 _categorize_nlp_performance composite_score |} |},
       use_pkg')
  end.

Definition _generate_fallback_feedback (question : Question)
    (user_answer : string) : string :=
  let word_count := List.length (Py.split user_answer) in
  let length_part :=
    if (word_count <? 20)%nat
    then "Consider providing more detail in your response."
    else if (150 <? word_count)%nat
    then "Try to be more concise while maintaining key points."
    else "Good answer length." in
  let keyword_part :=
    match q_expected_keywords question with
    | [] => []
    | expected_keywords =>
        let mentioned_keywords :=
          List.filter
            (fun keyword =>
               Py.contains (Py.lower keyword) (Py.lower user_answer))
            expected_keywords in
        match mentioned_keywords with
        | [] => ["Consider including these key concepts: "
                   +:+ Py.join ", " (firstn 3 expected_keywords) +:+ "."]
        | _ => ["Great job mentioning: "
                  +:+ Py.join ", " mentioned_keywords +:+ "."]
        end
    end in
  let structure_part :=
    if Py.contains ". " user_answer || Py.contains ":" user_answer
    then "Good structure with clear points."
    else "Try organizing your answer with clear, separate points." in
  Py.join " " ([length_part] ++ keyword_part ++ [structure_part]).

Definition _generate_ai_feedback (env : Env) (question : Question)
    (user_answer : string) : string * Env :=
  (match groq_feedback (draws env) question user_answer with
   | Some content => Py.strip content
   | None => _generate_fallback_feedback question user_answer
   end, tick env).

Definition _identify_strengths (semantic keyword structure : Q)
  : list string :=
  let strengths :=
    (if Py.Qltb 0.7 semantic then ["Strong content relevance"] else [])
    ++ (if Py.Qltb 0.7 keyword
        then ["Good use of technical terminology"] else [])
    ++ (if Py.Qltb 0.7 structure then ["Well-organized response"] else []) in
  match strengths with
  | [] => ["Shows understanding of the topic"]
  | _ => strengths
  end.

Definition _identify_improvements (semantic keyword structure : Q)
  : list string :=
  let improvements :=
    (if Py.Qltb semantic 0.5
     then ["Address the question more directly"] else [])
    ++ (if Py.Qltb keyword 0.5
        then ["Include more relevant technical terms"] else [])
    ++ (if Py.Qltb structure 0.5
        then ["Improve answer organization and flow"] else []) in
  match improvements with
  | [] => ["Continue practicing to build confidence"]
  | _ => improvements
  end.

Definition _create_evaluation_result (semantic keyword structure overall : Q)
    (feedback_text : string) (nlp : option NlpMetrics) : Evaluation :=
  let '(level, col) :=
    if Py.Qleb 0.8 overall then ("Excellent", "green")
    else if Py.Qleb 0.6 overall then ("Good", "blue")
    else if Py.Qleb 0.4 overall then ("Fair", "orange")
    else ("Needs Improvement", "red") in
  {| semantic_score := Py.round3 semantic;
     keyword_score := Py.round3 keyword;
     structure_score := Py.round3 structure;
     overall_score := Py.round3 overall;
     performance_level := level;
     color := col;
     feedback := feedback_text;
     strengths := _identify_strengths semantic keyword structure;
     improvements := _identify_improvements semantic keyword structure;
     nlp_metrics := nlp |}.

Definition short_answer_feedback : string :=
  "Answer is too short. Please provide a more detailed response.".

Definition evaluate_answer (env : Env) (question : Question)
    (user_answer : string) : Evaluation * Env :=
  if (Py.len (Py.strip user_answer) <? Config.MIN_ANSWER_LENGTH)%nat then
    (_create_evaluation_result 0.1 0.1 0.1 0.1 short_answer_feedback None,
     env)
  else
    let semantic := _evaluate_semantic_similarity question user_answer in
    let keyword := _evaluate_keyword_coverage question user_answer in
    let structure := _evaluate_answer_structure user_answer in
    let '(nlp, use_pkg') :=
      _calculate_advanced_nlp_metrics (use_rouge_package env) question
        user_answer in
    let '(ai_feedback, env') :=
      _generate_ai_feedback (set_use_rouge_package use_pkg' env) question
        user_answer in
    let overall :=
      semantic * 0.3 + keyword * 0.25 + structure * 0.25
      + composite_nlp_score nlp * 0.2 in
    (_create_evaluation_result semantic keyword structure overall
       ai_feedback (Some nlp), env').

(** [batch_evaluate_answers]; each result is paired with the question
    identity the code stores under [question_id]. *)
Fixpoint batch_evaluate_answers (env : Env)
    (questions_and_answers : list (Question * string))
  : list (nat * Evaluation) * Env :=
  match questions_and_answers with
  | [] => ([], env)
  | (question, answer) :: rest =>
      let '(evaluation, env1) := evaluate_answer env question answer in
      let '(results, env2) := batch_evaluate_answers env1 rest in
      ((q_id question, evaluation) :: results, env2)
  end.

(** [max(scores, key=scores.get)]: the first key with the largest value. *)
Fixpoint first_max (best : string * Q) (l : list (string * Q)) : string :=
  match l with
  | [] => fst best
  | kv :: rest =>
      if Py.Qltb (snd best) (snd kv) then first_max kv rest
      else first_max best rest
  end.

(** [min(scores, key=scores.get)]: the first key with the smallest value. *)
Fixpoint first_min (best : string * Q) (l : list (string * Q)) : string :=
  match l with
  | [] => fst best
  | kv :: rest =>
      if Py.Qltb (snd kv) (snd best) then first_min kv rest
      else first_min best rest
  end.

Definition count_if (p : Evaluation -> bool) (l : list Evaluation) : nat :=
  List.length (List.filter p l).

Definition calculate_session_metrics (evaluations : list Evaluation)
  : SessionMetrics :=
  match evaluations with
  | [] =>
      {| session_average := 0.0;
         semantic_average := None;
         keyword_average := None;
         structure_average := None;
         strongest_area := "None";
         weakest_area := "None";
         total_questions := 0;
         performance_distribution := None |}
  | _ =>
      let semantic_avg := Py.mean (map semantic_score evaluations) in
      let keyword_avg := Py.mean (map keyword_score evaluations) in
      let structure_avg := Py.mean (map structure_score evaluations) in
      let overall_avg := Py.mean (map overall_score evaluations) in
      let first := ("Content Relevance", semantic_avg) in
      let others := [ ("Technical Knowledge", keyword_avg);
                      ("Communication Structure", structure_avg) ] in
      {| session_average := Py.round3 overall_avg;
         semantic_average := Some (Py.round3 semantic_avg);
         keyword_average := Some (Py.round3 keyword_avg);
         structure_average := Some (Py.round3 structure_avg);
         strongest_area := first_max first others;
         weakest_area := first_min first others;
         total_questions := List.length evaluations;
         performance_distribution :=
           Some
             {| excellent :=
                  count_if (fun e => Py.Qleb 0.8 (overall_score e))
                    evaluations;
                good :=
                  count_if (fun e => Py.Qleb 0.6 (overall_score e)
                                     && Py.Qltb (overall_score e) 0.8)
                    evaluations;
                fair :=
                  count_if (fun e => Py.Qleb 0.4 (overall_score e)
                                     && Py.Qltb (overall_score e) 0.6)
                    evaluations;
                needs_improvement :=
                  count_if (fun e => Py.Qltb (overall_score e) 0.4)
                    evaluations |} |}
  end.

End WithExternals.
End AnswerEvaluator.

(** ** [core/question_generator.py] *)

Module QuestionGenerator.
Section WithExternals.
Context `{!Externals}.

(** [random.choice(l)]: [IndexError] on an empty list. *)
Definition random_choice {A : Type} (env : Env) (l : list A)
  : option A * Env :=
  (nth_error l (rand (draws env) mod List.length l), tick env).

Definition _get_difficulty_level (experience_level : string)
    (question_number : nat) : string :=
  let difficulties :=
    if String.eqb experience_level "Beginner"
    then ["Easy"; "Easy"; "Medium"]
    else if String.eqb experience_level "Intermediate"
    then ["Easy"; "Medium"; "Medium"; "Hard"]
    else if String.eqb experience_level "Advanced"
    then ["Medium"; "Medium"; "Hard"; "Hard"]
    else ["Medium"] in
  nth (question_number mod List.length difficulties) difficulties "Medium".

Definition _get_default_keywords (domain question_type : string)
  : list string :=
  if String.eqb domain "Software Engineering"
  then ["code"; "design"; "architecture"; "testing"; "debugging"]
  else if String.eqb domain "Data Science"
  then ["data"; "model"; "analysis"; "algorithm"; "metrics"]
  else if String.eqb domain "Product Management"
  then ["user"; "feature"; "roadmap"; "stakeholder"; "metrics"]
  else if String.eqb domain "Marketing"
  then ["campaign"; "audience"; "conversion"; "analytics"; "brand"]
  else ["experience"; "approach"; "example"; "result"].

Definition technical_software (difficulty : string) : list string :=
  let easy :=
    [ "What is the difference between a class and an object in object-oriented programming?";
      "Explain what REST API is and give an example of how you would use it.";
      "What is version control and why is it important in software development?";
      "Describe the difference between frontend and backend development." ] in
  if String.eqb difficulty "Easy" then easy
  else if String.eqb difficulty "Medium" then
    [ "How would you design a database schema for an e-commerce application?";
      "Explain the concept of microservices and their advantages over monolithic architecture.";
      "What are the SOLID principles and how do they improve code quality?";
      "Describe how you would optimize a slow-running database query." ]
  else if String.eqb difficulty "Hard" then
    [ "Design a scalable system to handle 1 million concurrent users.";
      "How would you implement a distributed cache across multiple servers?";
      "Explain the CAP theorem and its implications for distributed systems.";
      "Design a real-time messaging system like WhatsApp." ]
  else easy.

Definition technical_data_science (difficulty : string) : list string :=
  let easy :=
    [ "What is the difference between supervised and unsupervised learning?";
      "Explain what overfitting is and how to prevent it.";
      "What are the key steps in the data science workflow?";
      "Describe the difference between correlation and causation." ] in
  if String.eqb difficulty "Easy" then easy
  else if String.eqb difficulty "Medium" then
    [ "How would you handle missing data in a dataset?";
      "Explain the bias-variance tradeoff in machine learning.";
      "What metrics would you use to evaluate a classification model?";
      "Describe how you would approach feature selection for a predictive model." ]
  else if String.eqb difficulty "Hard" then
    [ "Design an end-to-end ML pipeline for a recommendation system.";
      "How would you detect and handle concept drift in a production ML model?";
      "Explain how you would build a real-time fraud detection system.";
      "Design an A/B testing framework for measuring model performance." ]
  else easy.

Definition behavioral_questions : list string :=
  [ "Tell me about a time when you had to work with a difficult team member. How did you handle the situation?";
    "Describe a project where you had to learn a new technology quickly. How did you approach it?";
    "Give me an example of a time when you had to make a tough decision with limited information.";
    "Tell me about a time when you failed to meet a deadline. What happened and how did you handle it?";
    "Describe a situation where you had to convince others to accept your idea or approach.";
    "Tell me about a time when you received constructive criticism. How did you respond?" ].

Definition situational_questions : list string :=
  [ "How would you handle a situation where a client suddenly changes the project requirements midway?";
    "What would you do if you discovered a critical security vulnerability in production code?";
    "How would you prioritize features when you have limited development resources?";
    "What steps would you take if you found out a team member was consistently underperforming?";
    "How would you approach debugging a system failure that's affecting multiple users?";
    "What would you do if you disagreed with your manager's technical decision?" ].

Definition _generate_template_question (env : Env)
    (domain question_type difficulty : string) : QuestionData * Env :=
  let candidates :=
    if String.eqb question_type "technical" then
      if String.eqb domain "Data Science"
      then technical_data_science difficulty
      else technical_software difficulty
    else if String.eqb question_type "situational"
    then situational_questions
    else behavioral_questions in
  let '(choice, env') := random_choice env candidates in
  ({| qd_question := match choice with Some q => q | None => EmptyString end;
      qd_keywords := _get_default_keywords domain question_type;
      qd_criteria := ["Clarity"; "Relevance"; "Specific examples";
                      "Technical accuracy"];
      qd_sample_answer := EmptyString |}, env').

Definition intro_phrases : list string :=
  ["here is"; "this is"; "here's"; "question:"].

Definition is_question_line (line : string) : bool :=
  negb (existsb (fun phrase => Py.contains phrase (Py.lower line))
                intro_phrases)
  && (Py.endswith "?"%char line || (20 <? Py.len line)%nat).

(** [_parse_question_response]: the decoded dictionary, or the first
    line that reads like a question; [Returned None] asks for a
    template. *)
Definition _parse_question_response (content : string)
  : Outcome (option QuestionData) :=
  match json_loads_question content with
  | JsonData data => Returned (Some data)
  | JsonOtherError => Raised "AttributeError"
  | JsonDecodeError =>
      let lines :=
        List.filter (fun line => negb (String.eqb line EmptyString))
          (map Py.strip (Py.split_on "010"%char content)) in
      match List.find is_question_line lines with
      | None => Returned None
      | Some question =>
          if String.eqb question EmptyString
             || String.eqb question (Py.strip content)
          then Returned None
          else Returned (Some {| qd_question := question;
                                 qd_keywords := [];
                                 qd_criteria := [];
                                 qd_sample_answer := EmptyString |})
      end
  end.

Definition _generate_single_question (env : Env)
    (domain question_type difficulty job_description : string)
  : QuestionData * Env :=
  let response :=
    groq_question (draws env) domain question_type difficulty
      job_description in
  let env1 := tick env in
  match response with
  | Some content =>
      match _parse_question_response content with
      | Returned (Some parsed_result) => (parsed_result, env1)
      | Returned None | Raised _ =>
          _generate_template_question env1 domain question_type difficulty
      end
  | None => _generate_template_question env1 domain question_type difficulty
  end.

(** The body of the loop of [generate_questions], run for the indices
    [i, i+1, ..., i+n-1]. *)
Fixpoint generate_from (env : Env) (domain experience_level
    job_description : string) (question_types : list string) (i n : nat)
  : Outcome (list Question) * Env :=
  match n with
  | O => (Returned [], env)
  | S n' =>
      match random_choice env question_types with
      | (None, env1) =>
          (Raised "IndexError: Cannot choose from an empty sequence", env1)
      | (Some question_type, env1) =>
          let difficulty := _get_difficulty_level experience_level i in
          let '(question_data, env2) :=
            _generate_single_question env1 domain question_type difficulty
              job_description in
          let question :=
            {| q_id := i + 1;
               q_db_id := None;
               q_question := qd_question question_data;
               q_type := question_type;
               q_difficulty := difficulty;
               q_expected_keywords := qd_keywords question_data;
               q_evaluation_criteria := qd_criteria question_data;
               q_sample_answer := qd_sample_answer question_data |} in
          match generate_from env2 domain experience_level job_description
                  question_types (S i) n' with
          | (Returned questions, env3) =>
              (Returned (question :: questions), env3)
          | (Raised exn, env3) => (Raised exn, env3)
          end
      end
  end.

Definition generate_questions (env : Env) (domain experience_level
    job_description : string) (num_questions : nat)
    (question_types : list string) : Outcome (list Question) * Env :=
  generate_from env domain experience_level job_description question_types
    0 num_questions.

Definition generate_followup_question (original_question user_answer : string)
    (score : Q) : option string :=
  if Py.Qltb score 0.5 then
    Some ("Could you elaborate more on your answer to: '"
            +:+ original_question +:+ "'?")
  else if Py.Qltb 0.8 score then
    Some "That's a great answer! Can you share another example or go deeper into the technical details?"
  else None.

End WithExternals.
End QuestionGenerator.

(** ** [database/models.py] *)

Record UserRow := {
  u_id : nat;
  u_name : string;
  u_email : string;
  u_domain : string;
  u_experience_level : string
}.

Record SessionRow := {
  s_id : nat;
  s_user_id : nat;
  s_domain : string
}.

(** The column [expected_keywords] holds [json.dumps] of a list of
    strings and is read back with [json.loads]; the row keeps the list. *)
Record QuestionRow := {
  qr_id : nat;
  qr_session_id : nat;
  qr_question_text : string;
  qr_question_type : string;
  qr_difficulty_level : string;
  qr_expected_keywords : list string
}.

Record AnswerRow := {
  a_id : nat;
  a_question_id : nat;
  a_user_answer : string;
  a_semantic_score : Q;
  a_keyword_score : Q;
  a_structure_score : Q;
  a_overall_score : Q;
  a_feedback : string
}.

Record Database := {
  db_users : list UserRow;
  db_sessions : list SessionRow;
  db_questions : list QuestionRow;
  db_answers : list AnswerRow
}.

Module DatabaseManager.

(** [cursor.lastrowid] after an insertion into a table with these ids. *)
Definition next_id (ids : list nat) : nat := S (list_max ids).

(** [init_database] on a new file. *)
Definition empty : Database :=
  {| db_users := []; db_sessions := []; db_questions := [];
     db_answers := [] |}.

(** [create_user]; the column [email] is [UNIQUE]. *)
Definition create_user (d : Database) (name email domain
    experience_level : string) : Outcome nat * Database :=
  if existsb (fun u => String.eqb (u_email u) email) (db_users d) then
    (Raised "IntegrityError: UNIQUE constraint failed: users.email", d)
  else
    let id := next_id (map u_id (db_users d)) in
    (Returned id,
     {| db_users := db_users d ++
                    [{| u_id := id; u_name := name; u_email := email;
                        u_domain := domain;
                        u_experience_level := experience_level |}];
        db_sessions := db_sessions d;
        db_questions := db_questions d;
        db_answers := db_answers d |}).

Definition get_user (d : Database) (user_id : nat) : option UserRow :=
  List.find (fun u => Nat.eqb (u_id u) user_id) (db_users d).

(** [create_session]: the insertion does not look at the users table. *)
Definition create_session (d : Database) (user_id : nat) (domain : string)
  : nat * Database :=
  let id := next_id (map s_id (db_sessions d)) in
  (id,
   {| db_users := db_users d;
      db_sessions := db_sessions d ++
                     [{| s_id := id; s_user_id := user_id;
                         s_domain := domain |}];
      db_questions := db_questions d;
      db_answers := db_answers d |}).

Definition save_question (d : Database) (session_id : nat)
    (question_text question_type difficulty_level : string)
    (expected_keywords : list string) : nat * Database :=
  let id := next_id (map qr_id (db_questions d)) in
  (id,
   {| db_users := db_users d;
      db_sessions := db_sessions d;
      db_questions := db_questions d ++
                      [{| qr_id := id; qr_session_id := session_id;
                          qr_question_text := question_text;
                          qr_question_type := question_type;
                          qr_difficulty_level := difficulty_level;
                          qr_expected_keywords := expected_keywords |}];
      db_answers := db_answers d |}).

Definition save_answer (d : Database) (question_id : nat)
    (user_answer : string) (semantic keyword structure overall : Q)
    (feedback_text : string) : nat * Database :=
  let id := next_id (map a_id (db_answers d)) in
  (id,
   {| db_users := db_users d;
      db_sessions := db_sessions d;
      db_questions := db_questions d;
      db_answers := db_answers d ++
                    [{| a_id := id; a_question_id := question_id;
                        a_user_answer := user_answer;
                        a_semantic_score := semantic;
                        a_keyword_score := keyword;
                        a_structure_score := structure;
                        a_overall_score := overall;
                        a_feedback := feedback_text |}] |}).

(** The three queries of [_restore_session_from_db]. *)

(** [SELECT s.*, u.name, u.experience_level FROM sessions s JOIN users u
    ON s.user_id = u.id WHERE s.id = ?], first row. *)
Definition select_session_with_user (d : Database) (session_id : nat)
  : option (SessionRow * UserRow) :=
  match List.find (fun s => Nat.eqb (s_id s) session_id) (db_sessions d) with
  | None => None
  | Some s =>
      match get_user d (s_user_id s) with
      | None => None
      | Some u => Some (s, u)
      end
  end.

(** [SELECT * FROM questions WHERE session_id = ? ORDER BY id] *)
Definition select_questions (d : Database) (session_id : nat)
  : list QuestionRow :=
  List.filter (fun q => Nat.eqb (qr_session_id q) session_id)
              (db_questions d).

(** [SELECT q.id FROM questions q JOIN answers a ON q.id = a.question_id
    WHERE q.session_id = ? ORDER BY a.answered_at] *)
Definition select_answered_questions (d : Database) (session_id : nat)
  : list nat :=
  flat_map
    (fun a =>
       map qr_id
         (List.filter (fun q => Nat.eqb (qr_id q) (a_question_id a))
                      (select_questions d session_id)))
    (db_answers d).

(** One row of [get_user_progress]: the session and the [AVG] of the
    overall scores of its answers, [None] when it has none. *)
Record ProgressRow := {
  pr_session : SessionRow;
  pr_session_avg_score : option Q
}.

(** The overall scores that the two [LEFT JOIN]s attach to a session: one
    per answer of one of its questions. *)
Definition session_scores (d : Database) (session_id : nat) : list Q :=
  flat_map
    (fun q =>
       map a_overall_score
         (List.filter (fun a => Nat.eqb (a_question_id a) (qr_id q))
                      (db_answers d)))
    (select_questions d session_id).

(** [get_user_progress]: the sessions of the user, newest first (a row
    inserted later counts as newer), each with the average of its
    scores. *)
Definition get_user_progress (d : Database) (user_id : nat)
  : list ProgressRow :=
  map
    (fun s =>
       {| pr_session := s;
          pr_session_avg_score :=
            match session_scores d (s_id s) with
            | [] => None
            | scores => Some (Py.mean scores)
            end |})
    (rev (List.filter (fun s => Nat.eqb (s_user_id s) user_id)
                      (db_sessions d))).

End DatabaseManager.

(** ** [core/conversation_manager.py] *)

Record Preferences := {
  num_questions : nat;
  question_types : list string;
  difficulty_progression : bool
}.

(** The values of the key [status] of a session. *)
Inductive SessionStatus : Type :=
| Active | Paused | Completed | EndedEarly | Cancelled.

Record AnswerEntry := {
  ans_question_id : nat;
  ans_answer : string
}.

(** One value of the dictionary [current_sessions]. *)
Record SessionState := {
  session_id : nat;
  user_id : nat;
  domain : string;
  questions : list Question;
  current_question_index : nat;
  answers : list AnswerEntry;
  evaluations : list Evaluation;
  session_preferences : Preferences;
  status : SessionStatus;
  final_metrics : option SessionMetrics
}.

(** A [ConversationManager] with its database, its session store and the
    state of its evaluator. *)
Record Manager := {
  db : Database;
  current_sessions : gmap nat SessionState;
  env : Env
}.

Record SessionInfo := {
  si_domain : string;
  si_user_name : string;
  si_experience_level : string
}.

Inductive StartResult : Type :=
| StartError (message : string)
| StartSuccess (sid : nat) (first_question : option Question)
    (total : nat) (session_info : SessionInfo).

Record Progress := {
  progress_current : nat;
  progress_total : nat;
  progress_percentage : Q
}.

Record SessionSummary := {
  summary_total_questions : nat;
  summary_average_score : Q;
  summary_strongest_area : string;
  summary_weakest_area : string;
  summary_performance_level : string
}.

Inductive ProcessResult : Type :=
| ProcessError (message : string)
| QuestionAnswered (evaluation : Evaluation) (next_question : Question)
    (followup_question : option string) (progress : Progress)
| SessionCompleted (session_summary : SessionSummary)
    (detailed_metrics : SessionMetrics) (comprehensive_feedback : string)
    (recommendations : list string).

Inductive PauseResult : Type :=
| PauseError (message : string)
| PauseSuccess (message : string).

Inductive ResumeResult : Type :=
| ResumeError (message : string)
| ResumeSuccess (current_question : Question) (current total : nat).

Record PartialSummary := {
  questions_answered : nat;
  partial_total_questions : nat;
  partial_average_score : Q
}.

Inductive EndResult : Type :=
| EndError (message : string)
| SessionEndedEarly (partial_summary : PartialSummary) (message : string)
| SessionCancelled (message : string).

Module ConversationManager.
Section WithExternals.
Context `{!Externals}.

Definition set_db (d : Database) (m : Manager) : Manager :=
  {| db := d; current_sessions := current_sessions m; env := env m |}.

Definition set_env (e : Env) (m : Manager) : Manager :=
  {| db := db m; current_sessions := current_sessions m; env := e |}.

Definition set_session (sid : nat) (s : SessionState) (m : Manager)
  : Manager :=
  {| db := db m; current_sessions := <[sid := s]> (current_sessions m);
     env := env m |}.

Definition set_status (st : SessionStatus) (s : SessionState)
  : SessionState :=
  {| session_id := session_id s; user_id := user_id s; domain := domain s;
     questions := questions s;
     current_question_index := current_question_index s;
     answers := answers s; evaluations := evaluations s;
     session_preferences := session_preferences s;
     status := st; final_metrics := final_metrics s |}.

Definition set_final_metrics (fm : SessionMetrics) (s : SessionState)
  : SessionState :=
  {| session_id := session_id s; user_id := user_id s; domain := domain s;
     questions := questions s;
     current_question_index := current_question_index s;
     answers := answers s; evaluations := evaluations s;
     session_preferences := session_preferences s;
     status := status s; final_metrics := Some fm |}.

(** The three updates of [process_answer]: both sequences grow by one
    entry and the cursor moves on. *)
Definition record_answer (a : AnswerEntry) (e : Evaluation)
    (s : SessionState) : SessionState :=
  {| session_id := session_id s; user_id := user_id s; domain := domain s;
     questions := questions s;
     current_question_index := current_question_index s + 1;
     answers := answers s ++ [a]; evaluations := evaluations s ++ [e];
     session_preferences := session_preferences s;
     status := status s; final_metrics := final_metrics s |}.

(** [__init__] over an existing database file. *)
Definition init (d : Database) (draws0 : nat) : Manager :=
  {| db := d; current_sessions := ∅;
     env := {| use_rouge_package := EvaluationMetrics.init;
               draws := draws0 |} |}.

Definition default_preferences : Preferences :=
  {| num_questions := 5;
     question_types := ["technical"; "behavioral"; "situational"];
     difficulty_progression := true |}.

(** The loop of [start_interview_session] that saves every question and
    stores the row id under [db_id]. *)
Fixpoint save_questions (d : Database) (sid : nat) (qs : list Question)
  : list Question * Database :=
  match qs with
  | [] => ([], d)
  | question :: rest =>
      let '(question_id, d1) :=
        DatabaseManager.save_question d sid (q_question question)
          (q_type question) (q_difficulty question)
          (q_expected_keywords question) in
      let question' :=
        {| q_id := q_id question; q_db_id := Some question_id;
           q_question := q_question question; q_type := q_type question;
           q_difficulty := q_difficulty question;
           q_expected_keywords := q_expected_keywords question;
           q_evaluation_criteria := q_evaluation_criteria question;
           q_sample_answer := q_sample_answer question |} in
      let '(rest', d2) := save_questions d1 sid rest in
      (question' :: rest', d2)
  end.

Definition start_interview_session (m : Manager) (uid : nat)
    (dom job_description : string) (preferences : option Preferences)
  : Outcome StartResult * Manager :=
  let prefs :=
    match preferences with
    | Some p => p
    | None => default_preferences
    end in
  let '(sid, d1) := DatabaseManager.create_session (db m) uid dom in
  match DatabaseManager.get_user d1 uid with
  | None => (Returned (StartError "User not found"), set_db d1 m)
  | Some user_profile =>
      match QuestionGenerator.generate_questions (env m) dom
              (u_experience_level user_profile) job_description
              (num_questions prefs) (question_types prefs) with
      | (Raised exn, env1) => (Raised exn, set_env env1 (set_db d1 m))
      | (Returned generated, env1) =>
          let '(qs, d2) := save_questions d1 sid generated in
          let session_state :=
            {| session_id := sid; user_id := uid; domain := dom;
               questions := qs; current_question_index := 0;
               answers := []; evaluations := [];
               session_preferences := prefs; status := Active;
               final_metrics := None |} in
          (Returned
             (StartSuccess sid (head qs) (List.length qs)
                {| si_domain := dom;
                   si_user_name := u_name user_profile;
                   si_experience_level :=
                     u_experience_level user_profile |}),
           set_session sid session_state (set_env env1 (set_db d2 m)))
      end
  end.

Definition _get_overall_performance_level (score : Q) : string :=
  if Py.Qleb 0.8 score then "Excellent"
  else if Py.Qleb 0.6 score then "Good"
  else if Py.Qleb 0.4 score then "Fair"
  else "Needs Improvement".

Definition _generate_session_feedback (session : SessionState)
    (metrics : SessionMetrics) : string :=
  let avg_score := session_average metrics in
  let overall_part :=
    if Py.Qleb 0.8 avg_score then
      "Excellent performance! You demonstrated strong knowledge and communication skills."
    else if Py.Qleb 0.6 avg_score then
      "Good job overall! You showed solid understanding with room for improvement."
    else if Py.Qleb 0.4 avg_score then
      "Fair performance. Focus on the areas highlighted below for improvement."
    else
      "This session highlighted several areas for development. Use this as a learning opportunity." in
  let strongest_part :=
    "Your strongest area was " +:+ Py.lower (strongest_area metrics)
      +:+ "." in
  let weakest_part :=
    if String.eqb (weakest_area metrics) (strongest_area metrics) then []
    else ["Focus on improving " +:+ Py.lower (weakest_area metrics)
            +:+ "."] in
  let evals := evaluations session in
  let high_scoring :=
    List.filter (fun e => Py.Qleb 0.7 (overall_score e)) evals in
  let insight_part :=
    match high_scoring with
    | [] => []
    | _ => ["You performed well on "
              +:+ Py.str_of_nat (List.length high_scoring) +:+ " out of "
              +:+ Py.str_of_nat (List.length evals) +:+ " questions."]
    end in
  Py.join " " ([overall_part; strongest_part] ++ weakest_part
                 ++ insight_part).

(** [question_type_scores[question_type].append(score)] on a dictionary
    that keeps its keys in insertion order. *)
Fixpoint append_score (question_type : string) (score : Q)
    (d : list (string * list Q)) : list (string * list Q) :=
  match d with
  | [] => [(question_type, [score])]
  | (k, scores) :: rest =>
      if String.eqb k question_type then (k, scores ++ [score]) :: rest
      else (k, scores) :: append_score question_type score rest
  end.

(** The loop over [enumerate(session["evaluations"])]. *)
Fixpoint collect_type_scores (qs : list Question) (i : nat)
    (evals : list Evaluation) (d : list (string * list Q))
  : Outcome (list (string * list Q)) :=
  match evals with
  | [] => Returned d
  | evaluation :: rest =>
      match nth_error qs i with
      | None => Raised "IndexError: list index out of range"
      | Some question =>
          collect_type_scores qs (S i) rest
            (append_score (q_type question) (overall_score evaluation) d)
      end
  end.

Definition type_recommendation (entry : string * list Q) : list string :=
  let '(q_type, scores) := entry in
  if Py.Qltb (Py.mean scores) 0.5 then
    if String.eqb q_type "technical" then
      ["Focus on technical concepts and hands-on practice in your domain."]
    else if String.eqb q_type "behavioral" then
      ["Prepare specific examples from your experience using the STAR method."]
    else if String.eqb q_type "situational" then
      ["Practice thinking through hypothetical scenarios systematically."]
    else []
  else [].

Definition _generate_recommendations (session : SessionState)
    (metrics : SessionMetrics) : Outcome (list string) :=
  match semantic_average metrics, keyword_average metrics,
        structure_average metrics with
  | Some semantic_avg, Some keyword_avg, Some structure_avg =>
      let area_part :=
        (if Py.Qltb semantic_avg 0.6 then
           ["Practice answering questions more directly and relevantly to what's being asked."]
         else [])
        ++ (if Py.Qltb keyword_avg 0.6 then
              ["Study technical terminology and concepts specific to your domain."]
            else [])
        ++ (if Py.Qltb structure_avg 0.6 then
              ["Work on structuring your answers using frameworks like STAR (Situation, Task, Action, Result)."]
            else []) in
      match collect_type_scores (questions session) 0
              (evaluations session) [] with
      | Raised exn => Raised exn
      | Returned question_type_scores =>
          let recs :=
            area_part ++ flat_map type_recommendation question_type_scores in
          let recs :=
            match recs with
            | [] => ["Continue practicing regularly to maintain and improve your interview skills."]
            | _ => recs
            end in
          Returned
            (firstn 5
               (recs ++
                ["Review the detailed feedback for each question to understand specific areas for improvement."]))
      end
  | _, _, _ => Raised "KeyError: 'semantic_average'"
  end.

Definition _complete_session (m : Manager) (sid : nat)
  : Outcome ProcessResult * Manager :=
  match current_sessions m !! sid with
  | None => (Raised "KeyError", m)
  | Some session =>
      let session_metrics :=
        AnswerEvaluator.calculate_session_metrics (evaluations session) in
      let comprehensive := _generate_session_feedback session
                             session_metrics in
      let session' :=
        set_final_metrics session_metrics (set_status Completed session) in
      let m' := set_session sid session' m in
      match _generate_recommendations session' session_metrics with
      | Raised exn => (Raised exn, m')
      | Returned recs =>
          (Returned
             (SessionCompleted
                {| summary_total_questions :=
                     List.length (questions session');
                   summary_average_score :=
                     session_average session_metrics;
                   summary_strongest_area := strongest_area session_metrics;
                   summary_weakest_area := weakest_area session_metrics;
                   summary_performance_level :=
                     _get_overall_performance_level
                       (session_average session_metrics) |}
                session_metrics comprehensive recs),
           m')
      end
  end.

Definition process_answer (m : Manager) (sid : nat) (answer : string)
  : Outcome ProcessResult * Manager :=
  match current_sessions m !! sid with
  | None => (Returned (ProcessError "Session not found"), m)
  | Some session =>
      let current_index := current_question_index session in
      match nth_error (questions session) current_index with
      | None => (Returned (ProcessError "No more questions in session"), m)
      | Some current_question =>
          let '(evaluation, env1) :=
            AnswerEvaluator.evaluate_answer (env m) current_question
              answer in
          match q_db_id current_question with
          | None => (Raised "KeyError: 'db_id'", set_env env1 m)
          | Some question_id =>
              let '(_, d1) :=
                DatabaseManager.save_answer (db m) question_id answer
                  (semantic_score evaluation) (keyword_score evaluation)
                  (structure_score evaluation) (overall_score evaluation)
                  (feedback evaluation) in
              let session' :=
                record_answer
                  {| ans_question_id := q_id current_question;
                     ans_answer := answer |}
                  evaluation session in
              let m' := set_session sid session' (set_env env1 (set_db d1 m)) in
              match nth_error (questions session')
                      (current_question_index session') with
              | Some next_question =>
                  let followup_question :=
                    if Py.Qltb (overall_score evaluation) 0.5 then
                      QuestionGenerator.generate_followup_question
                        (q_question current_question) answer
                        (overall_score evaluation)
                    else None in
                  (Returned
                     (QuestionAnswered evaluation next_question
                        followup_question
                        {| progress_current :=
                             current_question_index session';
                           progress_total :=
                             List.length (questions session');
                           progress_percentage :=
                             (Py.Qnat (current_question_index session')
                              / Py.Qnat (List.length (questions session')))
                             * 100 |}),
                   m')
              | None => _complete_session m' sid
              end
          end
      end
  end.

(** One dictionary of the list built from the question rows. *)
Definition question_of_row (row : QuestionRow) : Question :=
  {| q_id := qr_id row;
     q_db_id := Some (qr_id row);
     q_question := qr_question_text row;
     q_type := qr_question_type row;
     q_difficulty := qr_difficulty_level row;
     q_expected_keywords := qr_expected_keywords row;
     q_evaluation_criteria := [];
     q_sample_answer := EmptyString |}.

(** [_restore_session_from_db]; the order of [list(set(...))] is taken
    to be the order of first occurrence. *)
Definition _restore_session_from_db (d : Database) (sid : nat)
  : option SessionState :=
  match DatabaseManager.select_session_with_user d sid with
  | None => None
  | Some (session_row, _) =>
      match DatabaseManager.select_questions d sid with
      | [] => None
      | question_rows =>
          let qs := map question_of_row question_rows in
          let answered_questions :=
            DatabaseManager.select_answered_questions d sid in
          let current_index := List.length answered_questions in
          Some
            {| session_id := sid;
               user_id := s_user_id session_row;
               domain := s_domain session_row;
               questions := qs;
               current_question_index := current_index;
               answers := [];
               evaluations := [];
               session_preferences :=
                 {| num_questions := List.length qs;
                    question_types := remove_dups (map q_type qs);
                    difficulty_progression := true |};
               status :=
                 if (current_index <? List.length qs)%nat
                 then Active else Completed;
               final_metrics := None |}
      end
  end.

Definition get_session_status (m : Manager) (sid : nat)
  : option SessionState * Manager :=
  match current_sessions m !! sid with
  | Some session => (Some session, m)
  | None =>
      match _restore_session_from_db (db m) sid with
      | Some session_data =>
          (Some session_data, set_session sid session_data m)
      | None => (None, m)
      end
  end.

Definition pause_session (m : Manager) (sid : nat)
  : PauseResult * Manager :=
  match current_sessions m !! sid with
  | None => (PauseError "Session not found", m)
  | Some session =>
      (PauseSuccess "Session paused",
       set_session sid (set_status Paused session) m)
  end.

Definition resume_session (m : Manager) (sid : nat)
  : ResumeResult * Manager :=
  match current_sessions m !! sid with
  | None => (ResumeError "Session not found", m)
  | Some session =>
      match status session with
      | Paused =>
          let session' := set_status Active session in
          let m' := set_session sid session' m in
          let current_index := current_question_index session' in
          match nth_error (questions session') current_index with
          | Some current_question =>
              (ResumeSuccess current_question current_index
                 (List.length (questions session')), m')
          | None => (ResumeError "No more questions in session", m')
          end
      | _ => (ResumeError "Session is not paused", m)
      end
  end.

Definition end_session_early (m : Manager) (sid : nat)
  : EndResult * Manager :=
  match current_sessions m !! sid with
  | None => (EndError "Session not found", m)
  | Some session =>
      match evaluations session with
      | [] =>
          (SessionCancelled "Session cancelled with no answers recorded.",
           set_session sid (set_status Cancelled session) m)
      | _ =>
          let partial_metrics :=
            AnswerEvaluator.calculate_session_metrics
              (evaluations session) in
          (SessionEndedEarly
             {| questions_answered := List.length (evaluations session);
                partial_total_questions :=
                  List.length (questions session);
                partial_average_score :=
                  session_average partial_metrics |}
             "Session ended early. You can review your progress and continue practicing.",
           set_session sid (set_status EndedEarly session) m)
      end
  end.

End WithExternals.
End ConversationManager.

(** ** [core/user_manager.py] *)

Inductive ProfileResult : Type :=
| ProfileSuccess (uid : nat) (name email dom experience_level : string)
| ProfileError (message : string).

(** The dictionary returned by [get_user_analytics].  Its two shapes
    share three keys; a key that a shape does not have is [None]. *)
Record Analytics := {
  an_total_sessions : nat;
  an_average_score : Q;
  an_improvement_trend : string;
  an_strong_areas : option (list string);
  an_areas_for_improvement : option (list string);
  an_recent_sessions : option (list DatabaseManager.ProgressRow);
  an_score_history : option (list Q)
}.

Module UserManager.

Definition experience_levels : list string :=
  ["Beginner"; "Intermediate"; "Advanced"].

(** [create_user_profile]: the two checks raise [ValueError]; the
    exception of the insertion (a taken email is the only one) is turned
    into an error result that carries its text. *)
Definition create_user_profile (d : Database) (name email dom
    experience_level : string) : Outcome ProfileResult * Database :=
  if negb (Py.mem dom Config.SUPPORTED_DOMAINS) then
    (Raised
       ("ValueError: Domain '" +:+ dom +:+
        "' not supported. Choose from: ['Software Engineering', 'Data Science', 'Product Management', 'Marketing', 'Finance', 'Human Resources', 'Sales', 'Design']"),
     d)
  else if negb (Py.mem experience_level experience_levels) then
    (Raised
       "ValueError: Experience level must be: Beginner, Intermediate, or Advanced",
     d)
  else
    match DatabaseManager.create_user d name email dom experience_level with
    | (Returned uid, d') =>
        (Returned (ProfileSuccess uid name email dom experience_level), d')
    | (Raised _, d') =>
        (Returned (ProfileError "UNIQUE constraint failed: users.email"), d')
    end.

Definition get_user_profile (d : Database) (uid : nat) : option UserRow :=
  DatabaseManager.get_user d uid.

(** [round(x, 2)] *)
Definition round2 (x : Q) : Q :=
  inject_Z (Py.round_half_even (x * 100)) / 100.

(** [l[-3:]] *)
Definition last3 {A : Type} (l : list A) : list A :=
  skipn (List.length l - 3) l.

(** The list comprehension of [get_user_analytics]: the averages that are
    neither missing nor zero. *)
Definition scored (progress : list DatabaseManager.ProgressRow) : list Q :=
  flat_map
    (fun p =>
       match DatabaseManager.pr_session_avg_score p with
       | Some avg => if Qeq_bool avg 0 then [] else [avg]
       | None => []
       end)
    progress.

Definition get_user_analytics (d : Database) (uid : nat) : Analytics :=
  let progress := DatabaseManager.get_user_progress d uid in
  match progress with
  | [] =>
      {| an_total_sessions := 0;
         an_average_score := 0.0;
         an_improvement_trend := "No data";
         an_strong_areas := Some [];
         an_areas_for_improvement := Some [];
         an_recent_sessions := None;
         an_score_history := None |}
  | _ =>
      let total_sessions := List.length progress in
      let scores := scored progress in
      let average_score :=
        match scores with
        | [] => 0
        | _ => Py.mean scores
        end in
      let trend :=
        if (2 <=? List.length scores)%nat then
          let recent_avg := Py.mean (last3 scores) in
          let early_avg := Py.mean (firstn 3 scores) in
          if Py.Qltb early_avg recent_avg then "Improving" else "Needs Focus"
        else "Insufficient data" in
      {| an_total_sessions := total_sessions;
         an_average_score := round2 average_score;
         an_improvement_trend := trend;
         an_strong_areas := None;
         an_areas_for_improvement := None;
         an_recent_sessions := Some (firstn 5 progress);
         an_score_history := Some scores |}
  end.

Definition update_user_preferences (uid : nat) (preferences : Preferences)
  : string * string * Preferences :=
  ("success", "Preferences updated successfully", preferences).

Definition get_personalized_recommendations (d : Database) (uid : nat)
  : list string :=
  let analytics := get_user_analytics d uid in
  let recommendations :=
    (if Py.Qltb (an_average_score analytics) 0.6 then
       [ "Focus on structuring your answers using the STAR method (Situation, Task, Action, Result)";
         "Practice explaining technical concepts in simple terms";
         "Work on providing specific examples from your experience" ]
     else [])
    ++ (if (an_total_sessions analytics <? 3)%nat
        then ["Continue regular practice to build confidence"] else [])
    ++ (if String.eqb (an_improvement_trend analytics) "Needs Focus"
        then ["Review feedback from previous sessions and work on identified weak areas"]
        else []) in
  match recommendations with
  | [] => ["Keep up the great work! Continue practicing regularly."]
  | _ => recommendations
  end.

End UserManager.

(** ** [utils/helpers.py] *)

Module TextProcessor.

Definition is_terminator (c : ascii) : bool :=
  Ascii.eqb c "."%char || Ascii.eqb c "!"%char || Ascii.eqb c "?"%char.

(** The number of maximal runs of sentence terminators in a text;
    [in_run] tells whether the character before was one. *)
Fixpoint terminator_runs (in_run : bool) (l : list ascii) : nat :=
  match l with
  | [] => 0
  | c :: l' =>
      if is_terminator c
      then (if in_run then 0 else 1) + terminator_runs true l'
      else terminator_runs false l'
  end.

(** [len(re.split(r'[.!?]+', text))]: one piece more than there are runs
    of terminators. *)
Definition sentence_pieces (text : string) : nat :=
  S (terminator_runs false (list_ascii_of_string text)).

Definition calculate_readability_score (text : string) : Q :=
  let sentences := sentence_pieces text in
  let words := List.length (Py.split text) in
  if Nat.eqb sentences 0 || Nat.eqb words 0 then 0.0
  else
    let avg_sentence_length := Py.Qnat words / Py.Qnat sentences in
    Qmax 0 (Qmin 1 (1 - (avg_sentence_length - 15) / 20)).

End TextProcessor.

(** ** Runs of the system

    The calls a front end can make on one manager, and the loss of the
    transient state when the process restarts over the same database. *)

Inductive Op : Type :=
| OpCreateUser (name email dom experience_level : string)
| OpStart (uid : nat) (dom job_description : string)
    (preferences : option Preferences)
| OpAnswer (sid : nat) (answer : string)
| OpPause (sid : nat)
| OpResume (sid : nat)
| OpEndEarly (sid : nat)
| OpStatus (sid : nat)
| OpRestart.

Section Traces.
Context `{!Externals}.

Definition step (m : Manager) (op : Op) : Manager :=
  match op with
  | OpCreateUser name email dom level =>
      ConversationManager.set_db
        (snd (DatabaseManager.create_user (db m) name email dom level)) m
  | OpStart uid dom jd prefs =>
      snd (ConversationManager.start_interview_session m uid dom jd prefs)
  | OpAnswer sid answer =>
      snd (ConversationManager.process_answer m sid answer)
  | OpPause sid => snd (ConversationManager.pause_session m sid)
  | OpResume sid => snd (ConversationManager.resume_session m sid)
  | OpEndEarly sid => snd (ConversationManager.end_session_early m sid)
  | OpStatus sid => snd (ConversationManager.get_session_status m sid)
  | OpRestart => ConversationManager.init (db m) (draws (env m))
  end.

Definition run (m : Manager) (ops : list Op) : Manager :=
  fold_left step ops m.

(** The manager of a first start, on a new database file. *)
Definition initial : Manager :=
  ConversationManager.init DatabaseManager.empty 0.

(** The states the system can be in. *)
Definition reachable (m : Manager) : Prop :=
  exists ops, m = run initial ops.

Definition is_restart (op : Op) : bool :=
  match op with OpRestart => true | _ => false end.

(** The states reached without ever losing the transient state. *)
Definition reachable_without_restart (m : Manager) : Prop :=
  exists ops, forallb (fun op => negb (is_restart op)) ops = true
              /\ m = run initial ops.

End Traces.

(** ** An offline instance of the libraries

    A deterministic instance used to run the model on concrete inputs: the
    chat service is unreachable (so the template questions and the fallback
    feedback are used), the rouge-score package is not installed, words are
    the whitespace-separated runs, sentences end at a full stop, and the
    similarity of two texts is the share of common words.  The two
    scikit-learn scores are exact on the one-element lists the evaluator
    passes. *)

Module Offline.

Definition words_of (text : string) : gset string :=
  list_to_set (Py.split (Py.lower text)).

Definition similarity (a b : string) : option Q :=
  let wa := words_of a in
  let wb := words_of b in
  if decide (size wa = 0%nat) then None
  else Some (Py.Qnat (size (wa ∩ wb)) / Py.Qnat (size (wa ∪ wb))).

Definition sentences (text : string) : list string :=
  List.filter (fun s => negb (String.eqb s EmptyString))
    (map Py.strip (Py.split_on "."%char text)).

(** The alternatives of a pattern [\b(a|b|c)\b]. *)
Definition alternatives (pattern : string) : list string :=
  Py.split_on "|"%char
    (String.substring 3 (String.length pattern - 6) pattern).

Definition search (pattern text : string) : bool :=
  existsb (fun alt => Py.contains alt (Py.lower text))
          (alternatives pattern).

Definition agreement (y_true y_pred : list bool) : Q :=
  if decide (y_true = y_pred) then 1 else 0.

Definition externals : Externals := {|
  word_tokenize := Py.split;
  sent_tokenize := sentences;
  is_stop_word := fun w => Py.mem w ["the"; "a"; "an"; "is"; "of"; "and"; "to"; "in"];
  tfidf_cosine_similarity := similarity;
  re_search_ignorecase := search;
  rouge_package_installed := false;
  rouge_scorer_score := fun _ _ => None;
  sklearn_accuracy_score := fun t p => Some (agreement t p);
  sklearn_f1_score := fun t p => Some (agreement t p);
  np_corrcoef := fun _ _ => 0;
  rand := fun n => n;
  groq_question := fun _ _ _ _ _ => None;
  json_loads_question := fun _ => JsonDecodeError;
  groq_feedback := fun _ _ _ => None
|}.

(** A question with two expected keywords and a model answer. *)
Definition rest_question : Question :=
  {| q_id := 1; q_db_id := Some 1%nat;
     q_question := "Explain what REST API is and give an example of how you would use it.";
     q_type := "technical"; q_difficulty := "Easy";
     q_expected_keywords := ["API"; "REST"];
     q_evaluation_criteria := [];
     q_sample_answer := EmptyString |}.

Definition rest_answer : string :=
  "I used a REST API to fetch data, which improved performance.".

Definition env0 : Env := {| use_rouge_package := false; draws := 0 |}.

End Offline.

(** ** An instance with a scripted chat service

    As [Offline], except that the chat service answers every request for a
    question with one fixed JSON document, which decodes to a question
    with two expected keywords and a model answer. *)

Module Scripted.

Definition model_answer : string :=
  "REST is an architectural style for web services. A REST API exposes resources through URLs and uses HTTP methods such as GET and POST to read and change them. Clients and servers exchange JSON and stay stateless.".

Definition question_data : QuestionData :=
  {| qd_question := "What is a REST API?";
     qd_keywords := ["API"; "REST"];
     qd_criteria := [];
     qd_sample_answer := model_answer |}.

Definition externals : Externals := {|
  word_tokenize := Py.split;
  sent_tokenize := Offline.sentences;
  is_stop_word := fun w => Py.mem w ["the"; "a"; "an"; "is"; "of"; "and"; "to"; "in"];
  tfidf_cosine_similarity := Offline.similarity;
  re_search_ignorecase := Offline.search;
  rouge_package_installed := false;
  rouge_scorer_score := fun _ _ => None;
  sklearn_accuracy_score := fun t p => Some (Offline.agreement t p);
  sklearn_f1_score := fun t p => Some (Offline.agreement t p);
  np_corrcoef := fun _ _ => 0;
  rand := fun n => n;
  groq_question := fun _ _ _ _ _ => Some "{...}";
  json_loads_question := fun _ => JsonData question_data;
  groq_feedback := fun _ _ _ => None
|}.

End Scripted.

(** ** Concrete runs *)

Module Scenarios.

Definition technical (n : nat) : Preferences :=
  {| num_questions := n; question_types := ["technical"];
     difficulty_progression := true |}.

Definition ann : Op :=
  OpCreateUser "Ann" "ann@example.com" "Software Engineering" "Beginner".

Definition start (n : nat) : Op :=
  OpStart 1 "Software Engineering" "" (Some (technical n)).

(** One user and nothing else, offline. *)
Definition one_user : Manager :=
  run (H := Offline.externals) (initial (H := Offline.externals)) [ann].

(** A session of two questions with its first answer given, offline. *)
Definition one_answer : Manager :=
  run (H := Offline.externals) (initial (H := Offline.externals))
    [ann; start 2; OpAnswer 1 Offline.rest_answer].

(** The same after the process has restarted. *)
Definition after_restart : Manager :=
  run (H := Offline.externals) (initial (H := Offline.externals))
    [ann; start 2; OpAnswer 1 Offline.rest_answer; OpRestart].

(** The same after the front end has asked for the status of the
    session. *)
Definition restored : Manager :=
  run (H := Offline.externals) (initial (H := Offline.externals))
    [ann; start 2; OpAnswer 1 Offline.rest_answer; OpRestart; OpStatus 1].

(** A session of one question, answered, offline. *)
Definition completed : Manager :=
  run (H := Offline.externals) (initial (H := Offline.externals))
    [ann; start 1; OpAnswer 1 Offline.rest_answer].

(** A session of two questions just started, with the scripted chat
    service. *)
Definition scripted_started : Manager :=
  run (H := Scripted.externals) (initial (H := Scripted.externals))
    [ann; start 2].

(** Two sessions of two questions, the first with one answer, after the
    process has restarted, offline. *)
Definition two_sessions : Manager :=
  run (H := Offline.externals) (initial (H := Offline.externals))
    [ann; start 2; start 2; OpAnswer 1 Offline.rest_answer; OpRestart].

End Scenarios.

(** ** What the tables hold of a session

    The words of the specification about durable storage, read on the
    four tables themselves and not through the queries of the manager. *)

Module Stored.

(** The session rows with a given identity. *)
Definition session_rows (d : Database) (sid : nat) : list SessionRow :=
  List.filter (fun s => Nat.eqb (s_id s) sid) (db_sessions d).

(** Whether a user row with a given identity exists. *)
Definition has_user (d : Database) (uid : nat) : bool :=
  existsb (fun u => Nat.eqb (u_id u) uid) (db_users d).

(** The session can be found: it has a row, and the user of that row has
    one. *)
Definition session_found (d : Database) (sid : nat) : bool :=
  match session_rows d sid with
  | [] => false
  | rows => forallb (fun s => has_user d (s_user_id s)) rows
  end.

(** The session cannot be found: no row has its identity, or none of
    them belongs to a user that has a row. *)
Definition session_missing (d : Database) (sid : nat) : bool :=
  forallb (fun s => negb (has_user d (s_user_id s))) (session_rows d sid).

(** The question rows of a session, in the order of their creation. *)
Definition question_rows (d : Database) (sid : nat) : list QuestionRow :=
  List.filter (fun q => Nat.eqb (qr_session_id q) sid) (db_questions d).

(** The persisted answers to one question. *)
Definition answers_to (d : Database) (question_id : nat) : list AnswerRow :=
  List.filter (fun a => Nat.eqb (a_question_id a) question_id)
              (db_answers d).

(** The number of persisted answers to each question of a session, in
    the order of the questions. *)
Definition answer_counts (d : Database) (sid : nat) : list nat :=
  map (fun q => List.length (answers_to d (qr_id q))) (question_rows d sid).

(** Answers are persisted for exactly the first [K] of the questions of
    a session: one for each of the first [K], none for the others. *)
Definition answered_first (d : Database) (sid K : nat) : Prop :=
  (K <= List.length (question_rows d sid))%nat /\
  answer_counts d sid
  = repeat 1%nat K
    ++ repeat 0%nat (List.length (question_rows d sid) - K).

(** The persisted answers of a session: the answer rows for one of its
    questions. *)
Definition answers_of (d : Database) (sid : nat) : list AnswerRow :=
  List.filter
    (fun a => existsb (fun q => Nat.eqb (qr_id q) (a_question_id a))
                      (question_rows d sid))
    (db_answers d).

End Stored.

(** ** The invariant of the system *)

(** What holds of the database in every reachable state: question ids are
    distinct, every answer refers to a question, every question refers to
    a session, and no session has more answered questions than
    questions. *)
Record db_wf (d : Database) : Prop := {
  wf_question_ids : List.NoDup (map qr_id (db_questions d));
  wf_answer_refs :
    Forall (fun a => In (a_question_id a) (map qr_id (db_questions d)))
           (db_answers d);
  wf_question_sessions :
    Forall (fun q => In (qr_session_id q) (map s_id (db_sessions d)))
           (db_questions d);
  wf_answered :
    forall sid,
      (List.length (DatabaseManager.select_answered_questions d sid)
       <= List.length (DatabaseManager.select_questions d sid))%nat
}.

(** What holds of a session held under the key [sid]: it has as many
    evaluations as answers, no more answers than its cursor says, its
    cursor is the number of answered questions of the database, and its
    questions are the question rows of the database. *)
Record session_ok (d : Database) (sid : nat) (s : SessionState) : Prop := {
  ok_evaluations : List.length (answers s) = List.length (evaluations s);
  ok_answers : (List.length (answers s) <= current_question_index s)%nat;
  ok_cursor :
    current_question_index s
    = List.length (DatabaseManager.select_answered_questions d sid);
  ok_questions :
    map q_db_id (questions s)
    = map (fun row => Some (qr_id row))
        (DatabaseManager.select_questions d sid);
  ok_session_row : In sid (map s_id (db_sessions d))
}.

Definition invariant (m : Manager) : Prop :=
  db_wf (db m) /\
  forall sid s, current_sessions m !! sid = Some s -> session_ok (db m) sid s.

(** What holds in addition as long as the transient state was never
    lost: every answer given is in the sequence of answers, and every
    session with questions is held in memory. *)
Definition lossless (m : Manager) : Prop :=
  (forall sid s,
      current_sessions m !! sid = Some s ->
      List.length (answers s) = current_question_index s) /\
  Forall (fun q => is_Some (current_sessions m !! qr_session_id q))
         (db_questions (db m)).

(** The answered questions of a session, as a function of the two tables
    the query joins. *)
Definition answered (qs : list QuestionRow) (ans : list AnswerRow)
    (sid : nat) : list nat :=
  flat_map
    (fun a =>
       map qr_id
         (List.filter (fun q => Nat.eqb (qr_id q) (a_question_id a))
            (List.filter (fun q => Nat.eqb (qr_session_id q) sid) qs)))
    ans.

(** The four fields of a session that the invariant looks at. *)
Definition same_shape (s s' : SessionState) : Prop :=
  questions s' = questions s /\
  current_question_index s' = current_question_index s /\
  List.length (answers s') = List.length (answers s) /\
  List.length (evaluations s') = List.length (evaluations s).

(** ** What is assumed of the libraries

    The three facts about library results that the properties below rely
    on: f-measures and F1 scores are shares between 0 and 1, and an
    alphanumeric token returned by the word tokenizer is a piece of the
    text it was given. *)
Class LibraryContracts `{!Externals} : Prop := {
  rouge_fmeasure_range :
    forall reference generated f1 f2 fl,
      rouge_scorer_score reference generated = Some (f1, f2, fl) ->
      0 <= f1 <= 1 /\ 0 <= f2 <= 1 /\ 0 <= fl <= 1;
  f1_score_range :
    forall y_true y_pred f,
      sklearn_f1_score y_true y_pred = Some f -> 0 <= f <= 1;
  word_tokens_occur :
    forall text word,
      In word (word_tokenize text) -> Py.isalnum word = true ->
      Py.contains word text = true
}.

(** ** What the further properties speak of *)

(** The four pairs of level and colour, each with the band of the
    returned overall score it goes with. *)
Definition level_matches_score (e : Evaluation) : Prop :=
  (performance_level e = "Excellent" /\ color e = "green"
   /\ 0.8 <= overall_score e) \/
  (performance_level e = "Good" /\ color e = "blue"
   /\ 0.6 <= overall_score e <= 0.8) \/
  (performance_level e = "Fair" /\ color e = "orange"
   /\ 0.4 <= overall_score e <= 0.6) \/
  (performance_level e = "Needs Improvement" /\ color e = "red"
   /\ overall_score e <= 0.4).

(** What is said of the two lists of an evaluation: neither is empty,
    neither has more than three entries, and no dimension is at once a
    strength and an improvement. *)
Definition remarks_consistent (e : Evaluation) : Prop :=
  strengths e <> [] /\ improvements e <> [] /\
  (List.length (strengths e) <= 3)%nat /\
  (List.length (improvements e) <= 3)%nat /\
  ~ (In "Strong content relevance" (strengths e)
     /\ In "Address the question more directly" (improvements e)) /\
  ~ (In "Good use of technical terminology" (strengths e)
     /\ In "Include more relevant technical terms" (improvements e)) /\
  ~ (In "Well-organized response" (strengths e)
     /\ In "Improve answer organization and flow" (improvements e)).

(** What [process_answer] stores of an evaluation. *)
Definition answer_row_of (question_id : nat) (answer : string)
    (e : Evaluation) (row : AnswerRow) : Prop :=
  a_question_id row = question_id /\ a_user_answer row = answer /\
  a_semantic_score row = semantic_score e /\
  a_keyword_score row = keyword_score e /\
  a_structure_score row = structure_score e /\
  a_overall_score row = overall_score e /\
  a_feedback row = feedback e.

(** Two managers that hold the same sessions up to their status. *)
Definition same_but_status (m m' : Manager) : Prop :=
  db m' = db m /\ env m' = env m /\
  forall sid,
    ConversationManager.set_status Active <$> current_sessions m' !! sid
    = ConversationManager.set_status Active <$> current_sessions m !! sid.

(** Every session held in memory has its row in the database, with the
    row of its user. *)
Definition resolvable (m : Manager) : Prop :=
  forall sid s,
    current_sessions m !! sid = Some s ->
    is_Some (DatabaseManager.select_session_with_user (db m) sid).

(** Further inputs for concrete runs. *)
Module Cases.

(** One question and no question type to choose from. *)
Definition no_types : Preferences :=
  {| num_questions := 1; question_types := [];
     difficulty_progression := true |}.

(** A completion of two lines that is not JSON. *)
Definition two_lines : string :=
  "Here is a question for you" +:+ String "010"%char
    "What is the difference between a process and a thread?".

(** The evaluation of the offline answer to the offline question. *)
Definition rest_evaluation : Evaluation :=
  fst (AnswerEvaluator.evaluate_answer (H := Offline.externals) Offline.env0
         Offline.rest_question Offline.rest_answer).

Definition last_answer : string :=
  "Version control keeps the history of the code, so a team can review and undo changes.".

End Cases.

(** * Properties *)

(** ** Facts about the built-ins *)

Module PyFacts.
Import Py.

Lemma Qltb_lt x y : Qltb x y = true <-> x < y.
Proof.
  unfold Qltb. rewrite Qlt_alt. destruct (x ?= y); split; congruence.
Qed.

Lemma Qltb_ge x y : Qltb x y = false <-> y <= x.
Proof.
  unfold Qltb. destruct (Qcompare_spec x y) as [E|L|G]; split; intros; try congruence; try lra.
Qed.

Lemma Qleb_le x y : Qleb x y = true <-> x <= y.
Proof.
  unfold Qleb. rewrite Qle_alt. destruct (x ?= y); split; congruence.
Qed.

Lemma round_half_even_floor q :
  round_half_even q = Qfloor q \/ round_half_even q = (Qfloor q + 1)%Z.
Proof.
  unfold round_half_even.
  destruct (q - inject_Z (Qfloor q) ?= 1 # 2); auto.
  destruct (Z.even (Qfloor q)); auto.
Qed.

(** The rounded value is within one half of the argument. *)
Lemma round_half_even_error q :
  Qabs (inject_Z (round_half_even q) - q) <= 1 # 2.
Proof.
  pose proof (Qfloor_le q) as Hlo.
  pose proof (Qlt_floor q) as Hhi.
  rewrite inject_Z_plus in Hhi. change (inject_Z 1) with 1 in Hhi.
  unfold round_half_even.
  destruct (Qcompare_spec (q - inject_Z (Qfloor q)) (1 # 2)) as [E|L|G].
  - destruct (Z.even (Qfloor q)).
    + apply Qabs_case; intros; lra.
    + rewrite inject_Z_plus. change (inject_Z 1) with 1.
      apply Qabs_case; intros; lra.
  - apply Qabs_case; intros; lra.
  - rewrite inject_Z_plus. change (inject_Z 1) with 1.
    apply Qabs_case; intros; lra.
Qed.

(** Rounding stays between integer bounds of the argument. *)
Lemma round_half_even_lower (z : Z) q :
  inject_Z z <= q -> (z <= round_half_even q)%Z.
Proof.
  intros H.
  assert (z <= Qfloor q)%Z as Hf.
  { rewrite <- (Qfloor_Z z). now apply Qfloor_resp_le. }
  destruct (round_half_even_floor q) as [-> | ->]; lia.
Qed.

Lemma round_half_even_upper (z : Z) q :
  q <= inject_Z z -> (round_half_even q <= z)%Z.
Proof.
  intros H.
  assert (Qfloor q <= z)%Z as Hf.
  { rewrite <- (Qfloor_Z z). now apply Qfloor_resp_le. }
  destruct (Z.eq_dec (Qfloor q) z) as [E | NE].
  - pose proof (Qfloor_le q) as Hlo. rewrite E in Hlo.
    unfold round_half_even. rewrite E.
    destruct (Qcompare_spec (q - inject_Z z) (1 # 2)) as [E'|L|G]; try lra; try lia.
  - destruct (round_half_even_floor q) as [-> | ->]; lia.
Qed.

Lemma round3_error x : Qabs (round3 x - x) <= 1 # 2000.
Proof.
  unfold round3.
  pose proof (round_half_even_error (x * 1000)) as H.
  revert H. set (r := inject_Z (round_half_even (x * 1000))).
  intros H. apply Qabs_Qle_condition in H. destruct H as [H1 H2].
  apply Qabs_Qle_condition.
  assert (r / 1000 == r * (1 # 1000)) as -> by (unfold Qdiv; reflexivity).
  split; lra.
Qed.

Lemma round3_range x : 0 <= x <= 1 -> 0 <= round3 x <= 1.
Proof.
  intros [H0 H1]. unfold round3.
  assert (0 <= round_half_even (x * 1000) <= 1000)%Z as [Ha Hb].
  { split.
    - apply round_half_even_lower. change (inject_Z 0) with 0. lra.
    - apply round_half_even_upper. change (inject_Z 1000) with 1000. lra. }
  set (z := round_half_even (x * 1000)) in *.
  assert (inject_Z z / 1000 == inject_Z z * (1 # 1000)) as -> by (unfold Qdiv; reflexivity).
  assert (inject_Z 0 <= inject_Z z) as Ha' by (rewrite <- Zle_Qle; exact Ha).
  assert (inject_Z z <= inject_Z 1000) as Hb' by (rewrite <- Zle_Qle; exact Hb).
  change (inject_Z 0) with 0 in Ha'. change (inject_Z 1000) with 1000 in Hb'.
  split; lra.
Qed.

Lemma round3_tenth : round3 0.1 == 0.1.
Proof. reflexivity. Qed.

(** *** Substrings *)

Lemma append_nil_l (s : string) : EmptyString +:+ s = s.
Proof. reflexivity. Qed.

Lemma append_cons (x : ascii) (a b : string) :
  String x a +:+ b = String x (a +:+ b).
Proof. reflexivity. Qed.

Lemma append_assoc (a b c : string) : (a +:+ b) +:+ c = a +:+ (b +:+ c).
Proof.
  induction a as [|x a IH]; [reflexivity |].
  rewrite !append_cons. now f_equal.
Qed.

Lemma prefix_spec (n h : string) :
  String.prefix n h = true <-> exists post, h = n +:+ post.
Proof.
  revert h. induction n as [|x n IH]; intros h.
  - split; [intros _; now exists h | intros _; now destruct h].
  - destruct h as [|y h]; simpl.
    + split; [discriminate | intros [post Hp]; discriminate].
    + destruct (ascii_dec x y) as [-> | Hne].
      * rewrite IH. split; intros [post Hp]; exists post.
        -- rewrite append_cons. now f_equal.
        -- rewrite append_cons in Hp. now injection Hp.
      * split; [discriminate |].
        intros [post Hp]. rewrite append_cons in Hp. injection Hp. congruence.
Qed.

Lemma contains_spec (n h : string) :
  contains n h = true <-> exists pre post, h = pre +:+ n +:+ post.
Proof.
  induction h as [|y h IH].
  - change (contains n EmptyString)
      with (String.prefix n EmptyString || false).
    rewrite orb_false_r, prefix_spec. split.
    + intros [post Hp]. now exists EmptyString, post.
    + intros [pre [post Hp]]. destruct pre; [now exists post | discriminate].
  - change (contains n (String y h))
      with (String.prefix n (String y h) || contains n h).
    rewrite orb_true_iff, prefix_spec, IH. split.
    + intros [[post Hp] | [pre [post Hp]]].
      * now exists EmptyString, post.
      * exists (String y pre), post. rewrite append_cons. now f_equal.
    + intros [pre [post Hp]]. destruct pre as [|x pre].
      * left. now exists post.
      * right. exists pre, post. rewrite append_cons in Hp. now injection Hp.
Qed.

Lemma append_nil_r (s : string) : s +:+ EmptyString = s.
Proof.
  induction s as [|x s IH]; [reflexivity |].
  rewrite append_cons. now f_equal.
Qed.

Lemma contains_refl (s : string) : contains s s = true.
Proof.
  apply contains_spec. exists EmptyString, EmptyString.
  now rewrite append_nil_l, append_nil_r.
Qed.


Lemma contains_app_r (n h pre : string) :
  contains n h = true -> contains n (pre +:+ h) = true.
Proof.
  rewrite !contains_spec. intros [p [post ->]].
  exists (pre +:+ p), post. now rewrite !append_assoc.
Qed.



Lemma lower_app (a b : string) : lower (a +:+ b) = lower a +:+ lower b.
Proof.
  induction a as [|x a IH]; [reflexivity |].
  rewrite append_cons. simpl. rewrite append_cons. now f_equal.
Qed.

(** *** Counting *)

Lemma filter_length_le {A} (p : A -> bool) (l : list A) :
  (List.length (List.filter p l) <= List.length l)%nat.
Proof. induction l as [|x l IH]; simpl; [lia | destruct (p x); simpl; lia]. Qed.


Lemma Qnat_nonneg n : 0 <= Qnat n.
Proof. unfold Qnat. change 0 with (inject_Z 0). rewrite <- Zle_Qle. lia. Qed.

Lemma Qnat_le n m : (n <= m)%nat -> Qnat n <= Qnat m.
Proof. intros H. unfold Qnat. rewrite <- Zle_Qle. lia. Qed.

Lemma Qnat_pos n : (0 < n)%nat -> 0 < Qnat n.
Proof. intros H. unfold Qnat. change 0 with (inject_Z 0). rewrite <- Zlt_Qlt. lia. Qed.

(** A share [n / d] of a whole lies between 0 and 1. *)
Lemma Qnat_ratio_range n d : (n <= d)%nat -> 0 <= Qnat n / Qnat d <= 1.
Proof.
  intros H. destruct d as [|d].
  - assert (n = 0%nat) as -> by lia. unfold Qdiv, Qnat. simpl. split; [|]; discriminate.
  - pose proof (Qnat_pos (S d) ltac:(lia)) as Hd.
    pose proof (Qnat_nonneg n) as Hn. pose proof (Qnat_le _ _ H) as Hle.
    split.
    + apply Qle_shift_div_l; [assumption | lra].
    + apply Qle_shift_div_r; [assumption | lra].
Qed.


End PyFacts.

(** ** The answer evaluator *)

Module EvaluatorFacts.
Section WithExternals.
Context `{!Externals}.
Import PyFacts.

Ltac minmax :=
  repeat match goal with
  | |- context [Qmin ?a ?b] =>
      let H := fresh in
      destruct (Q.min_spec a b) as [[? H] | [? H]]; rewrite H in *
  | |- context [Qmax ?a ?b] =>
      let H := fresh in
      destruct (Q.max_spec a b) as [[? H] | [? H]]; rewrite H in *
  end.

Lemma semantic_range question user_answer :
  0 <= AnswerEvaluator._evaluate_semantic_similarity question user_answer <= 1.
Proof.
  unfold AnswerEvaluator._evaluate_semantic_similarity.
  match goal with |- context [match ?l with [] => _ | _ :: _ => _ end] =>
    destruct l end; [split; lra |].
  destruct (tfidf_cosine_similarity _ _) as [similarity |]; [| split; lra].
  minmax; split; lra.
Qed.

Lemma keyword_range question user_answer :
  0 <= AnswerEvaluator._evaluate_keyword_coverage question user_answer <= 1.
Proof.
  unfold AnswerEvaluator._evaluate_keyword_coverage.
  destruct (q_expected_keywords question) as [|k ks] eqn:E; [split; lra |].
  set (kws := k :: ks).
  assert (0 <= (if (0 <? List.length kws)%nat
                then Py.Qnat (AnswerEvaluator.matched_keywords kws user_answer)
                     / Py.Qnat (List.length kws)
                else 0.7) <= 1) as Hc.
  { destruct (0 <? List.length kws)%nat; [| split; lra].
    apply Qnat_ratio_range. apply filter_length_le. }
  revert Hc. generalize (if (0 <? List.length kws)%nat
                then Py.Qnat (AnswerEvaluator.matched_keywords kws user_answer)
                     / Py.Qnat (List.length kws)
                else 0.7).
  intros c Hc. minmax; split; lra.
Qed.

Lemma structure_range user_answer :
  0 <= AnswerEvaluator._evaluate_answer_structure user_answer <= 1.
Proof.
  unfold AnswerEvaluator._evaluate_answer_structure,
    AnswerEvaluator.structure_indicators.
  cbn [fold_left].
  repeat match goal with
  | |- context [if ?c then _ else _] => destruct c
  end; minmax; split; lra.
Qed.

Lemma Qmaximum_range (x : Q) (l : list Q) :
  0 <= x <= 1 -> Forall (fun y => 0 <= y <= 1) l -> 0 <= Py.Qmaximum x l <= 1.
Proof.
  unfold Py.Qmaximum. revert x.
  induction l as [|y l IH]; intros x Hx Hl; simpl; [assumption |].
  inversion Hl as [|? ? Hy Hl']; subst.
  apply IH; [| assumption].
  destruct (Q.max_spec x y) as [[? Hm] | [? Hm]]; rewrite Hm; assumption.
Qed.

Lemma bleu_precisions_range generated_words reference_texts :
  Forall (fun y => 0 <= y <= 1)
    (EvaluationMetrics.bleu_precisions generated_words reference_texts).
Proof.
  induction reference_texts as [|r rs IH]; simpl; [constructor |].
  destruct (Py.split (Py.lower r)); [assumption |].
  constructor; [| assumption].
  apply Qnat_ratio_range, filter_length_le.
Qed.

Lemma bleu_range generated_text reference_texts :
  0 <= EvaluationMetrics.calculate_bleu_score generated_text reference_texts
    <= 1.
Proof.
  unfold EvaluationMetrics.calculate_bleu_score.
  destruct (Py.split (Py.lower generated_text)) as [|w ws]; [split; lra |].
  pose proof (bleu_precisions_range (w :: ws) reference_texts) as Hp.
  destruct (EvaluationMetrics.bleu_precisions (w :: ws) reference_texts)
    as [|p ps]; [split; lra |].
  inversion Hp; subst. now apply Qmaximum_range.
Qed.

Lemma simple_rouge_range generated_text reference_text :
  let r := EvaluationMetrics.simple_rouge generated_text reference_text in
  0 <= rouge1 r <= 1 /\ 0 <= rougeL r <= 1.
Proof.
  unfold EvaluationMetrics.simple_rouge.
  set (g := list_to_set (Py.split (Py.lower generated_text)) : gset string).
  set (r := list_to_set (Py.split (Py.lower reference_text)) : gset string).
  destruct (decide (size r = 0%nat)); simpl; [repeat split; lra |].
  assert (0 <= Py.Qnat (size (g ∩ r)) / Py.Qnat (size r) <= 1) as Hr.
  { apply Qnat_ratio_range. apply subseteq_size, intersection_subseteq_r. }
  split; apply round3_range; lra.
Qed.

Section Contracts.
Context `{contracts : !LibraryContracts}.

Lemma rouge_range use_pkg generated_text reference_text :
  let r := fst (EvaluationMetrics.calculate_rouge_scores use_pkg
                  generated_text reference_text) in
  0 <= rouge1 r <= 1 /\ 0 <= rougeL r <= 1.
Proof.
  unfold EvaluationMetrics.calculate_rouge_scores.
  destruct use_pkg; [| apply simple_rouge_range].
  destruct (rouge_scorer_score reference_text generated_text)
    as [[[f1 f2] fl] |] eqn:E; [| apply simple_rouge_range].
  destruct (rouge_fmeasure_range _ _ _ _ _ E) as (H1 & H2 & H3).
  simpl. split; now apply round3_range.
Qed.

Lemma composite_nlp_range use_pkg question user_answer :
  0 <= composite_nlp_score
         (fst (AnswerEvaluator._calculate_advanced_nlp_metrics use_pkg
                 question user_answer)) <= 1.
Proof.
  unfold AnswerEvaluator._calculate_advanced_nlp_metrics.
  set (refs := AnswerEvaluator.nlp_reference_texts question).
  set (primary := match refs with r :: _ => r | [] => EmptyString end).
  pose proof (rouge_range use_pkg user_answer primary) as Hr.
  destruct (EvaluationMetrics.calculate_rouge_scores use_pkg user_answer
              primary) as [rouge use_pkg'].
  simpl in Hr. destruct Hr as [Hr1 HrL].
  pose proof (bleu_range user_answer refs) as Hb.
  unfold EvaluationMetrics.evaluate_answer_quality_metrics.
  destruct (sklearn_accuracy_score _ _) as [acc |]; [| simpl; split; lra].
  destruct (sklearn_f1_score _ _) as [f1 |] eqn:Ef; [| simpl; split; lra].
  pose proof (f1_score_range _ _ _ Ef) as Hf.
  pose proof (round3_range f1 Hf) as Hf'.
  simpl. apply round3_range. split; lra.
Qed.

(** C1. For every question and every answer of at least the minimum
    length, the four scores of the evaluation returned by
    [evaluate_answer] lie between 0 and 1, and the overall score is the
    weighted sum 0.3 semantic + 0.25 keyword + 0.25 structure + 0.2
    composite NLP score of the returned scores, up to a rounding
    tolerance of one thousandth. *)
Theorem evaluation_scores_in_range_and_weighted env question user_answer :
  (Config.MIN_ANSWER_LENGTH <= Py.len (Py.strip user_answer))%nat ->
  let e := fst (AnswerEvaluator.evaluate_answer env question user_answer) in
  (0 <= semantic_score e <= 1) /\ (0 <= keyword_score e <= 1) /\
  (0 <= structure_score e <= 1) /\ (0 <= overall_score e <= 1) /\
  exists nlp,
    nlp_metrics e = Some nlp /\
    Qabs (overall_score e
          - (0.3 * semantic_score e + 0.25 * keyword_score e
             + 0.25 * structure_score e + 0.2 * composite_nlp_score nlp))
    <= 1 # 1000.
Proof.
  intros Hlen. unfold AnswerEvaluator.evaluate_answer.
  apply Nat.ltb_ge in Hlen. rewrite Hlen.
  pose proof (semantic_range question user_answer) as Hs.
  pose proof (keyword_range question user_answer) as Hk.
  pose proof (structure_range user_answer) as Ht.
  pose proof (composite_nlp_range (use_rouge_package env) question
                user_answer) as Hc.
  destruct (AnswerEvaluator._calculate_advanced_nlp_metrics _ _ _)
    as [nlp use_pkg'].
  simpl in Hc.
  destruct (AnswerEvaluator._generate_ai_feedback _ _ _) as [fb env'].
  set (s := AnswerEvaluator._evaluate_semantic_similarity _ _) in *.
  set (k := AnswerEvaluator._evaluate_keyword_coverage _ _) in *.
  set (t := AnswerEvaluator._evaluate_answer_structure _) in *.
  set (c := composite_nlp_score nlp) in *.
  unfold AnswerEvaluator._create_evaluation_result.
  destruct (if Py.Qleb 0.8 _ then _ else _) as [level col].
  cbn [fst semantic_score keyword_score structure_score overall_score
       nlp_metrics].
  repeat split; try (apply round3_range; split; lra).
  exists nlp. split; [reflexivity |].
  fold c.
  pose proof (round3_error s) as Es.
  pose proof (round3_error k) as Ek.
  pose proof (round3_error t) as Et.
  pose proof (round3_error (s * 0.3 + k * 0.25 + t * 0.25 + c * 0.2)) as Eo.
  apply Qabs_Qle_condition in Es, Ek, Et, Eo.
  apply Qabs_Qle_condition. split; lra.
Qed.




End Contracts.

(** The keyword that was appended is counted in the extended answer. *)
Lemma appended_keyword_is_matched user_answer separator keyword :
  let extended := user_answer +:+ separator +:+ keyword in
  AnswerEvaluator.keyword_matched (Py.lower extended)
    (AnswerEvaluator.retained_words (Py.lower extended)) keyword = true.
Proof.
  cbv zeta. unfold AnswerEvaluator.keyword_matched.
  rewrite !lower_app.
  rewrite (contains_app_r _ _ (Py.lower user_answer)
             (contains_app_r _ _ (Py.lower separator)
                (contains_refl (Py.lower keyword)))).
  reflexivity.
Qed.

(** The example of the specification: both expected keywords occur in
    the answer, whatever the tokenizer returns. *)
Example rest_api_keyword_score :
  AnswerEvaluator._evaluate_keyword_coverage Offline.rest_question
    Offline.rest_answer == 1.
Proof.
  unfold AnswerEvaluator._evaluate_keyword_coverage,
    AnswerEvaluator.matched_keywords.
  cbn [q_expected_keywords Offline.rest_question List.filter].
  unfold AnswerEvaluator.keyword_matched.
  assert (Py.contains (Py.lower "API") (Py.lower Offline.rest_answer) = true)
    as -> by (vm_compute; reflexivity).
  assert (Py.contains (Py.lower "REST") (Py.lower Offline.rest_answer) = true)
    as -> by (vm_compute; reflexivity).
  reflexivity.
Qed.
(** C4. For every question and every answer whose trimmed length is below
    [MIN_ANSWER_LENGTH] (10 characters), [evaluate_answer] returns at once
    the fixed short-answer evaluation: the four scores are exactly 0.1, the
    feedback is the short-answer message, there is no NLP metrics field,
    and neither the rouge flag nor the count of library calls changes. *)
Theorem short_answer_evaluation env question user_answer :
  (Py.len (Py.strip user_answer) < Config.MIN_ANSWER_LENGTH)%nat ->
  Config.MIN_ANSWER_LENGTH = 10%nat /\
  exists e,
    AnswerEvaluator.evaluate_answer env question user_answer = (e, env) /\
    semantic_score e == 0.1 /\ keyword_score e == 0.1 /\
    structure_score e == 0.1 /\ overall_score e == 0.1 /\
    feedback e
    = "Answer is too short. Please provide a more detailed response." /\
    nlp_metrics e = None.
Proof.
  intros Hlen. split; [reflexivity |].
  unfold AnswerEvaluator.evaluate_answer.
  apply Nat.ltb_lt in Hlen. rewrite Hlen.
  eexists. split; [reflexivity |].
  repeat split; reflexivity.
Qed.

End WithExternals.
End EvaluatorFacts.

(** ** The queries of the manager and the tables *)

Module StoredFacts.

Lemma find_head_filter {A} (p : A -> bool) (l : list A) :
  find p l = head (List.filter p l).
Proof.
  induction l as [|x l IH]; [reflexivity |].
  cbn [find List.filter]. now destruct (p x).
Qed.

Lemma has_user_get_user d uid :
  Stored.has_user d uid = true <-> DatabaseManager.get_user d uid <> None.
Proof.
  unfold Stored.has_user, DatabaseManager.get_user.
  induction (db_users d) as [|u us IH]; cbn [existsb find].
  - split; [discriminate | congruence].
  - destruct (Nat.eqb (u_id u) uid); cbn [orb]; [| exact IH].
    split; [discriminate | reflexivity].
Qed.

(** The join of the session row with its user finds a row exactly for a
    session that can be found. *)
Lemma session_found_select d sid :
  Stored.session_found d sid = true ->
  DatabaseManager.select_session_with_user d sid <> None.
Proof.
  unfold Stored.session_found, Stored.session_rows,
    DatabaseManager.select_session_with_user.
  rewrite find_head_filter.
  destruct (List.filter _ (db_sessions d)) as [|s rows]; [discriminate |].
  cbn [head forallb]. intros Hu. apply andb_true_iff in Hu as [Hu _].
  apply has_user_get_user in Hu.
  destruct (DatabaseManager.get_user d (s_user_id s)); congruence.
Qed.

Lemma session_missing_select d sid :
  Stored.session_missing d sid = true ->
  DatabaseManager.select_session_with_user d sid = None.
Proof.
  unfold Stored.session_missing, Stored.session_rows,
    DatabaseManager.select_session_with_user.
  rewrite find_head_filter.
  destruct (List.filter _ (db_sessions d)) as [|s rows]; [reflexivity |].
  cbn [head forallb]. intros Hu. apply andb_true_iff in Hu as [Hu _].
  apply negb_true_iff in Hu.
  destruct (DatabaseManager.get_user d (s_user_id s)) eqn:Hg;
    [| reflexivity].
  assert (Stored.has_user d (s_user_id s) = true) as Hh
    by (apply has_user_get_user; congruence).
  congruence.
Qed.

Lemma select_questions_rows d sid :
  DatabaseManager.select_questions d sid = Stored.question_rows d sid.
Proof. reflexivity. Qed.

Lemma filter_length_sum {A} (p : A -> bool) (l : list A) :
  List.length (List.filter p l)
  = list_sum (map (fun x => if p x then 1 else 0)%nat l).
Proof.
  induction l as [|x l IH]; [reflexivity |].
  unfold list_sum in *. cbn [List.filter map fold_right].
  destruct (p x); cbn [List.length]; rewrite IH; reflexivity.
Qed.

Lemma list_sum_map_add {A} (f g : A -> nat) (l : list A) :
  list_sum (map (fun x => f x + g x)%nat l)
  = (list_sum (map f l) + list_sum (map g l))%nat.
Proof.
  induction l as [|x l IH]; [reflexivity |].
  unfold list_sum in *. cbn [map fold_right]. rewrite IH. lia.
Qed.

(** The query for the answered questions returns one identity for every
    pair of a question of the session and an answer to it. *)
Lemma answered_length_counts d sid :
  List.length (DatabaseManager.select_answered_questions d sid)
  = list_sum (Stored.answer_counts d sid).
Proof.
  unfold DatabaseManager.select_answered_questions, Stored.answer_counts,
    Stored.answers_to.
  rewrite select_questions_rows.
  induction (db_answers d) as [|a ans IH].
  - cbn [flat_map List.filter List.length].
    induction (Stored.question_rows d sid) as [|q qs IHq];
      [reflexivity | exact IHq].
  - cbn [flat_map]. rewrite List.length_app, List.length_map, IH.
    rewrite filter_length_sum, <- list_sum_map_add. f_equal.
    apply map_ext. intros q. cbn [List.filter].
    rewrite (Nat.eqb_sym (a_question_id a) (qr_id q)).
    destruct (Nat.eqb (qr_id q) (a_question_id a)); cbn [List.length]; lia.
Qed.

Lemma list_sum_repeat (x n : nat) : list_sum (repeat x n) = (n * x)%nat.
Proof.
  unfold list_sum. induction n as [|n IH]; [reflexivity |].
  cbn [repeat fold_right]. lia.
Qed.

Lemma answered_first_length d sid K :
  Stored.answered_first d sid K ->
  List.length (DatabaseManager.select_answered_questions d sid) = K.
Proof.
  intros [_ Hc]. rewrite answered_length_counts, Hc, list_sum_app,
    !list_sum_repeat. lia.
Qed.

Lemma filter_unique_length {A} (key : A -> nat) (l : list A) (x : nat) :
  List.NoDup (map key l) ->
  List.length (List.filter (fun y => Nat.eqb (key y) x) l)
  = if existsb (fun y => Nat.eqb (key y) x) l then 1%nat else 0%nat.
Proof.
  induction l as [|y l IH]; [reflexivity |].
  cbn [map]. intros Hn. inversion Hn as [|? ? Hy Hl]; subst.
  cbn [List.filter existsb]. destruct (Nat.eqb_spec (key y) x) as [<- | Hne].
  - cbn [orb List.length]. f_equal.
    destruct (List.filter (fun z => Nat.eqb (key z) (key y)) l)
      as [|z zs] eqn:Hf; [reflexivity |].
    exfalso. apply Hy.
    assert (In z (List.filter (fun z => Nat.eqb (key z) (key y)) l)) as Hz
      by (rewrite Hf; now left).
    apply List.filter_In in Hz as [Hin Hz]. apply Nat.eqb_eq in Hz.
    rewrite <- Hz. now apply in_map.
  - cbn [orb]. now apply IH.
Qed.

Lemma NoDup_map_filter {A} (f : A -> nat) (p : A -> bool) (l : list A) :
  List.NoDup (map f l) -> List.NoDup (map f (List.filter p l)).
Proof.
  induction l as [|x l IH]; [trivial |].
  cbn [map List.filter]. intros Hn. inversion Hn as [|? ? Hx Hl]; subst.
  destruct (p x); [| now apply IH].
  cbn [map]. constructor; [| now apply IH].
  intros Hin. apply Hx. apply in_map_iff in Hin as (y & Hy & Hin).
  apply List.filter_In in Hin as [Hin _]. apply in_map_iff. eauto.
Qed.

(** With distinct question identities, the query returns one identity
    for every persisted answer of the session. *)
Lemma answered_length_answers d sid :
  List.NoDup (map qr_id (db_questions d)) ->
  List.length (DatabaseManager.select_answered_questions d sid)
  = List.length (Stored.answers_of d sid).
Proof.
  intros Hn. unfold DatabaseManager.select_answered_questions,
    Stored.answers_of.
  rewrite select_questions_rows.
  pose proof (NoDup_map_filter qr_id
                (fun q => Nat.eqb (qr_session_id q) sid) _ Hn) as Hrows.
  fold (Stored.question_rows d sid) in Hrows.
  induction (db_answers d) as [|a ans IH]; [reflexivity |].
  cbn [flat_map List.filter]. rewrite List.length_app, List.length_map, IH.
  rewrite (filter_unique_length qr_id (Stored.question_rows d sid)
             (a_question_id a) Hrows).
  destruct (existsb _ (Stored.question_rows d sid)); cbn [List.length]; lia.
Qed.

End StoredFacts.

(** ** The conversation manager *)

Module ManagerFacts.
Section WithExternals.
Context `{!Externals}.
Import PyFacts.

Lemma get_user_create_session d uid dom user_id :
  DatabaseManager.get_user
    (snd (DatabaseManager.create_session d uid dom)) user_id
  = DatabaseManager.get_user d user_id.
Proof. reflexivity. Qed.

(** C10. When [start_interview_session] is called with a user id that
    does not exist, it returns the user-not-found error after the new
    session row has been written: the sessions table has one more row,
    for that user id, so the database is not the one the call started
    from. *)
Theorem start_unknown_user_leaves_session_row m uid dom job_description
    preferences :
  DatabaseManager.get_user (db m) uid = None ->
  exists m',
    ConversationManager.start_interview_session m uid dom job_description
      preferences
    = (Returned (StartError "User not found"), m') /\
    db_sessions (db m')
    = db_sessions (db m)
      ++ [{| s_id := DatabaseManager.next_id (map s_id (db_sessions (db m)));
             s_user_id := uid; s_domain := dom |}] /\
    db_users (db m') = db_users (db m) /\
    db_questions (db m') = db_questions (db m) /\
    db_answers (db m') = db_answers (db m) /\
    current_sessions m' = current_sessions m /\
    db m' <> db m.
Proof.
  intros Hu. unfold ConversationManager.start_interview_session.
  cbn [DatabaseManager.create_session].
  change (DatabaseManager.get_user _ uid)
    with (DatabaseManager.get_user (db m) uid).
  rewrite Hu. eexists. split; [reflexivity |].
  cbn. repeat split.
  intros Heq. apply (f_equal db_sessions) in Heq. cbn in Heq.
  apply (f_equal (@List.length _)) in Heq.
  rewrite length_app in Heq. cbn in Heq. lia.
Qed.

(** C9 as the code has it.  For every existing user, starting a session
    whose preferences ask for zero questions succeeds: the result
    carries no first question and a total of 0, and the session that is
    stored has an empty list of questions, cursor 0 and status active. *)
Theorem start_zero_questions_is_active m uid dom job_description prefs
    user_profile :
  DatabaseManager.get_user (db m) uid = Some user_profile ->
  num_questions prefs = 0%nat ->
  exists sid info m' s,
    ConversationManager.start_interview_session m uid dom job_description
      (Some prefs)
    = (Returned (StartSuccess sid None 0 info), m') /\
    current_sessions m' !! sid = Some s /\
    questions s = [] /\ current_question_index s = 0%nat /\
    status s = Active.
Proof.
  intros Hu Hn. unfold ConversationManager.start_interview_session.
  cbn [DatabaseManager.create_session].
  change (DatabaseManager.get_user _ uid)
    with (DatabaseManager.get_user (db m) uid).
  rewrite Hu, Hn. cbn.
  do 4 eexists. split; [reflexivity |].
  cbn. rewrite lookup_insert_eq. repeat split; reflexivity.
Qed.


(** C5 as the code has it.  For every call of [process_answer] on a held
    session whose current question has been saved and is not the last
    one, the result carries the evaluation of the answer, the next
    question, and the progress: the new cursor, the number of questions
    and the percentage 100 * cursor / total.  A follow-up question, which
    asks to elaborate, is present exactly when the overall score is below
    0.5; from 0.5 upwards, and so above 0.8 too, there is none. *)
Theorem process_answer_next_question m sid answer session question
    question_id :
  current_sessions m !! sid = Some session ->
  nth_error (questions session) (current_question_index session)
  = Some question ->
  q_db_id question = Some question_id ->
  (current_question_index session + 1 < List.length (questions session))%nat ->
  exists evaluation next_question followup progress m',
    ConversationManager.process_answer m sid answer
    = (Returned
         (QuestionAnswered evaluation next_question followup progress),
       m') /\
    evaluation
    = fst (AnswerEvaluator.evaluate_answer (env m) question answer) /\
    nth_error (questions session) (current_question_index session + 1)
    = Some next_question /\
    progress_current progress = (current_question_index session + 1)%nat /\
    progress_total progress = List.length (questions session) /\
    progress_percentage progress
    == Py.Qnat (current_question_index session + 1)
       / Py.Qnat (List.length (questions session)) * 100 /\
    (overall_score evaluation < 0.5 ->
     followup
     = Some ("Could you elaborate more on your answer to: '"
               +:+ q_question question +:+ "'?")) /\
    (0.5 <= overall_score evaluation -> followup = None) /\
    (0.8 < overall_score evaluation -> followup = None).
Proof.
  intros Hs Hq Hid Hlt.
  unfold ConversationManager.process_answer. rewrite Hs, Hq.
  destruct (AnswerEvaluator.evaluate_answer (env m) question answer)
    as [evaluation env1] eqn:Ee.
  rewrite Hid. cbn [DatabaseManager.save_answer].
  cbn [ConversationManager.record_answer questions current_question_index].
  destruct (nth_error (questions session)
              (current_question_index session + 1)) as [next |] eqn:En.
  2: { apply nth_error_None in En. lia. }
  do 5 eexists. split; [reflexivity |].
  cbn [fst progress_current progress_total progress_percentage].
  repeat split; try reflexivity.
  - intros Hlow. apply Qltb_lt in Hlow. rewrite Hlow.
    unfold QuestionGenerator.generate_followup_question. rewrite Hlow.
    reflexivity.
  - intros Hhigh. apply Qltb_ge in Hhigh. rewrite Hhigh. reflexivity.
  - intros Hhigh.
    assert (Py.Qltb (overall_score evaluation) 0.5 = false) as ->
      by (apply Qltb_ge; lra).
    reflexivity.
Qed.

(** A call of [resume_session] that succeeds was made on a paused
    session, and a call on a session that is not paused fails and
    changes nothing. *)
Lemma resume_session_guard m sid session :
  current_sessions m !! sid = Some session ->
  status session <> Paused ->
  ConversationManager.resume_session m sid
  = (ResumeError "Session is not paused", m).
Proof.
  intros Hs Hp. unfold ConversationManager.resume_session. rewrite Hs.
  destruct (status session); congruence.
Qed.

(** [pause_session] has no such guard. *)
Lemma pause_session_any_status m sid session :
  current_sessions m !! sid = Some session ->
  ConversationManager.pause_session m sid
  = (PauseSuccess "Session paused",
     ConversationManager.set_session sid
       (ConversationManager.set_status Paused session) m).
Proof.
  intros Hs. unfold ConversationManager.pause_session. now rewrite Hs.
Qed.

Lemma restore_cursor d sid session :
  ConversationManager._restore_session_from_db d sid = Some session ->
  current_question_index session
  = List.length (DatabaseManager.select_answered_questions d sid) /\
  List.length (questions session)
  = List.length (DatabaseManager.select_questions d sid) /\
  answers session = [] /\ evaluations session = [] /\
  status session
  = (if (current_question_index session <? List.length (questions session))%nat
     then Active else Completed) /\
  map q_db_id (questions session)
  = map (fun row => Some (qr_id row))
      (DatabaseManager.select_questions d sid).
Proof.
  unfold ConversationManager._restore_session_from_db.
  destruct (DatabaseManager.select_session_with_user d sid)
    as [[session_row user_row] |]; [| discriminate].
  destruct (DatabaseManager.select_questions d sid) as [|row rows] eqn:Eq;
    [discriminate |].
  intros [= <-]. cbn [current_question_index questions answers evaluations
                      status].
  change (ConversationManager.question_of_row row
          :: map ConversationManager.question_of_row rows)
    with (map ConversationManager.question_of_row (row :: rows)).
  rewrite length_map, map_map. repeat split.
  cbn [List.length]. now rewrite length_map.
Qed.

(** C7 as the code has it.  For every session held by the manager,
    [end_session_early] with no evaluation held sets the status to
    cancelled and returns a result without a summary; with at least one
    evaluation held it sets the status to ended_early and returns a
    partial summary with the number of evaluations, the number of
    questions, and an average score within rounding tolerance of the
    arithmetic mean of the overall scores held.  For a session that is
    not held it returns "Session not found" and changes nothing, also
    when the session can be restored from the database; and a session
    that [get_session_status] has restored is cancelled, whatever
    answers are persisted for it. *)
Theorem end_session_early_outcome m sid :
  let r := ConversationManager.end_session_early m sid in
  (forall session,
      current_sessions m !! sid = Some session ->
      (evaluations session = [] ->
       fst r = SessionCancelled "Session cancelled with no answers recorded."
       /\ status <$> current_sessions (snd r) !! sid = Some Cancelled) /\
      (evaluations session <> [] ->
       exists summary message,
         fst r = SessionEndedEarly summary message /\
         status <$> current_sessions (snd r) !! sid = Some EndedEarly /\
         questions_answered summary = List.length (evaluations session) /\
         partial_total_questions summary = List.length (questions session) /\
         Qabs (partial_average_score summary
               - Py.Qsum (map overall_score (evaluations session))
                 / Py.Qnat (List.length (evaluations session)))
         <= 1 # 2000)) /\
  (current_sessions m !! sid = None ->
   r = (EndError "Session not found", m) /\
   forall restored_session,
     fst (ConversationManager.get_session_status m sid)
     = Some restored_session ->
     let r' :=
       ConversationManager.end_session_early
         (snd (ConversationManager.get_session_status m sid)) sid in
     fst r' = SessionCancelled "Session cancelled with no answers recorded."
     /\ status <$> current_sessions (snd r') !! sid = Some Cancelled).
Proof.
  cbv zeta. unfold ConversationManager.end_session_early at 1 2 3 4 5.
  split.
  - intros session Hs. rewrite Hs. split; intros He.
    + rewrite He. cbn. rewrite lookup_insert_eq. split; reflexivity.
    + destruct (evaluations session) as [|e es] eqn:E; [congruence |].
      cbn [fst snd]. do 2 eexists. split; [reflexivity |].
      cbn [current_sessions ConversationManager.set_session].
      rewrite lookup_insert_eq. cbn [fmap option_fmap option_map
        ConversationManager.set_status status questions_answered
        partial_total_questions partial_average_score].
      repeat split.
      unfold AnswerEvaluator.calculate_session_metrics.
      cbn [session_average].
      rewrite <- (length_map overall_score (e :: es)).
      apply round3_error.
  - intros Hs. rewrite Hs. split; [reflexivity |].
    intros restored_session.
    unfold ConversationManager.get_session_status. rewrite Hs.
    destruct (ConversationManager._restore_session_from_db (db m) sid)
      as [session |] eqn:Hr; [| discriminate].
    cbn [fst snd]. intros [= <-].
    destruct (restore_cursor _ _ _ Hr) as (_ & _ & _ & He & _).
    unfold ConversationManager.end_session_early.
    cbn [ConversationManager.set_session current_sessions].
    rewrite lookup_insert_eq, He. cbn. rewrite lookup_insert_eq.
    split; reflexivity.
Qed.

(** C3. For a session that is not held in memory: when the tables hold
    its row with the row of its user, Q >= 1 question rows for it, and
    answers for exactly the first K of these questions,
    [get_session_status] returns and stores a session with cursor K, the
    Q questions, and status active if K < Q and completed if K = Q; when
    the session row, the row of its user or the question rows are
    missing it returns [None] (the call returns in every case) and the
    manager is unchanged. *)
Theorem restored_session_cursor_and_status m sid :
  current_sessions m !! sid = None ->
  (forall K,
      Stored.session_found (db m) sid = true ->
      Stored.question_rows (db m) sid <> [] ->
      Stored.answered_first (db m) sid K ->
      exists session,
        ConversationManager.get_session_status m sid
        = (Some session, ConversationManager.set_session sid session m) /\
        current_question_index session = K /\
        List.length (questions session)
        = List.length (Stored.question_rows (db m) sid) /\
        map q_db_id (questions session)
        = map (fun row => Some (qr_id row))
            (Stored.question_rows (db m) sid) /\
        status session
        = (if (K <? List.length (Stored.question_rows (db m) sid))%nat
           then Active else Completed) /\
        (K = List.length (Stored.question_rows (db m) sid) ->
         status session = Completed)) /\
  (Stored.session_missing (db m) sid = true \/
   Stored.question_rows (db m) sid = [] ->
   ConversationManager.get_session_status m sid = (None, m)).
Proof.
  intros Hm. unfold ConversationManager.get_session_status. rewrite Hm.
  split.
  - intros K Hfound Hne Hfirst.
    apply StoredFacts.session_found_select in Hfound.
    pose proof (StoredFacts.answered_first_length _ _ _ Hfirst) as Hlen.
    rewrite <- StoredFacts.select_questions_rows in *.
    destruct (ConversationManager._restore_session_from_db (db m) sid)
      as [session |] eqn:Er.
    + destruct (restore_cursor _ _ _ Er)
        as (Hc & Hl & _ & _ & Hst & Hids).
      assert (current_question_index session = K) as HcK by congruence.
      exists session. rewrite Hst, HcK, Hl.
      repeat split; try assumption.
      intros ->. now rewrite Nat.ltb_irrefl.
    + exfalso. unfold ConversationManager._restore_session_from_db in Er.
      destruct (DatabaseManager.select_session_with_user (db m) sid)
        as [[session_row user_row] |]; [| congruence].
      destruct (DatabaseManager.select_questions (db m) sid);
        [congruence | discriminate].
  - intros Hnone. unfold ConversationManager._restore_session_from_db.
    destruct Hnone as [Hmiss | Hq].
    + now rewrite (StoredFacts.session_missing_select _ _ Hmiss).
    + rewrite <- StoredFacts.select_questions_rows in Hq.
      destruct (DatabaseManager.select_session_with_user (db m) sid)
        as [[session_row user_row] |]; [| reflexivity].
      now rewrite Hq.
Qed.

End WithExternals.
End ManagerFacts.

(** ** The invariant *)

Module InvariantFacts.
Section WithExternals.
Context `{!Externals}.

Lemma next_id_fresh (ids : list nat) : ~ In (DatabaseManager.next_id ids) ids.
Proof.
  unfold DatabaseManager.next_id. intros Hin.
  assert (Forall (fun k => (k <= list_max ids)%nat) ids) as Hall
    by (apply list_max_le; lia).
  rewrite List.Forall_forall in Hall. specialize (Hall _ Hin). lia.
Qed.

Lemma select_answered_questions_eq d sid :
  DatabaseManager.select_answered_questions d sid
  = answered (db_questions d) (db_answers d) sid.
Proof. reflexivity. Qed.

(** Rows that no answer refers to do not change the answered questions. *)
Lemma answered_new_rows qs rows ans sid :
  Forall (fun a => Forall (fun r => qr_id r <> a_question_id a) rows) ans ->
  answered (qs ++ rows) ans sid = answered qs ans sid.
Proof.
  unfold answered. induction ans as [|a ans IH]; intros Hall; [reflexivity |].
  inversion Hall as [|? ? Ha Hall']; subst. cbn [flat_map].
  rewrite IH by assumption. f_equal.
  rewrite !List.filter_app, map_app.
  assert (List.filter (fun q => Nat.eqb (qr_id q) (a_question_id a))
            (List.filter (fun q => Nat.eqb (qr_session_id q) sid) rows) = [])
    as ->.
  { clear -Ha. induction rows as [|r rows IHr]; [reflexivity |].
    inversion Ha as [|? ? Hr Ha']; subst. cbn [List.filter].
    destruct (Nat.eqb (qr_session_id r) sid); [| now apply IHr].
    cbn [List.filter]. apply Nat.eqb_neq in Hr. rewrite Hr. now apply IHr. }
  now rewrite app_nil_r.
Qed.

(** With distinct ids, the rows of a session with a given id are the row
    with that id, if it belongs to the session. *)
Lemma filter_unique_id qs row sid :
  List.NoDup (map qr_id qs) -> In row qs ->
  List.filter (fun q => Nat.eqb (qr_id q) (qr_id row))
    (List.filter (fun q => Nat.eqb (qr_session_id q) sid) qs)
  = if Nat.eqb (qr_session_id row) sid then [row] else [].
Proof.
  induction qs as [|q qs IH]; intros Hnd Hin; [contradiction |].
  cbn [map] in Hnd. inversion Hnd as [|? ? Hnotin Hnd']; subst.
  destruct Hin as [-> | Hin].
  - assert (List.filter (fun q => Nat.eqb (qr_id q) (qr_id row))
              (List.filter (fun q => Nat.eqb (qr_session_id q) sid) qs) = [])
      as Hrest.
    { clear -Hnotin. induction qs as [|q qs IHq]; [reflexivity |].
      cbn [List.filter].
      assert (qr_id q <> qr_id row) as Hne
        by (intros Heq; apply Hnotin; left; assumption).
      assert (~ In (qr_id row) (map qr_id qs)) as Hnotin'
        by (intros Hi; apply Hnotin; right; assumption).
      destruct (Nat.eqb (qr_session_id q) sid); [| now apply IHq].
      cbn [List.filter]. apply Nat.eqb_neq in Hne. rewrite Hne.
      now apply IHq. }
    cbn [List.filter]. destruct (Nat.eqb (qr_session_id row) sid).
    + cbn [List.filter]. rewrite Nat.eqb_refl. now rewrite Hrest.
    + assumption.
  - assert (qr_id q <> qr_id row) as Hne.
    { intros Heq. apply Hnotin. rewrite Heq. now apply in_map. }
    cbn [List.filter]. destruct (Nat.eqb (qr_session_id q) sid).
    + cbn [List.filter]. apply Nat.eqb_neq in Hne. rewrite Hne.
      now apply IH.
    + now apply IH.
Qed.

Lemma answered_snoc qs ans a sid :
  answered qs (ans ++ [a]) sid
  = answered qs ans sid
    ++ map qr_id
         (List.filter (fun q => Nat.eqb (qr_id q) (a_question_id a))
            (List.filter (fun q => Nat.eqb (qr_session_id q) sid) qs)).
Proof.
  unfold answered. rewrite flat_map_app. cbn [flat_map].
  now rewrite app_nil_r.
Qed.


(** *** What each operation does to the database and the session store *)

Lemma save_questions_spec d sid generated :
  exists rows,
    db_questions (snd (ConversationManager.save_questions d sid generated))
    = db_questions d ++ rows /\
    db_users (snd (ConversationManager.save_questions d sid generated))
    = db_users d /\
    db_sessions (snd (ConversationManager.save_questions d sid generated))
    = db_sessions d /\
    db_answers (snd (ConversationManager.save_questions d sid generated))
    = db_answers d /\
    Forall (fun row => qr_session_id row = sid) rows /\
    map q_db_id (fst (ConversationManager.save_questions d sid generated))
    = map (fun row => Some (qr_id row)) rows /\
    Forall (fun row => ~ In (qr_id row) (map qr_id (db_questions d))) rows /\
    List.NoDup (map qr_id rows).
Proof.
  revert d. induction generated as [|question rest IH]; intros d.
  - exists []. cbn. rewrite app_nil_r. repeat split; constructor.
  - cbn [ConversationManager.save_questions DatabaseManager.save_question].
    set (id0 := DatabaseManager.next_id (map qr_id (db_questions d))).
    set (row0 := {| qr_id := id0; qr_session_id := sid;
                    qr_question_text := q_question question;
                    qr_question_type := q_type question;
                    qr_difficulty_level := q_difficulty question;
                    qr_expected_keywords := q_expected_keywords question |}).
    set (d1 := {| db_users := db_users d; db_sessions := db_sessions d;
                  db_questions := db_questions d ++ [row0];
                  db_answers := db_answers d |}).
    destruct (IH d1) as (rows & Hq & Hu & Hs & Ha & Hsid & Hids & Hfresh & Hnd).
    destruct (ConversationManager.save_questions d1 sid rest) as [rest' d2].
    cbn [fst snd] in *.
    exists (row0 :: rows).
    rewrite Hq, Hu, Hs, Ha. cbn [d1 db_questions db_users db_sessions db_answers].
    rewrite <- app_assoc. cbn [app map q_db_id].
    rewrite Hids.
    assert (Forall (fun row => ~ In (qr_id row) (map qr_id (db_questions d))
                               /\ qr_id row <> id0) rows) as Hfresh'.
    { rewrite List.Forall_forall in Hfresh |- *. intros row Hrow.
      specialize (Hfresh row Hrow). cbn [d1 db_questions] in Hfresh.
      rewrite map_app, in_app_iff in Hfresh. cbn in Hfresh. split.
      - tauto.
      - intros Heq. apply Hfresh. right. left. now rewrite Heq. }
    repeat split; try reflexivity.
    + constructor; [reflexivity | assumption].
    + constructor.
      * apply next_id_fresh.
      * rewrite List.Forall_forall in Hfresh' |- *.
        intros row Hrow. apply (Hfresh' row Hrow).
    + cbn [map]. constructor; [| assumption].
      intros Hin. apply in_map_iff in Hin. destruct Hin as [row [Heq Hrow]].
      rewrite List.Forall_forall in Hfresh'.
      now apply (Hfresh' row Hrow).
Qed.

Lemma start_state m uid dom job_description preferences :
  let m' := snd (ConversationManager.start_interview_session m uid dom
                   job_description preferences) in
  let sid := DatabaseManager.next_id (map s_id (db_sessions (db m))) in
  let d1 := snd (DatabaseManager.create_session (db m) uid dom) in
  (db m' = d1 /\ current_sessions m' = current_sessions m) \/
  (exists generated s0,
      db m' = snd (ConversationManager.save_questions d1 sid generated) /\
      current_sessions m' = <[sid := s0]> (current_sessions m) /\
      questions s0
      = fst (ConversationManager.save_questions d1 sid generated) /\
      current_question_index s0 = 0%nat /\
      answers s0 = [] /\ evaluations s0 = []).
Proof.
  cbv zeta. unfold ConversationManager.start_interview_session.
  cbn [DatabaseManager.create_session snd].
  set (sid := DatabaseManager.next_id (map s_id (db_sessions (db m)))).
  set (d1 := {| db_users := db_users (db m);
                db_sessions := db_sessions (db m) ++ _;
                db_questions := db_questions (db m);
                db_answers := db_answers (db m) |}).
  destruct (DatabaseManager.get_user d1 uid) as [user_profile |];
    [| left; split; reflexivity].
  destruct (QuestionGenerator.generate_questions _ _ _ _ _ _)
    as [[generated | exn] env1]; [| left; split; reflexivity].
  right. exists generated.
  destruct (ConversationManager.save_questions d1 sid generated)
    as [qs d2] eqn:Es.
  eexists. cbn [snd fst db current_sessions ConversationManager.set_session
                ConversationManager.set_env ConversationManager.set_db].
  repeat split; reflexivity.
Qed.

Lemma complete_session_state m sid s :
  current_sessions m !! sid = Some s ->
  let m' := snd (ConversationManager._complete_session m sid) in
  db m' = db m /\
  exists s', current_sessions m' = <[sid := s']> (current_sessions m) /\
             same_shape s s'.
Proof.
  intros Hs. unfold ConversationManager._complete_session. rewrite Hs.
  set (s' := ConversationManager.set_final_metrics _ _).
  assert (same_shape s s') as Hshape by (repeat split; reflexivity).
  destruct (ConversationManager._generate_recommendations _ _);
    cbn [snd]; (split; [reflexivity | exists s'; split; [reflexivity | exact Hshape]]).
Qed.

Lemma process_answer_state m sid answer :
  let m' := snd (ConversationManager.process_answer m sid answer) in
  (db m' = db m /\ current_sessions m' = current_sessions m) \/
  (exists s question question_id s',
      current_sessions m !! sid = Some s /\
      nth_error (questions s) (current_question_index s) = Some question /\
      q_db_id question = Some question_id /\
      db_users (db m') = db_users (db m) /\
      db_sessions (db m') = db_sessions (db m) /\
      db_questions (db m') = db_questions (db m) /\
      (exists a, db_answers (db m') = db_answers (db m) ++ [a]
                 /\ a_question_id a = question_id) /\
      current_sessions m' = <[sid := s']> (current_sessions m) /\
      questions s' = questions s /\
      current_question_index s' = (current_question_index s + 1)%nat /\
      List.length (answers s') = (List.length (answers s) + 1)%nat /\
      List.length (evaluations s') = (List.length (evaluations s) + 1)%nat).
Proof.
  unfold ConversationManager.process_answer.
  destruct (current_sessions m !! sid) as [s |] eqn:Hs;
    [| left; split; reflexivity].
  destruct (nth_error (questions s) (current_question_index s))
    as [question |] eqn:Hq; [| left; split; reflexivity].
  destruct (AnswerEvaluator.evaluate_answer (env m) question answer)
    as [evaluation env1].
  destruct (q_db_id question) as [question_id |] eqn:Hid;
    [| left; split; reflexivity].
  right. cbn [DatabaseManager.save_answer].
  set (s1 := ConversationManager.record_answer _ evaluation s).
  set (m1 := ConversationManager.set_session sid s1 _).
  assert (current_sessions m1 !! sid = Some s1) as Hs1
    by (cbn; apply lookup_insert_eq).
  destruct (nth_error (questions s1) (current_question_index s1)).
  - exists s, question, question_id, s1. cbn [snd].
    repeat split; try reflexivity; try assumption.
    + eexists. split; reflexivity.
    + cbn. now rewrite length_app.
    + cbn. now rewrite length_app.
  - destruct (complete_session_state m1 sid s1 Hs1)
      as (Hdb & s2 & Hcs & Hq2 & Hc2 & Ha2 & He2).
    exists s, question, question_id, s2.
    rewrite Hdb, Hcs. cbn [m1 db current_sessions ConversationManager.set_session
      ConversationManager.set_env ConversationManager.set_db
      db_users db_sessions db_questions db_answers].
    rewrite insert_insert_eq.
    repeat split; try reflexivity; try assumption.
    + eexists. split; reflexivity.
    + rewrite Ha2. cbn. now rewrite length_app.
    + rewrite He2. cbn. now rewrite length_app.
Qed.

Lemma status_ops_state m op :
  match op with
  | OpPause _ | OpResume _ | OpEndEarly _ => True
  | _ => False
  end ->
  db (step m op) = db m /\
  (current_sessions (step m op) = current_sessions m \/
   exists sid s s',
     current_sessions m !! sid = Some s /\
     current_sessions (step m op) = <[sid := s']> (current_sessions m) /\
     same_shape s s').
Proof.
  assert (forall st s, same_shape s (ConversationManager.set_status st s))
    as Hshape by (intros; repeat split; reflexivity).
  destruct op; try contradiction; intros _; cbn [step].
  - unfold ConversationManager.pause_session.
    destruct (current_sessions m !! sid) as [s |] eqn:Hs; cbn [snd];
      (split; [reflexivity |]); [right | left; reflexivity].
    exists sid, s. eexists.
    split; [exact Hs | split; [reflexivity | apply Hshape]].
  - unfold ConversationManager.resume_session.
    destruct (current_sessions m !! sid) as [s |] eqn:Hs; cbn [snd];
      [| split; [reflexivity | left; reflexivity]].
    destruct (status s); cbn [snd];
      try (split; [reflexivity | left; reflexivity]).
    destruct (nth_error _ _); cbn [snd];
      (split; [reflexivity |];
       right; exists sid, s; eexists;
       split; [exact Hs | split; [reflexivity | apply Hshape]]).
  - unfold ConversationManager.end_session_early.
    destruct (current_sessions m !! sid) as [s |] eqn:Hs; cbn [snd];
      [| split; [reflexivity | left; reflexivity]].
    destruct (evaluations s); cbn [snd];
      (split; [reflexivity |];
       right; exists sid, s; eexists;
       split; [exact Hs | split; [reflexivity | apply Hshape]]).
Qed.

Lemma get_session_status_state m sid :
  let m' := snd (ConversationManager.get_session_status m sid) in
  db m' = db m /\
  (current_sessions m' = current_sessions m \/
   exists s,
     current_sessions m !! sid = None /\
     ConversationManager._restore_session_from_db (db m) sid = Some s /\
     current_sessions m' = <[sid := s]> (current_sessions m)).
Proof.
  unfold ConversationManager.get_session_status.
  destruct (current_sessions m !! sid) as [s |] eqn:Hs; cbn [snd];
    [split; [reflexivity | left; reflexivity] |].
  destruct (ConversationManager._restore_session_from_db (db m) sid)
    as [s |] eqn:Hr; cbn [snd]; (split; [reflexivity |]).
  - right. exists s. repeat split; reflexivity.
  - left. reflexivity.
Qed.


(** *** The invariant is kept by every operation *)

Lemma invariant_same m m' :
  db m' = db m -> current_sessions m' = current_sessions m ->
  invariant m -> invariant m'.
Proof. unfold invariant. intros -> ->. trivial. Qed.

Lemma session_ok_shape d sid s s' :
  same_shape s s' -> session_ok d sid s -> session_ok d sid s'.
Proof.
  intros (Hq & Hc & Ha & He) [H1 H2 H3 H4 H5].
  constructor; rewrite ?Hq, ?Hc, ?Ha, ?He; assumption.
Qed.

(** The queries of the invariant read the questions and the answers. *)
Lemma session_ok_tables d d' sid s :
  db_questions d' = db_questions d -> db_answers d' = db_answers d ->
  (forall x, In x (map s_id (db_sessions d)) ->
             In x (map s_id (db_sessions d'))) ->
  session_ok d sid s -> session_ok d' sid s.
Proof.
  intros Hq Ha Hs [H1 H2 H3 H4 H5].
  constructor; try assumption.
  - rewrite select_answered_questions_eq, Hq, Ha. exact H3.
  - unfold DatabaseManager.select_questions. rewrite Hq. exact H4.
  - now apply Hs.
Qed.

Lemma db_wf_tables d d' :
  db_questions d' = db_questions d -> db_answers d' = db_answers d ->
  (forall x, In x (map s_id (db_sessions d)) ->
             In x (map s_id (db_sessions d'))) ->
  db_wf d -> db_wf d'.
Proof.
  intros Hq Ha Hs [H1 H2 H3 H4].
  constructor.
  - now rewrite Hq.
  - now rewrite Hq, Ha.
  - rewrite Hq. eapply List.Forall_impl; [| exact H3].
    intros q Hin. now apply Hs.
  - intros sid. specialize (H4 sid).
    rewrite select_answered_questions_eq, Hq, Ha.
    unfold DatabaseManager.select_questions. rewrite Hq. exact H4.
Qed.

Lemma invariant_tables m m' :
  db_questions (db m') = db_questions (db m) ->
  db_answers (db m') = db_answers (db m) ->
  (forall x, In x (map s_id (db_sessions (db m))) ->
             In x (map s_id (db_sessions (db m')))) ->
  current_sessions m' = current_sessions m ->
  invariant m -> invariant m'.
Proof.
  intros Hq Ha Hs Hc [Hwf Hok]. split.
  - eapply db_wf_tables; eassumption.
  - intros sid s Hl. rewrite Hc in Hl.
    eapply session_ok_tables; eauto.
Qed.

Lemma invariant_create_user m name email dom level :
  invariant m -> invariant (step m (OpCreateUser name email dom level)).
Proof.
  intros Hinv. cbn [step]. unfold DatabaseManager.create_user.
  destruct (existsb _ _); cbn [snd];
    (eapply invariant_tables; [.. | exact Hinv]; try reflexivity; auto).
Qed.

Lemma answered_no_rows qs ans sid :
  List.filter (fun q => Nat.eqb (qr_session_id q) sid) qs = [] ->
  answered qs ans sid = [].
Proof.
  intros Hf. unfold answered. rewrite Hf.
  induction ans as [|a ans IH]; [reflexivity | exact IH].
Qed.

Lemma filter_session_none (rows : list QuestionRow) sid sid' :
  Forall (fun row => qr_session_id row = sid) rows -> sid <> sid' ->
  List.filter (fun q => Nat.eqb (qr_session_id q) sid') rows = [].
Proof.
  intros Hall Hne. induction rows as [|r rows IH]; [reflexivity |].
  inversion Hall as [|? ? Hr Hall']; subst. cbn [List.filter].
  assert (Nat.eqb (qr_session_id r) sid' = false) as ->
    by (now apply Nat.eqb_neq).
  now apply IH.
Qed.

Lemma filter_session_all (rows : list QuestionRow) sid :
  Forall (fun row => qr_session_id row = sid) rows ->
  List.filter (fun q => Nat.eqb (qr_session_id q) sid) rows = rows.
Proof.
  intros Hall. induction rows as [|r rows IH]; [reflexivity |].
  inversion Hall as [|? ? Hr Hall']; subst. cbn [List.filter].
  rewrite Nat.eqb_refl. f_equal. now apply IH.
Qed.

Lemma filter_session_absent (qs : list QuestionRow) sid :
  Forall (fun q => qr_session_id q <> sid) qs ->
  List.filter (fun q => Nat.eqb (qr_session_id q) sid) qs = [].
Proof.
  intros Hall. induction qs as [|q qs IH]; [reflexivity |].
  inversion Hall as [|? ? Hq Hall']; subst. cbn [List.filter].
  assert (Nat.eqb (qr_session_id q) sid = false) as ->
    by (now apply Nat.eqb_neq).
  now apply IH.
Qed.

Lemma invariant_start m uid dom job_description preferences :
  invariant m ->
  invariant (step m (OpStart uid dom job_description preferences)).
Proof.
  intros Hinv. cbn [step].
  pose proof (start_state m uid dom job_description preferences) as Hst.
  cbv zeta in Hst. cbn [DatabaseManager.create_session snd] in Hst.
  set (sid := DatabaseManager.next_id (map s_id (db_sessions (db m)))) in *.
  set (d1 := {| db_users := db_users (db m);
                db_sessions := db_sessions (db m) ++ _;
                db_questions := db_questions (db m);
                db_answers := db_answers (db m) |}) in *.
  assert (forall x, In x (map s_id (db_sessions (db m))) ->
                    In x (map s_id (db_sessions d1))) as Hmono.
  { intros x Hx. cbn [d1 db_sessions]. rewrite map_app, in_app_iff. now left. }
  destruct Hst as [[Hdb Hcs] | (generated & s0 & Hdb & Hcs & Hq0 & Hc0 & Ha0 & He0)].
  - eapply invariant_tables; [.. | exact Hinv]; rewrite ?Hdb; auto.
  - destruct Hinv as [[W1 W2 W3 W4] Hok].
    destruct (save_questions_spec d1 sid generated)
      as (rows & Rq & Ru & Rs & Ra & Rsid & Rids & Rfresh & Rnd).
    rewrite <- Hdb in Rq, Ru, Rs, Ra. rewrite <- Hq0 in Rids.
    cbn [d1 db_questions db_users db_sessions db_answers] in Rq, Ru, Rs, Ra, Rfresh.
    set (qs0 := db_questions (db m)) in *.
    assert (~ In sid (map s_id (db_sessions (db m)))) as Hsid_fresh
      by apply next_id_fresh.
    assert (Forall (fun q => qr_session_id q <> sid) qs0) as Hold.
    { eapply List.Forall_impl; [| exact W3].
      intros q Hin Heq. apply Hsid_fresh. now rewrite <- Heq. }
    assert (forall sid', answered (qs0 ++ rows) (db_answers (db m)) sid'
                         = answered qs0 (db_answers (db m)) sid') as Hans.
    { intros sid'. apply answered_new_rows.
      eapply List.Forall_impl; [| exact W2].
      intros a Hin. eapply List.Forall_impl; [| exact Rfresh].
      intros row Hrow Heq. apply Hrow. now rewrite Heq. }
    assert (In sid (map s_id (db_sessions (db (step m (OpStart uid dom
              job_description preferences)))))) as Hsid_in.
    { cbn [step]. rewrite Rs, map_app, in_app_iff. right. now left. }
    cbn [step] in Hsid_in.
    split.
    + constructor.
      * rewrite Rq, map_app. apply List.NoDup_app; [assumption .. |].
        intros x Hx Hx'. apply in_map_iff in Hx'.
        destruct Hx' as [row [Heq Hrow]].
        rewrite List.Forall_forall in Rfresh.
        apply (Rfresh row Hrow). now rewrite Heq.
      * rewrite Rq, Ra. eapply List.Forall_impl; [| exact W2].
        intros a Hin. rewrite map_app, in_app_iff. now left.
      * rewrite Rq, Rs. apply List.Forall_app. split.
        -- eapply List.Forall_impl; [| exact W3].
           intros q Hin. rewrite map_app, in_app_iff. now left.
        -- eapply List.Forall_impl; [| exact Rsid].
           intros row ->. rewrite map_app, in_app_iff. right. now left.
      * intros sid'. rewrite select_answered_questions_eq, Rq, Ra, Hans.
        unfold DatabaseManager.select_questions. rewrite Rq.
        rewrite List.filter_app, length_app.
        specialize (W4 sid'). rewrite select_answered_questions_eq in W4.
        unfold DatabaseManager.select_questions in W4. fold qs0 in W4. lia.
    + intros sid' s Hl. rewrite Hcs in Hl.
      destruct (decide (sid = sid')) as [<- | Hne].
      * rewrite lookup_insert_eq in Hl. injection Hl as <-.
        constructor.
        -- now rewrite Ha0, He0.
        -- rewrite Ha0. cbn. lia.
        -- rewrite Hc0, select_answered_questions_eq, Rq, Ra, Hans.
           rewrite answered_no_rows; [reflexivity |].
           now apply filter_session_absent.
        -- unfold DatabaseManager.select_questions. rewrite Rq.
           rewrite List.filter_app, filter_session_absent by assumption.
           rewrite filter_session_all by assumption. exact Rids.
        -- exact Hsid_in.
      * rewrite lookup_insert_ne in Hl by assumption.
        destruct (Hok sid' s Hl) as [H1 H2 H3 H4 H5].
        constructor; try assumption.
        -- rewrite select_answered_questions_eq, Rq, Ra, Hans. exact H3.
        -- unfold DatabaseManager.select_questions. rewrite Rq.
           rewrite List.filter_app.
           rewrite (filter_session_none rows sid sid') by assumption.
           rewrite app_nil_r. exact H4.
        -- rewrite Rs, map_app, in_app_iff. now left.
Qed.


(** The question at the cursor of a held session is a row of that
    session, and the cursor is below the number of its rows. *)
Lemma current_question_row d sid s question question_id :
  session_ok d sid s ->
  nth_error (questions s) (current_question_index s) = Some question ->
  q_db_id question = Some question_id ->
  exists row,
    In row (db_questions d) /\ qr_session_id row = sid /\
    qr_id row = question_id /\
    (current_question_index s
     < List.length (DatabaseManager.select_questions d sid))%nat.
Proof.
  intros [H1 H2 H3 H4 H5] Hq Hid.
  apply (List.map_nth_error q_db_id) in Hq. rewrite H4, Hid in Hq.
  rewrite List.nth_error_map in Hq.
  destruct (nth_error (DatabaseManager.select_questions d sid)
              (current_question_index s)) as [row |] eqn:Hrow;
    [| discriminate].
  cbn in Hq. injection Hq as Hq.
  pose proof (nth_error_In _ _ Hrow) as Hin.
  apply List.filter_In in Hin. destruct Hin as [Hin Hsid].
  apply Nat.eqb_eq in Hsid.
  exists row. repeat split; try assumption.
  apply nth_error_Some. congruence.
Qed.

Lemma invariant_process_answer m sid answer :
  invariant m -> invariant (step m (OpAnswer sid answer)).
Proof.
  intros Hinv. cbn [step].
  destruct (process_answer_state m sid answer)
    as [[Hdb Hcs] |
        (s & question & question_id & s' & Hs & Hq & Hid & Ru & Rs & Rq
         & (a & Ra & Haid) & Hcs & Hq' & Hc' & Ha' & He')].
  - now apply (invariant_same m).
  - destruct Hinv as [[W1 W2 W3 W4] Hok].
    pose proof (Hok sid s Hs) as Hsok.
    destruct (current_question_row _ _ _ _ _ Hsok Hq Hid)
      as (row & Hrow & Hrsid & Hrid & Hlt).
    assert (forall sid',
               DatabaseManager.select_answered_questions
                 (db (ConversationManager.process_answer m sid answer).2) sid'
               = DatabaseManager.select_answered_questions (db m) sid'
                 ++ (if Nat.eqb sid sid' then [question_id] else []))
      as Hans.
    { intros sid'. rewrite !select_answered_questions_eq, Rq, Ra.
      rewrite answered_snoc. f_equal. rewrite Haid, <- Hrid.
      rewrite (filter_unique_id _ row sid' W1 Hrow), Hrsid.
      now destruct (Nat.eqb sid sid'). }
    assert (forall sid',
               DatabaseManager.select_questions
                 (db (ConversationManager.process_answer m sid answer).2) sid'
               = DatabaseManager.select_questions (db m) sid') as Hsel.
    { intros sid'. unfold DatabaseManager.select_questions. now rewrite Rq. }
    split.
    + constructor.
      * now rewrite Rq.
      * rewrite Rq, Ra. apply List.Forall_app. split; [assumption |].
        constructor; [| constructor].
        rewrite Haid, <- Hrid. now apply in_map.
      * now rewrite Rq, Rs.
      * intros sid'. rewrite Hans, Hsel, length_app.
        specialize (W4 sid').
        destruct (Nat.eqb_spec sid sid') as [<- | Hne]; cbn [List.length].
        -- destruct Hsok as [_ _ H3 _ _]. rewrite <- H3. lia.
        -- lia.
    + intros sid' s'' Hl. rewrite Hcs in Hl.
      destruct (decide (sid = sid')) as [<- | Hne].
      * rewrite lookup_insert_eq in Hl. injection Hl as <-.
        destruct Hsok as [H1 H2 H3 H4 H5].
        constructor.
        -- lia.
        -- lia.
        -- rewrite Hans, Nat.eqb_refl, length_app. cbn [List.length]. lia.
        -- rewrite Hsel, Hq'. exact H4.
        -- now rewrite Rs.
      * rewrite lookup_insert_ne in Hl by assumption.
        destruct (Hok sid' s'' Hl) as [H1 H2 H3 H4 H5].
        constructor; try assumption.
        -- rewrite Hans. apply Nat.eqb_neq in Hne. rewrite Hne.
           now rewrite app_nil_r.
        -- now rewrite Hsel.
        -- now rewrite Rs.
Qed.

Lemma invariant_insert_shape m m' sid s s' :
  db m' = db m ->
  current_sessions m !! sid = Some s ->
  current_sessions m' = <[sid := s']> (current_sessions m) ->
  same_shape s s' ->
  invariant m -> invariant m'.
Proof.
  intros Hdb Hs Hcs Hshape [Hwf Hok]. split; [now rewrite Hdb |].
  intros sid' s'' Hl. rewrite Hcs in Hl. rewrite Hdb.
  destruct (decide (sid = sid')) as [<- | Hne].
  - rewrite lookup_insert_eq in Hl. injection Hl as <-.
    eapply session_ok_shape; [exact Hshape | now apply Hok].
  - rewrite lookup_insert_ne in Hl by assumption. now apply Hok.
Qed.

Lemma restore_session_row d sid s :
  ConversationManager._restore_session_from_db d sid = Some s ->
  In sid (map s_id (db_sessions d)) /\
  DatabaseManager.select_questions d sid <> [].
Proof.
  unfold ConversationManager._restore_session_from_db,
    DatabaseManager.select_session_with_user.
  destruct (find _ (db_sessions d)) as [session_row |] eqn:Hf;
    [| discriminate].
  apply find_some in Hf. destruct Hf as [Hin Heq]. apply Nat.eqb_eq in Heq.
  intros Hr. split.
  - rewrite <- Heq. now apply in_map.
  - intros Hnil. rewrite Hnil in Hr.
    destruct (DatabaseManager.get_user d (s_user_id session_row));
      discriminate.
Qed.

Lemma invariant_get_session_status m sid :
  invariant m -> invariant (step m (OpStatus sid)).
Proof.
  intros Hinv. cbn [step].
  destruct (get_session_status_state m sid)
    as [Hdb [Hcs | (s & Hnone & Hr & Hcs)]].
  - now apply (invariant_same m).
  - destruct Hinv as [Hwf Hok]. split; [now rewrite Hdb |].
    intros sid' s' Hl. rewrite Hcs in Hl. rewrite Hdb.
    destruct (decide (sid = sid')) as [<- | Hne].
    + rewrite lookup_insert_eq in Hl. injection Hl as <-.
      destruct (ManagerFacts.restore_cursor _ _ _ Hr)
        as (Hc & Hlen & Ha & He & Hst & Hids).
      destruct (restore_session_row _ _ _ Hr) as [Hrow _].
      constructor; try assumption.
      * now rewrite Ha, He.
      * rewrite Ha. cbn. lia.
    + rewrite lookup_insert_ne in Hl by assumption. now apply Hok.
Qed.

Lemma invariant_restart m : invariant m -> invariant (step m OpRestart).
Proof.
  intros [Hwf _]. split; [exact Hwf |].
  intros sid s Hl. cbn in Hl. rewrite lookup_empty in Hl. discriminate.
Qed.

Lemma invariant_step m op : invariant m -> invariant (step m op).
Proof.
  intros Hinv. destruct op.
  - now apply invariant_create_user.
  - now apply invariant_start.
  - now apply invariant_process_answer.
  - destruct (status_ops_state m (OpPause sid) I)
      as [Hdb [Hcs | (k & s & s' & Hs & Hcs & Hshape)]].
    + now apply (invariant_same m).
    + eapply invariant_insert_shape; eassumption.
  - destruct (status_ops_state m (OpResume sid) I)
      as [Hdb [Hcs | (k & s & s' & Hs & Hcs & Hshape)]].
    + now apply (invariant_same m).
    + eapply invariant_insert_shape; eassumption.
  - destruct (status_ops_state m (OpEndEarly sid) I)
      as [Hdb [Hcs | (k & s & s' & Hs & Hcs & Hshape)]].
    + now apply (invariant_same m).
    + eapply invariant_insert_shape; eassumption.
  - now apply invariant_get_session_status.
  - now apply invariant_restart.
Qed.

Lemma invariant_initial : invariant initial.
Proof.
  split.
  - constructor; cbn; constructor.
  - intros sid s Hl. cbn in Hl. rewrite lookup_empty in Hl. discriminate.
Qed.

Lemma invariant_run m ops : invariant m -> invariant (run m ops).
Proof.
  revert m. induction ops as [|op ops IH]; intros m Hinv; [exact Hinv |].
  cbn [run fold_left]. apply IH. now apply invariant_step.
Qed.

Lemma invariant_reachable m : reachable m -> invariant m.
Proof. intros [ops ->]. apply invariant_run, invariant_initial. Qed.

(** In a state that satisfies the invariant the cursor of a held session
    is within its questions. *)
Lemma invariant_cursor_bound m sid s :
  invariant m -> current_sessions m !! sid = Some s ->
  (List.length (answers s) <= current_question_index s
   <= List.length (questions s))%nat.
Proof.
  intros [[W1 W2 W3 W4] Hok] Hs.
  destruct (Hok sid s Hs) as [H1 H2 H3 H4 H5]. split; [assumption |].
  rewrite <- (length_map q_db_id), H4, length_map, H3. apply W4.
Qed.


(** *** Without a restart every answer stays in the sequence *)

Lemma lossless_same m m' :
  db_questions (db m') = db_questions (db m) ->
  current_sessions m' = current_sessions m ->
  lossless m -> lossless m'.
Proof. unfold lossless. intros -> ->. trivial. Qed.

Lemma lossless_insert m m' sid s' :
  db_questions (db m') = db_questions (db m) ->
  current_sessions m' = <[sid := s']> (current_sessions m) ->
  List.length (answers s') = current_question_index s' ->
  lossless m -> lossless m'.
Proof.
  intros Hq Hcs Hlen [Hl Hheld]. split.
  - intros sid' s'' Hlook. rewrite Hcs in Hlook.
    destruct (decide (sid = sid')) as [<- | Hne].
    + rewrite lookup_insert_eq in Hlook. now injection Hlook as <-.
    + rewrite lookup_insert_ne in Hlook by assumption. eapply Hl; eassumption.
  - rewrite Hq, Hcs. eapply List.Forall_impl; [| exact Hheld].
    intros q Hsome. rewrite lookup_insert_is_Some.
    destruct (decide (sid = qr_session_id q)); [now left | now right].
Qed.

Lemma lossless_status_op m op :
  match op with
  | OpPause _ | OpResume _ | OpEndEarly _ => True
  | _ => False
  end ->
  lossless m -> lossless (step m op).
Proof.
  intros Hop Hl.
  destruct (status_ops_state m op Hop)
    as [Hdb [Hcs | (k & s & s' & Hs & Hcs & (Hq & Hc & Ha & He))]].
  - apply (lossless_same m); [now rewrite Hdb | assumption ..].
  - eapply (lossless_insert m); [now rewrite Hdb | exact Hcs | | exact Hl].
    rewrite Ha, Hc. destruct Hl as [Hlen _]. eapply Hlen; eassumption.
Qed.

Lemma lossless_step m op :
  is_restart op = false -> lossless m -> lossless (step m op).
Proof.
  intros Hop Hl. destruct op; try discriminate.
  - cbn [step]. unfold DatabaseManager.create_user.
    destruct (existsb _ _); cbn [snd]; now apply (lossless_same m).
  - cbn [step].
    pose proof (start_state m uid dom job_description preferences) as Hst.
    cbv zeta in Hst. cbn [DatabaseManager.create_session snd] in Hst.
    set (sid := DatabaseManager.next_id (map s_id (db_sessions (db m)))) in *.
    set (d1 := {| db_users := db_users (db m);
                  db_sessions := db_sessions (db m) ++ _;
                  db_questions := db_questions (db m);
                  db_answers := db_answers (db m) |}) in *.
    destruct Hst as [[Hdb Hcs] |
                     (generated & s0 & Hdb & Hcs & Hq0 & Hc0 & Ha0 & He0)].
    + apply (lossless_same m); [now rewrite Hdb | assumption ..].
    + destruct (save_questions_spec d1 sid generated)
        as (rows & Rq & _ & _ & _ & Rsid & _ & _ & _).
      rewrite <- Hdb in Rq. cbn [d1 db_questions] in Rq.
      destruct Hl as [Hlen Hheld]. split.
      * intros sid' s Hlook. rewrite Hcs in Hlook.
        destruct (decide (sid = sid')) as [<- | Hne].
        -- rewrite lookup_insert_eq in Hlook. injection Hlook as <-.
           now rewrite Ha0, Hc0.
        -- rewrite lookup_insert_ne in Hlook by assumption.
           eapply Hlen; eassumption.
      * rewrite Rq, Hcs. apply List.Forall_app. split.
        -- eapply List.Forall_impl; [| exact Hheld].
           intros q Hsome. rewrite lookup_insert_is_Some.
           destruct (decide (sid = qr_session_id q)); [now left | now right].
        -- eapply List.Forall_impl; [| exact Rsid].
           intros row ->. rewrite lookup_insert_eq. now eexists.
  - cbn [step].
    destruct (process_answer_state m sid answer)
      as [[Hdb Hcs] |
          (s & question & question_id & s' & Hs & Hq & Hid & Ru & Rs & Rq
           & _ & Hcs & Hq' & Hc' & Ha' & He')].
    + apply (lossless_same m); [now rewrite Hdb | assumption ..].
    + eapply (lossless_insert m); [exact Rq | exact Hcs | | exact Hl].
      destruct Hl as [Hlen _]. rewrite Ha', Hc'.
      f_equal. eapply Hlen; eassumption.
  - now apply lossless_status_op.
  - now apply lossless_status_op.
  - now apply lossless_status_op.
  - cbn [step].
    destruct (get_session_status_state m sid)
      as [Hdb [Hcs | (s & Hnone & Hr & Hcs)]].
    + apply (lossless_same m); [now rewrite Hdb | assumption ..].
    + exfalso. destruct (restore_session_row _ _ _ Hr) as [_ Hrows].
      destruct (DatabaseManager.select_questions (db m) sid)
        as [|row rows] eqn:Hsel; [congruence |].
      assert (In row (DatabaseManager.select_questions (db m) sid)) as Hin
        by (rewrite Hsel; now left).
      apply List.filter_In in Hin. destruct Hin as [Hin Heq].
      apply Nat.eqb_eq in Heq. destruct Hl as [_ Hheld].
      rewrite List.Forall_forall in Hheld. specialize (Hheld row Hin).
      rewrite Heq, Hnone in Hheld. now destruct Hheld.
Qed.

Lemma lossless_initial : lossless initial.
Proof.
  split; [| constructor].
  intros sid s Hl. cbn in Hl. rewrite lookup_empty in Hl. discriminate.
Qed.

Lemma lossless_run m ops :
  forallb (fun op => negb (is_restart op)) ops = true ->
  lossless m -> lossless (run m ops).
Proof.
  revert m. induction ops as [|op ops IH]; intros m Hops Hl; [exact Hl |].
  cbn [forallb] in Hops. apply andb_true_iff in Hops.
  destruct Hops as [Hop Hops]. apply negb_true_iff in Hop.
  cbn [run fold_left]. apply IH; [assumption |]. now apply lossless_step.
Qed.

(** C2 as the code has it.  In every reachable state, every held session
    has a cursor that is at most the number of its questions and a
    sequence of answers that is no longer than the cursor; in every state
    reached without a loss of the transient state, the length of the
    sequence of answers equals the cursor; and a session that
    [get_session_status] restores from the database in a reachable state
    has an empty sequence of answers and a cursor equal to the number of
    persisted answers to its questions. *)
Theorem cursor_invariant :
  (forall m sid s,
      reachable m -> current_sessions m !! sid = Some s ->
      (List.length (answers s) <= current_question_index s
       <= List.length (questions s))%nat) /\
  (forall m sid s,
      reachable_without_restart m -> current_sessions m !! sid = Some s ->
      List.length (answers s) = current_question_index s) /\
  (forall m sid s,
      reachable m -> current_sessions m !! sid = None ->
      fst (ConversationManager.get_session_status m sid) = Some s ->
      answers s = [] /\
      current_question_index s
      = List.length (Stored.answers_of (db m) sid) /\
      current_sessions (snd (ConversationManager.get_session_status m sid))
        !! sid = Some s).
Proof.
  split; [| split].
  - intros m sid s Hr Hs.
    eapply invariant_cursor_bound; [| exact Hs].
    now apply invariant_reachable.
  - intros m sid s (ops & Hops & ->) Hs.
    pose proof (lossless_run initial ops Hops
                  lossless_initial) as [Hlen _].
    eapply Hlen; eassumption.
  - intros m sid s Hr Hnone.
    apply invariant_reachable in Hr as [[Hids _ _ _] _].
    unfold ConversationManager.get_session_status. rewrite Hnone.
    destruct (ConversationManager._restore_session_from_db (db m) sid)
      as [session |] eqn:Er; [| discriminate].
    cbn [fst snd]. intros [= <-].
    destruct (ManagerFacts.restore_cursor _ _ _ Er) as (Hc & _ & Ha & _).
    split; [exact Ha |]. split.
    + rewrite Hc. now apply StoredFacts.answered_length_answers.
    + cbn [ConversationManager.set_session current_sessions].
      apply lookup_insert_eq.
Qed.

End WithExternals.
End InvariantFacts.

(** ** The offline instance meets what is assumed of the libraries *)

Module OfflineFacts.
Import PyFacts.

Lemma string_of_list_ascii_app (a b : list ascii) :
  string_of_list_ascii (a ++ b)
  = string_of_list_ascii a +:+ string_of_list_ascii b.
Proof.
  induction a as [|x a IH]; [reflexivity |].
  cbn [app string_of_list_ascii]. rewrite append_cons. now f_equal.
Qed.

(** A word returned by [split] is a piece of the text. *)
Lemma split_go_occurs (l acc : list ascii) (w : string) :
  In w (Py.split_go acc l) ->
  exists pre post,
    string_of_list_ascii (rev acc ++ l) = pre +:+ w +:+ post.
Proof.
  revert acc. induction l as [|c l IH]; intros acc Hin.
  - cbn [Py.split_go] in Hin. destruct acc as [|a acc]; [contradiction |].
    destruct Hin as [<- | []]. exists EmptyString, EmptyString.
    now rewrite app_nil_r, append_nil_l, append_nil_r.
  - cbn [Py.split_go] in Hin. destruct (Py.is_space c).
    + destruct acc as [|a acc].
      * destruct (IH [] Hin) as (pre & post & Heq). cbn [rev app] in Heq |- *.
        exists (String c pre), post. cbn [string_of_list_ascii].
        rewrite append_cons. now f_equal.
      * destruct Hin as [<- | Hin].
        -- exists EmptyString, (string_of_list_ascii (c :: l)).
           now rewrite string_of_list_ascii_app, append_nil_l.
        -- destruct (IH [] Hin) as (pre & post & Heq). cbn [rev app] in Heq.
           exists (string_of_list_ascii (rev (a :: acc) ++ [c]) +:+ pre), post.
           rewrite append_assoc, <- Heq, <- string_of_list_ascii_app.
           now rewrite <- app_assoc.
    + destruct (IH (c :: acc) Hin) as (pre & post & Heq).
      exists pre, post. rewrite <- Heq. cbn [rev]. now rewrite <- app_assoc.
Qed.

Lemma split_occurs (text w : string) :
  In w (Py.split text) -> Py.contains w text = true.
Proof.
  intros Hin. apply contains_spec.
  destruct (split_go_occurs _ [] w Hin) as (pre & post & Heq).
  exists pre, post. rewrite <- Heq. cbn [rev app].
  now rewrite string_of_list_ascii_of_string.
Qed.

Lemma offline_contracts : LibraryContracts (H := Offline.externals).
Proof.
  constructor.
  - intros reference generated f1 f2 fl Hs. discriminate Hs.
  - intros y_true y_pred f Hs. cbn in Hs. injection Hs as <-.
    unfold Offline.agreement. destruct (decide (y_true = y_pred)); split; lra.
  - intros text word Hin _. now apply split_occurs.
Qed.

End OfflineFacts.

(** ** The properties on concrete runs *)

Module Runs.
Import Scenarios.

(** C2, as stated, fails.  After one answer, a restart and a status
    request, the session that is held has cursor 1 and no answers. *)
Lemma restored_session_has_cursor_without_answers :
  reachable (H := Offline.externals) restored /\
  answers <$> current_sessions restored !! 1%nat = Some [] /\
  current_question_index <$> current_sessions restored !! 1%nat = Some 1%nat /\
  ~ (forall m sid s,
        reachable (H := Offline.externals) m ->
        current_sessions m !! sid = Some s ->
        List.length (answers s) = current_question_index s).
Proof.
  assert (reachable (H := Offline.externals) restored) as Hr
    by (eexists; reflexivity).
  split; [exact Hr |].
  split; [vm_compute; reflexivity |].
  split; [vm_compute; reflexivity |].
  intros Hall.
  destruct (current_sessions restored !! 1%nat) as [s |] eqn:Hs.
  - specialize (Hall restored 1%nat s Hr Hs).
    revert Hall. revert Hs. vm_compute. intros [= <-]. discriminate.
  - revert Hs. vm_compute. discriminate.
Qed.


(** C5, as stated, fails.  The model answer to the first of two
    questions is scored above 0.8; the next question is returned without
    any follow-up or encouragement. *)
Lemma high_score_gets_no_encouragement :
  exists evaluation next_question progress m',
    ConversationManager.process_answer (H := Scripted.externals)
      scripted_started 1 Scripted.model_answer
    = (Returned (QuestionAnswered evaluation next_question None progress), m')
    /\ overall_score evaluation == 0.919
    /\ 0.8 < overall_score evaluation.
Proof.
  do 4 eexists. split; [vm_compute; reflexivity |].
  split; reflexivity.
Qed.

(** C9, as stated, fails.  A start that asks for zero questions succeeds
    and stores an active session with an empty list of questions. *)
Lemma zero_questions_gives_active_empty_session :
  let r := ConversationManager.start_interview_session
             (H := Offline.externals) one_user 1 "Software Engineering" ""
             (Some (technical 0)) in
  fst r
  = Returned
      (StartSuccess 1 None 0
         {| si_domain := "Software Engineering"; si_user_name := "Ann";
            si_experience_level := "Beginner" |}) /\
  questions <$> current_sessions (snd r) !! 1%nat = Some [] /\
  status <$> current_sessions (snd r) !! 1%nat = Some Active.
Proof. vm_compute. repeat split; reflexivity. Qed.

(** C6 on a session whose only question has been answered: its status is
    completed, and [pause_session] returns success and sets the status to
    paused; a [resume_session] after that fails for want of a question
    and leaves the session active. *)
Theorem pause_of_completed_session_succeeds :
  let paused := snd (ConversationManager.pause_session completed 1) in
  status <$> current_sessions completed !! 1%nat = Some Completed /\
  fst (ConversationManager.pause_session completed 1)
  = PauseSuccess "Session paused" /\
  status <$> current_sessions paused !! 1%nat = Some Paused /\
  fst (ConversationManager.resume_session paused 1)
  = ResumeError "No more questions in session" /\
  status <$> current_sessions
               (snd (ConversationManager.resume_session paused 1)) !! 1%nat
  = Some Active.
Proof. vm_compute. repeat split; reflexivity. Qed.

(** *** The theorems at concrete inputs *)

(** C1 on the example question and answer of the specification. *)
Lemma evaluation_scores_witness :
  let e := fst (AnswerEvaluator.evaluate_answer (H := Offline.externals)
                  Offline.env0 Offline.rest_question Offline.rest_answer) in
  (Config.MIN_ANSWER_LENGTH <= Py.len (Py.strip Offline.rest_answer))%nat /\
  (0 <= overall_score e <= 1) /\
  exists nlp,
    nlp_metrics e = Some nlp /\
    Qabs (overall_score e
          - (0.3 * semantic_score e + 0.25 * keyword_score e
             + 0.25 * structure_score e + 0.2 * composite_nlp_score nlp))
    <= 1 # 1000.
Proof.
  assert (Config.MIN_ANSWER_LENGTH <= Py.len (Py.strip Offline.rest_answer))%nat
    as Hlen by (vm_compute; lia).
  split; [exact Hlen |].
  pose proof (EvaluatorFacts.evaluation_scores_in_range_and_weighted
                (H := Offline.externals)
                (contracts := OfflineFacts.offline_contracts)
                Offline.env0
                Offline.rest_question Offline.rest_answer Hlen)
    as (_ & _ & _ & Ho & Hw).
  split; [exact Ho | exact Hw].
Defined.

(** C4 on an answer of four characters between blanks. *)
Lemma short_answer_witness :
  (Py.len (Py.strip "  Yes.  ") < Config.MIN_ANSWER_LENGTH)%nat /\
  exists e,
    AnswerEvaluator.evaluate_answer (H := Offline.externals) Offline.env0
      Offline.rest_question "  Yes.  " = (e, Offline.env0) /\
    overall_score e == 0.1 /\ nlp_metrics e = None.
Proof.
  assert (Py.len (Py.strip "  Yes.  ") < Config.MIN_ANSWER_LENGTH)%nat
    as Hlen by (vm_compute; lia).
  split; [exact Hlen |].
  destruct (EvaluatorFacts.short_answer_evaluation (H := Offline.externals)
              Offline.env0 Offline.rest_question "  Yes.  " Hlen)
    as (_ & e & He & _ & _ & _ & Ho & _ & Hn).
  exists e. repeat split; assumption.
Defined.


(** C7, as stated, fails.  After one answer and a restart the session can
    be resolved, since the status operation restores it, and one scored
    answer is persisted for it; yet [end_session_early] answers "Session
    not found" and changes nothing, and once the status operation has
    restored the session it is cancelled "with no answers recorded". *)
Lemma end_early_does_not_reconcile :
  (exists session,
      fst (ConversationManager.get_session_status after_restart 1)
      = Some session) /\
  List.length (Stored.answers_of (db after_restart) 1) = 1%nat /\
  ConversationManager.end_session_early after_restart 1
  = (EndError "Session not found", after_restart) /\
  List.length (Stored.answers_of (db restored) 1) = 1%nat /\
  fst (ConversationManager.end_session_early restored 1)
  = SessionCancelled "Session cancelled with no answers recorded." /\
  status <$> current_sessions
               (snd (ConversationManager.end_session_early restored 1))
             !! 1%nat
  = Some Cancelled.
Proof.
  split; [eexists; vm_compute; reflexivity |].
  split; [vm_compute; reflexivity |].
  split; [vm_compute; reflexivity |].
  split; [vm_compute; reflexivity |].
  split; vm_compute; reflexivity.
Qed.

(** C7 as the code has it, on a session of two questions with one
    answer. *)
Lemma end_session_early_witness :
  exists session summary message,
    current_sessions one_answer !! 1%nat = Some session /\
    evaluations session <> [] /\
    fst (ConversationManager.end_session_early one_answer 1)
    = SessionEndedEarly summary message /\
    questions_answered summary = 1%nat /\
    partial_total_questions summary = 2%nat.
Proof.
  destruct (current_sessions one_answer !! 1%nat) as [session |] eqn:Hs;
    [| exfalso; revert Hs; vm_compute; discriminate].
  assert (List.length (evaluations session) = 1%nat
          /\ List.length (questions session) = 2%nat) as [He Hq].
  { revert Hs. vm_compute. intros [= <-]. split; reflexivity. }
  assert (evaluations session <> []) as Hne
    by (intros Hnil; rewrite Hnil in He; discriminate).
  destruct (ManagerFacts.end_session_early_outcome one_answer 1) as [Hheld _].
  destruct (Hheld session Hs) as [_ Hsome].
  destruct (Hsome Hne) as (summary & message & Hr & _ & Ha & Ht & _).
  exists session, summary, message.
  rewrite Ha, Ht, He, Hq.
  repeat split; first [assumption | reflexivity].
Defined.

(** C10 on a database without users. *)
Lemma start_unknown_user_witness :
  DatabaseManager.get_user (db (initial (H := Offline.externals))) 7 = None /\
  exists m',
    ConversationManager.start_interview_session (H := Offline.externals)
      (initial (H := Offline.externals)) 7 "Design" "" None
    = (Returned (StartError "User not found"), m') /\
    db_sessions (db m')
    = [{| s_id := 1; s_user_id := 7; s_domain := "Design" |}].
Proof.
  assert (DatabaseManager.get_user (db (initial (H := Offline.externals))) 7
          = None) as Hu by reflexivity.
  split; [exact Hu |].
  destruct (ManagerFacts.start_unknown_user_leaves_session_row
              (H := Offline.externals) (initial (H := Offline.externals)) 7
              "Design" "" None Hu) as (m' & Hr & Hs & _).
  exists m'. split; [exact Hr | exact Hs].
Defined.

(** C9 as the code has it, for the one user of the database. *)
Lemma start_zero_questions_witness :
  DatabaseManager.get_user (db one_user) 1
  = Some {| u_id := 1; u_name := "Ann"; u_email := "ann@example.com";
            u_domain := "Software Engineering";
            u_experience_level := "Beginner" |} /\
  num_questions (technical 0) = 0%nat /\
  exists sid info m' s,
    ConversationManager.start_interview_session (H := Offline.externals)
      one_user 1 "Software Engineering" "" (Some (technical 0))
    = (Returned (StartSuccess sid None 0 info), m') /\
    current_sessions m' !! sid = Some s /\ status s = Active.
Proof.
  assert (DatabaseManager.get_user (db one_user) 1
          = Some {| u_id := 1; u_name := "Ann"; u_email := "ann@example.com";
                    u_domain := "Software Engineering";
                    u_experience_level := "Beginner" |}) as Hu
    by (vm_compute; reflexivity).
  assert (num_questions (technical 0) = 0%nat) as Hn by reflexivity.
  split; [exact Hu |]. split; [exact Hn |].
  destruct (ManagerFacts.start_zero_questions_is_active
              (H := Offline.externals) one_user 1 "Software Engineering" ""
              (technical 0) _ Hu Hn)
    as (sid & info & m' & s & Hr & Hs & _ & _ & Hst).
  exists sid, info, m', s. repeat split; assumption.
Defined.

(** C5 as the code has it, on the first of two questions. *)
Lemma process_answer_witness :
  exists session question evaluation next_question followup progress m',
    current_sessions scripted_started !! 1%nat = Some session /\
    nth_error (questions session) (current_question_index session)
    = Some question /\
    ConversationManager.process_answer (H := Scripted.externals)
      scripted_started 1 "I do not know." 
    = (Returned (QuestionAnswered evaluation next_question followup progress),
       m') /\
    progress_current progress = 1%nat /\ progress_total progress = 2%nat.
Proof.
  destruct (current_sessions scripted_started !! 1%nat) as [session |] eqn:Hs;
    [| exfalso; revert Hs; vm_compute; discriminate].
  assert (current_question_index session = 0%nat
          /\ List.length (questions session) = 2%nat
          /\ exists question,
               nth_error (questions session) 0 = Some question
               /\ q_db_id question = Some 1%nat) as (Hc & Hl & question & Hq & Hid).
  { revert Hs. vm_compute. intros [= <-].
    split; [reflexivity |]. split; [reflexivity |].
    eexists. split; reflexivity. }
  rewrite <- Hc in Hq.
  assert (current_question_index session + 1 < List.length (questions session))%nat
    as Hlt by (rewrite Hc, Hl; lia).
  destruct (ManagerFacts.process_answer_next_question (H := Scripted.externals)
              scripted_started 1 "I do not know." session question 1 Hs Hq
              Hid Hlt)
    as (evaluation & next_question & followup & progress & m' & Hr & _ & _
        & Hpc & Hpt & _).
  exists session, question, evaluation, next_question, followup, progress, m'.
  split; [reflexivity |]. split; [exact Hq |]. split; [exact Hr |].
  rewrite Hpc, Hpt, Hc, Hl. split; reflexivity.
Defined.

(** C3 on two sessions of two questions after a restart: the first, with
    one answer, is restored with cursor 1, and the second, without
    answers, with cursor 0. *)
Lemma restored_session_witness :
  current_sessions two_sessions !! 1%nat = None /\
  Stored.session_found (db two_sessions) 1 = true /\
  Stored.question_rows (db two_sessions) 1 <> [] /\
  Stored.answered_first (db two_sessions) 1 1 /\
  current_sessions two_sessions !! 2%nat = None /\
  Stored.session_found (db two_sessions) 2 = true /\
  Stored.question_rows (db two_sessions) 2 <> [] /\
  Stored.answered_first (db two_sessions) 2 0 /\
  exists first second,
    fst (ConversationManager.get_session_status two_sessions 1)
    = Some first /\
    current_question_index first = 1%nat /\ status first = Active /\
    fst (ConversationManager.get_session_status two_sessions 2)
    = Some second /\
    current_question_index second = 0%nat /\ status second = Active.
Proof.
  assert (current_sessions two_sessions !! 1%nat = None) as Hnone1
    by (vm_compute; reflexivity).
  assert (Stored.session_found (db two_sessions) 1 = true) as Hfound1
    by (vm_compute; reflexivity).
  assert (Stored.question_rows (db two_sessions) 1 <> []) as Hrows1
    by (vm_compute; discriminate).
  assert (Stored.answered_first (db two_sessions) 1 1) as Hfirst1
    by (split; vm_compute; [lia | reflexivity]).
  assert (current_sessions two_sessions !! 2%nat = None) as Hnone2
    by (vm_compute; reflexivity).
  assert (Stored.session_found (db two_sessions) 2 = true) as Hfound2
    by (vm_compute; reflexivity).
  assert (Stored.question_rows (db two_sessions) 2 <> []) as Hrows2
    by (vm_compute; discriminate).
  assert (Stored.answered_first (db two_sessions) 2 0) as Hfirst2
    by (split; vm_compute; [lia | reflexivity]).
  do 8 (split; [assumption |]).
  destruct (ManagerFacts.restored_session_cursor_and_status two_sessions 1 Hnone1)
    as [Hrestore1 _].
  destruct (Hrestore1 1%nat Hfound1 Hrows1 Hfirst1)
    as (first & Hr1 & Hc1 & _ & _ & Hst1 & _).
  destruct (ManagerFacts.restored_session_cursor_and_status two_sessions 2 Hnone2)
    as [Hrestore2 _].
  destruct (Hrestore2 0%nat Hfound2 Hrows2 Hfirst2)
    as (second & Hr2 & Hc2 & _ & _ & Hst2 & _).
  exists first, second. rewrite Hr1, Hr2.
  split; [reflexivity |]. split; [exact Hc1 |].
  split; [rewrite Hst1; vm_compute; reflexivity |].
  split; [reflexivity |]. split; [exact Hc2 |].
  rewrite Hst2. vm_compute. reflexivity.
Defined.

(** C2 as the code has it, on the restored session, on the session
    before the restart, and on the restart itself. *)
Lemma cursor_invariant_witness :
  reachable (H := Offline.externals) restored /\
  reachable_without_restart (H := Offline.externals) one_answer /\
  reachable (H := Offline.externals) after_restart /\
  current_sessions after_restart !! 1%nat = None /\
  exists s s' s'',
    current_sessions restored !! 1%nat = Some s /\
    (List.length (answers s) <= current_question_index s
     <= List.length (questions s))%nat /\
    current_sessions one_answer !! 1%nat = Some s' /\
    List.length (answers s') = current_question_index s' /\
    fst (ConversationManager.get_session_status after_restart 1)
    = Some s'' /\
    answers s'' = [] /\
    current_question_index s''
    = List.length (Stored.answers_of (db after_restart) 1).
Proof.
  assert (reachable (H := Offline.externals) restored) as Hr
    by (eexists; reflexivity).
  assert (reachable_without_restart (H := Offline.externals) one_answer)
    as Hw by (eexists; split; [| reflexivity]; reflexivity).
  assert (reachable (H := Offline.externals) after_restart) as Ha
    by (eexists; reflexivity).
  assert (current_sessions after_restart !! 1%nat = None) as Hnone
    by (vm_compute; reflexivity).
  split; [exact Hr |]. split; [exact Hw |]. split; [exact Ha |].
  split; [exact Hnone |].
  destruct (current_sessions restored !! 1%nat) as [s |] eqn:Hs;
    [| exfalso; revert Hs; vm_compute; discriminate].
  destruct (current_sessions one_answer !! 1%nat) as [s' |] eqn:Hs';
    [| exfalso; revert Hs'; vm_compute; discriminate].
  destruct (fst (ConversationManager.get_session_status after_restart 1))
    as [s'' |] eqn:Hs'';
    [| exfalso; revert Hs''; vm_compute; discriminate].
  exists s, s', s''.
  destruct (InvariantFacts.cursor_invariant (H := Offline.externals))
    as (Hbound & Hequal & Hrestored).
  destruct (Hrestored after_restart 1%nat s'' Ha Hnone Hs'')
    as (Hans & Hcur & _).
  split; [reflexivity |].
  split; [exact (Hbound restored 1%nat s Hr Hs) |].
  split; [reflexivity |].
  split; [exact (Hequal one_answer 1%nat s' Hw Hs') |].
  split; [reflexivity |]. split; [exact Hans | exact Hcur].
Defined.

End Runs.

(** ** The scores and the session metrics *)

Module MetricsFacts.
Section WithExternals.
Context `{!Externals}.
Import PyFacts.

Lemma round_half_even_mono (x y : Q) :
  x <= y -> (Py.round_half_even x <= Py.round_half_even y)%Z.
Proof.
  intros Hxy.
  pose proof (Qfloor_resp_le _ _ Hxy) as Hf.
  destruct (Z.eq_dec (Qfloor x) (Qfloor y)) as [E | NE].
  - unfold Py.round_half_even. rewrite <- E.
    destruct (Qcompare_spec (x - inject_Z (Qfloor x)) (1 # 2)) as [Ex | Lx | Gx];
      destruct (Qcompare_spec (y - inject_Z (Qfloor x)) (1 # 2)) as [Ey | Ly | Gy];
      try lia; try lra;
      destruct (Z.even (Qfloor x)); lia.
  - destruct (round_half_even_floor x) as [-> | ->];
      destruct (round_half_even_floor y) as [-> | ->]; lia.
Qed.

Lemma round3_mono (x y : Q) : x <= y -> Py.round3 x <= Py.round3 y.
Proof.
  intros Hxy. unfold Py.round3.
  assert (Py.round_half_even (x * 1000) <= Py.round_half_even (y * 1000))%Z
    as Hz by (apply round_half_even_mono; lra).
  rewrite Zle_Qle in Hz.
  unfold Qdiv. apply Qmult_le_compat_r; [exact Hz | discriminate].
Qed.

(** Rounding to thousandths keeps a bound that is itself a number of
    thousandths. *)
Lemma round3_lower (z : Z) (x : Q) :
  inject_Z z / 1000 <= x -> inject_Z z / 1000 <= Py.round3 x.
Proof.
  intros Hx. unfold Py.round3.
  assert (z <= Py.round_half_even (x * 1000))%Z as Hz.
  { apply round_half_even_lower.
    assert (inject_Z z / 1000 == inject_Z z * (1 # 1000)) as E
      by (unfold Qdiv; reflexivity).
    rewrite E in Hx. lra. }
  rewrite Zle_Qle in Hz.
  unfold Qdiv. apply Qmult_le_compat_r; [exact Hz | discriminate].
Qed.

Lemma round3_upper (z : Z) (x : Q) :
  x <= inject_Z z / 1000 -> Py.round3 x <= inject_Z z / 1000.
Proof.
  intros Hx. unfold Py.round3.
  assert (Py.round_half_even (x * 1000) <= z)%Z as Hz.
  { apply round_half_even_upper.
    assert (inject_Z z / 1000 == inject_Z z * (1 # 1000)) as E
      by (unfold Qdiv; reflexivity).
    rewrite E in Hx. lra. }
  rewrite Zle_Qle in Hz.
  unfold Qdiv. apply Qmult_le_compat_r; [exact Hz | discriminate].
Qed.

Lemma Qmaximum_ge_start (x : Q) (l : list Q) : x <= Py.Qmaximum x l.
Proof.
  unfold Py.Qmaximum. revert x. induction l as [|y l IH]; intros x; simpl.
  - lra.
  - eapply Qle_trans; [| apply IH]. apply Q.le_max_l.
Qed.

Lemma Qmaximum_ge (x : Q) (l : list Q) (p : Q) :
  In p l -> p <= Py.Qmaximum x l.
Proof.
  unfold Py.Qmaximum. revert x. induction l as [|y l IH]; intros x Hin;
    [contradiction |].
  simpl. destruct Hin as [-> | Hin].
  - eapply Qle_trans; [apply (Q.le_max_r x p) |].
    apply (Qmaximum_ge_start (Qmax x p) l).
  - now apply IH.
Qed.

Lemma bleu_precision_listed generated_words reference reference_texts :
  In reference reference_texts ->
  Py.split (Py.lower reference) <> [] ->
  In (Py.Qnat
        (List.length
           (List.filter
              (fun word => Py.mem word (Py.split (Py.lower reference)))
              generated_words))
      / Py.Qnat (List.length generated_words))
     (EvaluationMetrics.bleu_precisions generated_words reference_texts).
Proof.
  intros Hin Hne. induction reference_texts as [|r rs IH]; [contradiction |].
  cbn [EvaluationMetrics.bleu_precisions]. destruct Hin as [-> | Hin].
  - destruct (Py.split (Py.lower reference)); [congruence | now left].
  - destruct (Py.split (Py.lower r)); [now apply IH | right; now apply IH].
Qed.

Lemma bleu_precisions_no_words generated_words reference_texts :
  Forall (fun r => Py.split (Py.lower r) = []) reference_texts ->
  EvaluationMetrics.bleu_precisions generated_words reference_texts = [].
Proof.
  induction 1 as [|r rs Hr _ IH]; [reflexivity |].
  cbn [EvaluationMetrics.bleu_precisions]. now rewrite Hr.
Qed.

Lemma filter_all {A} (p : A -> bool) (l : list A) :
  Forall (fun x => p x = true) l -> List.filter p l = l.
Proof.
  induction 1 as [|x l Hx _ IH]; [reflexivity |].
  cbn [List.filter]. rewrite Hx. now f_equal.
Qed.

(** X1. The BLEU-style score of [calculate_bleu_score] lies between 0
    and 1; it is 0 when the generated text has no word and when no
    reference has a word, and it is 1 when the generated text has a word
    and one reference contains every word of it. *)
Theorem bleu_score_bounds generated_text reference_texts :
  let bleu :=
    EvaluationMetrics.calculate_bleu_score generated_text reference_texts in
  let generated_words := Py.split (Py.lower generated_text) in
  0 <= bleu <= 1 /\
  (generated_words = [] -> bleu == 0) /\
  (Forall (fun r => Py.split (Py.lower r) = []) reference_texts ->
   bleu == 0) /\
  (forall reference,
      In reference reference_texts -> generated_words <> [] ->
      Forall (fun word =>
                Py.mem word (Py.split (Py.lower reference)) = true)
             generated_words ->
      bleu == 1).
Proof.
  cbv zeta. split; [apply EvaluatorFacts.bleu_range |].
  unfold EvaluationMetrics.calculate_bleu_score.
  split; [intros ->; reflexivity |]. split.
  - intros Hall. rewrite (bleu_precisions_no_words _ _ Hall).
    destruct (Py.split (Py.lower generated_text)); reflexivity.
  - intros reference Hin Hne Hall.
    destruct (Py.split (Py.lower generated_text)) as [|w ws] eqn:Eg;
      [congruence |].
    assert (Py.split (Py.lower reference) <> []) as Hr.
    { inversion Hall as [|? ? Hw _]; subst. intros Hnil.
      rewrite Hnil in Hw. discriminate. }
    pose proof (bleu_precision_listed (w :: ws) reference reference_texts
                  Hin Hr) as Hp.
    rewrite (filter_all _ _ Hall) in Hp.
    pose proof (EvaluatorFacts.bleu_precisions_range (w :: ws)
                  reference_texts) as Hrange.
    destruct (EvaluationMetrics.bleu_precisions (w :: ws) reference_texts)
      as [|p ps]; [contradiction |].
    inversion Hrange as [|? ? Hp0 Hps]; subst.
    pose proof (EvaluatorFacts.Qmaximum_range p ps Hp0 Hps) as [_ Hhi].
    assert (Py.Qnat (List.length (w :: ws)) / Py.Qnat (List.length (w :: ws))
            == 1) as Hone.
    { apply Qmult_inv_r. intros Hz.
      pose proof (Qnat_pos (List.length (w :: ws)) ltac:(cbn; lia)). lra. }
    assert (1 <= Py.Qmaximum p ps) as Hlo.
    { rewrite <- Hone. destruct Hp as [<- | Hp].
      - apply Qmaximum_ge_start.
      - now apply Qmaximum_ge. }
    lra.
Qed.

(** X2. Without the rouge-score package [calculate_rouge_scores] leaves
    the package switched off and returns three scores with
    0 <= rouge2 <= rougeL <= rouge1 <= 1; all three are 0 when the
    reference has no word. *)
Theorem simple_rouge_ordered generated_text reference_text :
  let r := EvaluationMetrics.calculate_rouge_scores false generated_text
             reference_text in
  snd r = false /\
  0 <= rouge2 (fst r) /\ rouge2 (fst r) <= rougeL (fst r) /\
  rougeL (fst r) <= rouge1 (fst r) /\ rouge1 (fst r) <= 1 /\
  (Py.split (Py.lower reference_text) = [] ->
   rouge1 (fst r) == 0 /\ rouge2 (fst r) == 0 /\ rougeL (fst r) == 0).
Proof.
  cbv zeta. cbn [EvaluationMetrics.calculate_rouge_scores fst snd].
  split; [reflexivity |].
  unfold EvaluationMetrics.simple_rouge.
  set (g := list_to_set (Py.split (Py.lower generated_text)) : gset string).
  set (r := list_to_set (Py.split (Py.lower reference_text)) : gset string).
  destruct (decide (size r = 0%nat)) as [Hz | Hnz].
  - cbn [rouge1 rouge2 rougeL]. repeat split; try lra; reflexivity.
  - assert (0 <= Py.Qnat (size (g ∩ r)) / Py.Qnat (size r) <= 1) as [H0 H1].
    { apply Qnat_ratio_range. apply subseteq_size, intersection_subseteq_r. }
    cbn [rouge1 rouge2 rougeL].
    set (r1 := Py.Qnat (size (g ∩ r)) / Py.Qnat (size r)) in *.
    split; [apply round3_range; split; lra |].
    split; [apply round3_mono; lra |].
    split; [apply round3_mono; lra |].
    split; [apply round3_range; split; lra |].
    intros Hnil. exfalso. apply Hnz. unfold r. rewrite Hnil.
    apply size_empty.
Qed.

Lemma nlp_metrics_flag use_pkg question user_answer :
  use_pkg = false ->
  snd (AnswerEvaluator._calculate_advanced_nlp_metrics use_pkg question
         user_answer) = false.
Proof.
  intros ->. unfold AnswerEvaluator._calculate_advanced_nlp_metrics.
  cbn [EvaluationMetrics.calculate_rouge_scores].
  destruct (EvaluationMetrics.evaluate_answer_quality_metrics _ _ _);
    reflexivity.
Qed.

(** X3. [evaluate_answer] never switches the rouge-score package on: if
    [use_rouge_package] is false before the call it is false after it, and
    the call asks the chat service at most once. *)
Theorem rouge_package_stays_off env question user_answer :
  use_rouge_package env = false ->
  let env' :=
    snd (AnswerEvaluator.evaluate_answer env question user_answer) in
  use_rouge_package env' = false /\
  (draws env <= draws env' <= draws env + 1)%nat.
Proof.
  intros Hoff. cbv zeta. unfold AnswerEvaluator.evaluate_answer.
  destruct (Py.len (Py.strip user_answer) <? Config.MIN_ANSWER_LENGTH)%nat.
  - cbn [snd]. split; [assumption | lia].
  - pose proof (nlp_metrics_flag (use_rouge_package env) question user_answer
                  Hoff) as Hflag.
    destruct (AnswerEvaluator._calculate_advanced_nlp_metrics _ _ _)
      as [nlp use_pkg'].
    cbn [snd] in Hflag. subst use_pkg'.
    unfold AnswerEvaluator._generate_ai_feedback.
    cbn [snd tick set_use_rouge_package use_rouge_package draws].
    split; [reflexivity | lia].
Qed.

(** X4. [batch_evaluate_answers] returns one result for each pair, in the
    order of the pairs, each tagged with the identity of its question,
    and the first result is the evaluation of the first pair. *)
Theorem batch_results_in_order env questions_and_answers :
  let results :=
    fst (AnswerEvaluator.batch_evaluate_answers env questions_and_answers) in
  map fst results = map (fun qa => q_id (fst qa)) questions_and_answers /\
  List.length results = List.length questions_and_answers /\
  (forall question answer rest,
      questions_and_answers = (question, answer) :: rest ->
      head (map snd results)
      = Some (fst (AnswerEvaluator.evaluate_answer env question answer))).
Proof.
  cbv zeta. split; [| split].
  - revert env. induction questions_and_answers as [|[q a] rest IH];
      intros env; [reflexivity |].
    cbn [AnswerEvaluator.batch_evaluate_answers].
    destruct (AnswerEvaluator.evaluate_answer env q a) as [e env1].
    specialize (IH env1).
    destruct (AnswerEvaluator.batch_evaluate_answers env1 rest)
      as [results env2].
    cbn [fst map] in *. now f_equal.
  - revert env. induction questions_and_answers as [|[q a] rest IH];
      intros env; [reflexivity |].
    cbn [AnswerEvaluator.batch_evaluate_answers].
    destruct (AnswerEvaluator.evaluate_answer env q a) as [e env1].
    specialize (IH env1).
    destruct (AnswerEvaluator.batch_evaluate_answers env1 rest)
      as [results env2].
    cbn [fst List.length] in *. now f_equal.
  - intros question answer rest ->.
    cbn [AnswerEvaluator.batch_evaluate_answers].
    destruct (AnswerEvaluator.evaluate_answer env question answer)
      as [e env1].
    destruct (AnswerEvaluator.batch_evaluate_answers env1 rest)
      as [results env2].
    reflexivity.
Qed.

Lemma create_result_level semantic keyword structure overall fb nlp :
  level_matches_score
    (AnswerEvaluator._create_evaluation_result semantic keyword structure
       overall fb nlp).
Proof.
  unfold level_matches_score, AnswerEvaluator._create_evaluation_result.
  assert (0.8 == inject_Z 800 / 1000) as E8 by reflexivity.
  assert (0.6 == inject_Z 600 / 1000) as E6 by reflexivity.
  assert (0.4 == inject_Z 400 / 1000) as E4 by reflexivity.
  destruct (Py.Qleb 0.8 overall) eqn:H8.
  { left. cbn. repeat split. apply Qleb_le in H8.
    rewrite E8 in *. now apply round3_lower. }
  assert (overall <= 0.8) as L8.
  { unfold Py.Qleb in H8.
    destruct (Qcompare_spec 0.8 overall); try discriminate; lra. }
  destruct (Py.Qleb 0.6 overall) eqn:H6.
  { right. left. cbn. repeat split.
    - apply Qleb_le in H6. rewrite E6 in *. now apply round3_lower.
    - rewrite E8 in *. now apply round3_upper. }
  assert (overall <= 0.6) as L6.
  { unfold Py.Qleb in H6.
    destruct (Qcompare_spec 0.6 overall); try discriminate; lra. }
  destruct (Py.Qleb 0.4 overall) eqn:H4.
  { right. right. left. cbn. repeat split.
    - apply Qleb_le in H4. rewrite E4 in *. now apply round3_lower.
    - rewrite E6 in *. now apply round3_upper. }
  assert (overall <= 0.4) as L4.
  { unfold Py.Qleb in H4.
    destruct (Qcompare_spec 0.4 overall); try discriminate; lra. }
  right. right. right. cbn. repeat split.
  rewrite E4 in *. now apply round3_upper.
Qed.

(** X5. In every evaluation returned by [evaluate_answer] the performance
    level and the colour are one of the four pairs Excellent/green,
    Good/blue, Fair/orange, Needs Improvement/red, and the returned overall
    score lies in the band of that level: at least 0.8, between 0.6 and
    0.8, between 0.4 and 0.6, at most 0.4. *)
Theorem evaluation_level_matches_score env question user_answer :
  level_matches_score
    (fst (AnswerEvaluator.evaluate_answer env question user_answer)).
Proof.
  unfold AnswerEvaluator.evaluate_answer.
  destruct (Py.len (Py.strip user_answer) <? Config.MIN_ANSWER_LENGTH)%nat.
  - apply create_result_level.
  - destruct (AnswerEvaluator._calculate_advanced_nlp_metrics _ _ _)
      as [nlp use_pkg'].
    destruct (AnswerEvaluator._generate_ai_feedback _ _ _) as [fb env'].
    apply create_result_level.
Qed.

Lemma create_result_remarks semantic keyword structure overall fb nlp :
  remarks_consistent
    (AnswerEvaluator._create_evaluation_result semantic keyword structure
       overall fb nlp).
Proof.
  unfold remarks_consistent, AnswerEvaluator._create_evaluation_result.
  destruct (if Py.Qleb 0.8 overall then _ else _) as [level col].
  cbn [strengths improvements].
  unfold AnswerEvaluator._identify_strengths,
    AnswerEvaluator._identify_improvements.
  destruct (Py.Qltb 0.7 semantic) eqn:S1;
    destruct (Py.Qltb 0.7 keyword) eqn:S2;
    destruct (Py.Qltb 0.7 structure) eqn:S3;
    destruct (Py.Qltb semantic 0.5) eqn:I1;
    destruct (Py.Qltb keyword 0.5) eqn:I2;
    destruct (Py.Qltb structure 0.5) eqn:I3;
    try (apply Qltb_lt in S1; apply Qltb_lt in I1; lra);
    try (apply Qltb_lt in S2; apply Qltb_lt in I2; lra);
    try (apply Qltb_lt in S3; apply Qltb_lt in I3; lra);
    cbn; (repeat split; try discriminate; try lia);
    intros [Ha Hb];
    repeat match goal with
           | Hx : _ \/ _ |- _ => destruct Hx
           | Hx : False |- _ => contradiction
           | Hx : _ = _ |- _ => discriminate Hx
           end.
Qed.

(** X6. In every evaluation returned by [evaluate_answer] the lists of
    strengths and of improvements are not empty and have at most three
    entries, and none of the three dimensions (content, terminology,
    organisation) is named in both lists. *)
Theorem evaluation_remarks_consistent env question user_answer :
  remarks_consistent
    (fst (AnswerEvaluator.evaluate_answer env question user_answer)).
Proof.
  unfold AnswerEvaluator.evaluate_answer.
  destruct (Py.len (Py.strip user_answer) <? Config.MIN_ANSWER_LENGTH)%nat.
  - apply create_result_remarks.
  - destruct (AnswerEvaluator._calculate_advanced_nlp_metrics _ _ _)
      as [nlp use_pkg'].
    destruct (AnswerEvaluator._generate_ai_feedback _ _ _) as [fb env'].
    apply create_result_remarks.
Qed.

(** X7. [_evaluate_keyword_coverage] returns 0.7 for a question without
    expected keywords; otherwise it returns the share k/n of the n
    expected keywords that it counts, and that share is 1 when every
    expected keyword occurs in the answer, upper and lower case being the
    same. *)
Theorem keyword_coverage_values question user_answer :
  let score :=
    AnswerEvaluator._evaluate_keyword_coverage question user_answer in
  let expected := q_expected_keywords question in
  (expected = [] -> score == 0.7) /\
  (expected <> [] ->
   exists k, (k <= List.length expected)%nat /\
             score == Py.Qnat k / Py.Qnat (List.length expected)) /\
  (expected <> [] ->
   Forall (fun keyword =>
             Py.contains (Py.lower keyword) (Py.lower user_answer) = true)
          expected ->
   score == 1).
Proof.
  cbv zeta. unfold AnswerEvaluator._evaluate_keyword_coverage.
  destruct (q_expected_keywords question) as [|kw kws] eqn:E.
  - split; [intros _; reflexivity |]. split; intros Hne; congruence.
  - split; [discriminate |].
    set (expected := kw :: kws).
    assert ((0 <? List.length expected)%nat = true) as ->
      by (apply Nat.ltb_lt; cbn; lia).
    assert (0 < Py.Qnat (List.length expected)) as Hpos
      by (apply Qnat_pos; cbn; lia).
    split.
    + intros _.
      exists (AnswerEvaluator.matched_keywords expected user_answer).
      assert (AnswerEvaluator.matched_keywords expected user_answer
              <= List.length expected)%nat as Hle
        by apply filter_length_le.
      split; [exact Hle |].
      pose proof (Qnat_ratio_range _ _ Hle) as [_ Hhi].
      destruct (Q.min_spec 1.0
                  (Py.Qnat (AnswerEvaluator.matched_keywords expected
                              user_answer)
                   / Py.Qnat (List.length expected)))
        as [[Hlt Hm] | [Hge Hm]]; rewrite Hm; lra.
    + intros _ Hall.
      assert (AnswerEvaluator.matched_keywords expected user_answer
              = List.length expected) as ->.
      { unfold AnswerEvaluator.matched_keywords. f_equal.
        apply filter_all. eapply List.Forall_impl; [| exact Hall].
        intros keyword Hc. unfold AnswerEvaluator.keyword_matched.
        now rewrite Hc. }
      assert (Py.Qnat (List.length expected) / Py.Qnat (List.length expected)
              == 1) as Hone by (apply Qmult_inv_r; lra).
      destruct (Q.min_spec 1.0
                  (Py.Qnat (List.length expected)
                   / Py.Qnat (List.length expected)))
        as [[Hlt Hm] | [Hge Hm]]; rewrite Hm; lra.
Qed.

Lemma bucket_counts (scores : list Q) :
  (List.length (List.filter (fun x => Py.Qleb 0.8 x) scores)
   + List.length
       (List.filter (fun x => Py.Qleb 0.6 x && Py.Qltb x 0.8) scores)
   + List.length
       (List.filter (fun x => Py.Qleb 0.4 x && Py.Qltb x 0.6) scores)
   + List.length (List.filter (fun x => Py.Qltb x 0.4) scores)
   = List.length scores)%nat.
Proof.
  induction scores as [|x scores IH]; [reflexivity |].
  cbn [List.filter].
  assert ((Py.Qleb 0.8 x = true /\ Py.Qltb x 0.8 = false
           /\ Py.Qleb 0.6 x = true /\ Py.Qltb x 0.6 = false
           /\ Py.Qleb 0.4 x = true /\ Py.Qltb x 0.4 = false) \/
          (Py.Qleb 0.8 x = false /\ Py.Qltb x 0.8 = true
           /\ Py.Qleb 0.6 x = true /\ Py.Qltb x 0.6 = false
           /\ Py.Qleb 0.4 x = true /\ Py.Qltb x 0.4 = false) \/
          (Py.Qleb 0.8 x = false /\ Py.Qltb x 0.8 = true
           /\ Py.Qleb 0.6 x = false /\ Py.Qltb x 0.6 = true
           /\ Py.Qleb 0.4 x = true /\ Py.Qltb x 0.4 = false) \/
          (Py.Qleb 0.8 x = false /\ Py.Qltb x 0.8 = true
           /\ Py.Qleb 0.6 x = false /\ Py.Qltb x 0.6 = true
           /\ Py.Qleb 0.4 x = false /\ Py.Qltb x 0.4 = true)) as Hcase.
  { unfold Py.Qleb, Py.Qltb.
    destruct (Qcompare_spec 0.8 x); destruct (Qcompare_spec x 0.8);
      destruct (Qcompare_spec 0.6 x); destruct (Qcompare_spec x 0.6);
      destruct (Qcompare_spec 0.4 x); destruct (Qcompare_spec x 0.4);
      try lra; tauto. }
  destruct Hcase as [Hc | [Hc | [Hc | Hc]]];
    destruct Hc as (-> & -> & -> & -> & -> & ->);
    cbn [andb List.length]; lia.
Qed.

Lemma count_if_map (p : Q -> bool) (evaluations : list Evaluation) :
  AnswerEvaluator.count_if (fun e => p (overall_score e)) evaluations
  = List.length (List.filter p (map overall_score evaluations)).
Proof.
  unfold AnswerEvaluator.count_if.
  induction evaluations as [|e es IH]; [reflexivity |].
  cbn [List.filter map]. destruct (p (overall_score e)); cbn [List.length];
    now rewrite IH.
Qed.

(** X8. For a non-empty list of evaluations [calculate_session_metrics]
    counts every evaluation in exactly one of the four buckets of the
    performance distribution: the four counts add up to the number of
    evaluations, which is also the reported total. *)
Theorem performance_distribution_partitions evaluations :
  evaluations <> [] ->
  let metrics := AnswerEvaluator.calculate_session_metrics evaluations in
  total_questions metrics = List.length evaluations /\
  exists distribution,
    performance_distribution metrics = Some distribution /\
    (excellent distribution + good distribution + fair distribution
     + needs_improvement distribution = List.length evaluations)%nat.
Proof.
  intros Hne. destruct evaluations as [|e es]; [congruence |].
  cbv zeta. cbn [AnswerEvaluator.calculate_session_metrics total_questions
                  performance_distribution].
  split; [reflexivity |]. eexists. split; [reflexivity |].
  cbn [excellent good fair needs_improvement].
  rewrite (count_if_map (fun x => Py.Qleb 0.8 x)),
    (count_if_map (fun x => Py.Qleb 0.6 x && Py.Qltb x 0.8)),
    (count_if_map (fun x => Py.Qleb 0.4 x && Py.Qltb x 0.6)),
    (count_if_map (fun x => Py.Qltb x 0.4)).
  rewrite bucket_counts. apply length_map.
Qed.


End WithExternals.
End MetricsFacts.

(** ** The question generator *)

Module GeneratorFacts.
Section WithExternals.
Context `{!Externals}.

Lemma random_choice_some {A} env (l : list A) :
  l <> [] ->
  exists x, QuestionGenerator.random_choice env l = (Some x, tick env)
            /\ In x l.
Proof.
  intros Hne. unfold QuestionGenerator.random_choice.
  assert (rand (draws env) mod List.length l < List.length l)%nat as Hlt.
  { apply Nat.mod_upper_bound. destruct l; [congruence | cbn; lia]. }
  destruct (nth_error l (rand (draws env) mod List.length l)) as [x |] eqn:E.
  - exists x. split; [reflexivity |]. eapply nth_error_In; eassumption.
  - apply nth_error_None in E. lia.
Qed.

Lemma random_choice_empty {A} env :
  QuestionGenerator.random_choice env (@nil A) = (None, tick env).
Proof.
  unfold QuestionGenerator.random_choice. cbn [List.length].
  now destruct (rand (draws env) mod 0)%nat.
Qed.

Lemma generate_from_spec env dom level jd types i n :
  types <> [] ->
  exists qs env',
    QuestionGenerator.generate_from env dom level jd types i n
    = (Returned qs, env') /\
    map q_id qs = seq (i + 1) n /\
    Forall (fun q => In (q_type q) types) qs /\
    Forall (fun q => q_db_id q = None) qs /\
    (forall k q, nth_error qs k = Some q ->
                 q_difficulty q
                 = QuestionGenerator._get_difficulty_level level (i + k)).
Proof.
  intros Hne. revert env i. induction n as [|n IH]; intros env i.
  - exists [], env. cbn [QuestionGenerator.generate_from map seq].
    split; [reflexivity |]. split; [reflexivity |].
    split; [constructor |]. split; [constructor |].
    intros k q Hk. now destruct k.
  - cbn [QuestionGenerator.generate_from].
    destruct (random_choice_some env types Hne) as (qt & -> & Hqt).
    destruct (QuestionGenerator._generate_single_question _ _ _ _ _)
      as [data env2].
    destruct (IH env2 (S i)) as (qs & env3 & -> & Hids & Htypes & Hdb & Hdiff).
    eexists. exists env3. split; [reflexivity |].
    cbn [map q_id seq]. split; [| split; [| split]].
    + f_equal. rewrite Hids. f_equal; lia.
    + constructor; [exact Hqt | exact Htypes].
    + constructor; [reflexivity | exact Hdb].
    + intros k q Hk. destruct k as [|k].
      * cbn in Hk. injection Hk as <-. cbn [q_difficulty]. f_equal. lia.
      * cbn in Hk. rewrite (Hdiff k q Hk). f_equal. lia.
Qed.

(** X10. With at least one question type allowed, [generate_questions]
    returns exactly [num_questions] questions, numbered 1, 2, ... in
    order; each has one of the allowed types, the difficulty that
    [_get_difficulty_level] gives for its position, and no database id
    yet.  With no type allowed and at least one question asked for it
    raises [IndexError]. *)
Theorem generate_questions_shape env dom level job_description
    num_questions question_types :
  (question_types <> [] ->
   exists qs env',
     QuestionGenerator.generate_questions env dom level job_description
       num_questions question_types = (Returned qs, env') /\
     List.length qs = num_questions /\
     map q_id qs = seq 1 num_questions /\
     Forall (fun q => In (q_type q) question_types) qs /\
     Forall (fun q => q_db_id q = None) qs /\
     (forall k q, nth_error qs k = Some q ->
                  q_difficulty q
                  = QuestionGenerator._get_difficulty_level level k)) /\
  (question_types = [] -> (0 < num_questions)%nat ->
   exists env',
     QuestionGenerator.generate_questions env dom level job_description
       num_questions question_types
     = (Raised "IndexError: Cannot choose from an empty sequence", env')).
Proof.
  split.
  - intros Hne. unfold QuestionGenerator.generate_questions.
    destruct (generate_from_spec env dom level job_description
                question_types 0 num_questions Hne)
      as (qs & env' & Hr & Hids & Htypes & Hdb & Hdiff).
    exists qs, env'. split; [exact Hr |].
    split; [| split; [exact Hids | split; [exact Htypes | split;
                                           [exact Hdb | exact Hdiff]]]].
    rewrite <- (length_map q_id), Hids. apply length_seq.
  - intros -> Hpos. unfold QuestionGenerator.generate_questions.
    destruct num_questions as [|n]; [lia |].
    cbn [QuestionGenerator.generate_from].
    rewrite random_choice_empty. eexists. reflexivity.
Qed.

(** X11. [_get_difficulty_level] always returns Easy, Medium or Hard; a
    beginner is never given Hard, an advanced user never Easy, and an
    experience level other than Beginner, Intermediate and Advanced always
    gets Medium. *)
Theorem difficulty_levels experience_level question_number :
  let difficulty :=
    QuestionGenerator._get_difficulty_level experience_level
      question_number in
  (difficulty = "Easy" \/ difficulty = "Medium" \/ difficulty = "Hard") /\
  (experience_level = "Beginner" -> difficulty <> "Hard") /\
  (experience_level = "Advanced" -> difficulty <> "Easy") /\
  (experience_level <> "Beginner" -> experience_level <> "Intermediate" ->
   experience_level <> "Advanced" -> difficulty = "Medium").
Proof.
  cbv zeta. unfold QuestionGenerator._get_difficulty_level.
  destruct (String.eqb_spec experience_level "Beginner") as [-> | Hb].
  { cbn [List.length].
    pose proof (Nat.mod_upper_bound question_number 3 ltac:(lia)) as Hm.
    destruct (question_number mod 3)%nat as [|[|[|k]]]; try lia;
      cbn; (repeat split; try tauto; try congruence; try discriminate). }
  destruct (String.eqb_spec experience_level "Intermediate") as [-> | Hi].
  { cbn [List.length].
    pose proof (Nat.mod_upper_bound question_number 4 ltac:(lia)) as Hm.
    destruct (question_number mod 4)%nat as [|[|[|[|k]]]]; try lia;
      cbn; (repeat split; try tauto; try congruence; try discriminate). }
  destruct (String.eqb_spec experience_level "Advanced") as [-> | Ha].
  { cbn [List.length].
    pose proof (Nat.mod_upper_bound question_number 4 ltac:(lia)) as Hm.
    destruct (question_number mod 4)%nat as [|[|[|[|k]]]]; try lia;
      cbn; (repeat split; try tauto; try congruence; try discriminate). }
  cbn [List.length]. rewrite Nat.mod_1_r. cbn.
  repeat split; try tauto; try congruence.
Qed.


Lemma template_question_spec env dom question_type difficulty :
  let r := QuestionGenerator._generate_template_question env dom
             question_type difficulty in
  qd_question (fst r) <> EmptyString /\
  qd_keywords (fst r)
  = QuestionGenerator._get_default_keywords dom question_type /\
  qd_criteria (fst r)
  = ["Clarity"; "Relevance"; "Specific examples"; "Technical accuracy"] /\
  qd_sample_answer (fst r) = EmptyString /\
  snd r = tick env.
Proof.
  cbv zeta. unfold QuestionGenerator._generate_template_question.
  match goal with
  | |- context [QuestionGenerator.random_choice env ?c] =>
      set (candidates := c)
  end.
  assert (candidates <> []
          /\ Forall (fun q => q <> EmptyString) candidates) as [Hne Hall].
  { unfold candidates, QuestionGenerator.technical_data_science,
      QuestionGenerator.technical_software,
      QuestionGenerator.situational_questions,
      QuestionGenerator.behavioral_questions.
    repeat match goal with
           | |- context [if ?c then _ else _] => destruct c
           end;
      (split; [discriminate | repeat constructor; discriminate]). }
  destruct (random_choice_some env candidates Hne) as (x & -> & Hx).
  cbn [fst snd qd_question qd_keywords qd_criteria qd_sample_answer].
  repeat split.
  rewrite List.Forall_forall in Hall. now apply Hall.
Qed.

(** X12. When the chat service raises, or its completion decodes to
    something other than an object, [_generate_single_question] falls back
    to a template question: the question text is not empty, the keywords
    are the default keywords of the domain, the criteria are the four
    fixed ones and there is no sample answer. *)
Theorem failed_completion_gives_template env dom question_type difficulty
    job_description :
  (groq_question (draws env) dom question_type difficulty job_description
   = None \/
   exists content,
     groq_question (draws env) dom question_type difficulty job_description
     = Some content /\
     json_loads_question content = JsonOtherError) ->
  let data :=
    fst (QuestionGenerator._generate_single_question env dom question_type
           difficulty job_description) in
  qd_question data <> EmptyString /\
  qd_keywords data
  = QuestionGenerator._get_default_keywords dom question_type /\
  qd_criteria data
  = ["Clarity"; "Relevance"; "Specific examples"; "Technical accuracy"] /\
  qd_sample_answer data = EmptyString.
Proof.
  intros Hfail. cbv zeta.
  unfold QuestionGenerator._generate_single_question.
  pose proof (template_question_spec (tick env) dom question_type difficulty)
    as (Hq & Hk & Hc & Hs & _).
  destruct Hfail as [-> | (content & -> & Hjson)].
  - repeat split; assumption.
  - unfold QuestionGenerator._parse_question_response. rewrite Hjson.
    repeat split; assumption.
Qed.

(** X13. When a completion is not valid JSON, [_parse_question_response]
    either asks for a template or returns a question taken from one line
    of the completion: that line is not empty, is not the whole stripped
    completion, holds none of the introductory phrases, and ends with a
    question mark or is longer than 20 characters; the keywords, the
    criteria and the sample answer are empty. *)
Theorem fallback_parse_picks_a_question_line content :
  json_loads_question content = JsonDecodeError ->
  QuestionGenerator._parse_question_response content = Returned None \/
  exists line,
    QuestionGenerator._parse_question_response content
    = Returned (Some {| qd_question := line; qd_keywords := [];
                        qd_criteria := []; qd_sample_answer := EmptyString |})
    /\ In line (map Py.strip (Py.split_on "010"%char content))
    /\ line <> EmptyString /\ line <> Py.strip content
    /\ existsb (fun phrase => Py.contains phrase (Py.lower line))
         QuestionGenerator.intro_phrases = false
    /\ (Py.endswith "?"%char line = true \/ (20 < Py.len line)%nat).
Proof.
  intros Hjson. unfold QuestionGenerator._parse_question_response.
  rewrite Hjson.
  destruct (find QuestionGenerator.is_question_line _) as [line |] eqn:Hf;
    [| now left].
  apply find_some in Hf. destruct Hf as [Hin Hline].
  apply List.filter_In in Hin. destruct Hin as [Hin _].
  destruct (String.eqb_spec line EmptyString) as [-> | Hne]; [now left |].
  destruct (String.eqb_spec line (Py.strip content)) as [-> | Hwhole];
    [now left |].
  right. exists line. cbn [orb]. split; [reflexivity |].
  unfold QuestionGenerator.is_question_line in Hline.
  apply andb_true_iff in Hline. destruct Hline as [Hintro Hshape].
  apply negb_true_iff in Hintro. apply orb_true_iff in Hshape.
  repeat split; try assumption.
  destruct Hshape as [He | Hl]; [now left | right].
  now apply Nat.ltb_lt in Hl.
Qed.

End WithExternals.
End GeneratorFacts.

(** ** Users: the table, the profiles and the analytics *)

Module UserFacts.
Import PyFacts.

Lemma find_app_found {A} (p : A -> bool) (l l' : list A) (x : A) :
  find p l = Some x -> find p (l ++ l') = Some x.
Proof.
  induction l as [|y l IH]; [discriminate |].
  cbn [find app]. destruct (p y); [trivial | exact IH].
Qed.

Lemma find_app_fresh {A} (p : A -> bool) (l : list A) (x : A) :
  Forall (fun y => p y = false) l -> p x = true ->
  find p (l ++ [x]) = Some x.
Proof.
  induction 1 as [|y l Hy _ IH]; intros Hx; cbn [find app].
  - now rewrite Hx.
  - rewrite Hy. now apply IH.
Qed.

Lemma next_id_not_used {A} (key : A -> nat) (rows : list A) :
  Forall (fun row =>
            Nat.eqb (key row) (DatabaseManager.next_id (map key rows)) = false)
         rows.
Proof.
  apply List.Forall_forall. intros row Hin. apply Nat.eqb_neq. intros Heq.
  apply (InvariantFacts.next_id_fresh (map key rows)).
  rewrite <- Heq. now apply in_map.
Qed.

(** X14. [create_user] with an email that is not in the table returns a
    new id under which [get_user] finds exactly the row that was given,
    and every user that could be found before is still found unchanged;
    with an email that is already in the table it raises and leaves the
    database as it was. *)
Theorem create_user_then_get_user d name email dom experience_level :
  (existsb (fun u => String.eqb (u_email u) email) (db_users d) = false ->
   exists uid d',
     DatabaseManager.create_user d name email dom experience_level
     = (Returned uid, d') /\
     DatabaseManager.get_user d' uid
     = Some {| u_id := uid; u_name := name; u_email := email;
               u_domain := dom; u_experience_level := experience_level |} /\
     ~ In uid (map u_id (db_users d)) /\
     (forall other u,
         DatabaseManager.get_user d other = Some u ->
         DatabaseManager.get_user d' other = Some u)) /\
  (existsb (fun u => String.eqb (u_email u) email) (db_users d) = true ->
   exists exn,
     DatabaseManager.create_user d name email dom experience_level
     = (Raised exn, d)).
Proof.
  unfold DatabaseManager.create_user. split; intros ->.
  - eexists. eexists. split; [reflexivity |].
    unfold DatabaseManager.get_user. cbn [db_users u_id].
    split; [| split].
    + apply find_app_fresh; [| apply Nat.eqb_refl].
      apply (next_id_not_used u_id).
    + apply InvariantFacts.next_id_fresh.
    + intros other u Hu. now apply find_app_found.
  - eexists. reflexivity.
Qed.

(** X15. [create_user_profile] raises [ValueError] and writes nothing when
    the domain is not a supported one or the experience level is not one
    of Beginner, Intermediate, Advanced.  Otherwise, with an email that is
    not yet taken, it returns success with a user id under which
    [get_user_profile] gives back the name, email, domain and level that
    were passed; with a taken email it returns an error result, without
    raising, and writes nothing. *)
Theorem create_user_profile_outcomes d name email dom experience_level :
  let r := UserManager.create_user_profile d name email dom
             experience_level in
  let valid :=
    Py.mem dom Config.SUPPORTED_DOMAINS
    && Py.mem experience_level ["Beginner"; "Intermediate"; "Advanced"] in
  let taken :=
    existsb (fun u => String.eqb (u_email u) email) (db_users d) in
  (valid = false -> exists exn, r = (Raised exn, d)) /\
  (valid = true -> taken = true ->
   r = (Returned (ProfileError "UNIQUE constraint failed: users.email"), d)) /\
  (valid = true -> taken = false ->
   exists uid,
     fst r = Returned (ProfileSuccess uid name email dom experience_level) /\
     UserManager.get_user_profile (snd r) uid
     = Some {| u_id := uid; u_name := name; u_email := email;
               u_domain := dom; u_experience_level := experience_level |}).
Proof.
  cbv zeta. unfold UserManager.create_user_profile,
    UserManager.experience_levels.
  split; [| split].
  - intros Hv. apply andb_false_iff in Hv. destruct Hv as [-> | Hl].
    + eexists. reflexivity.
    + rewrite Hl. destruct (Py.mem dom Config.SUPPORTED_DOMAINS);
        eexists; reflexivity.
  - intros Hv Ht. apply andb_true_iff in Hv. destruct Hv as [-> ->].
    cbn [negb]. unfold DatabaseManager.create_user. now rewrite Ht.
  - intros Hv Ht. apply andb_true_iff in Hv. destruct Hv as [-> ->].
    cbn [negb].
    destruct (create_user_then_get_user d name email dom experience_level)
      as [Hfresh _].
    destruct (Hfresh Ht) as (uid & d' & -> & Hget & _).
    exists uid. split; [reflexivity | exact Hget].
Qed.

End UserFacts.

(** ** The analytics of a user and the readability score *)

Module AnalyticsFacts.
Import PyFacts.

Lemma last3_short {A} (l : list A) :
  (List.length l <= 3)%nat -> UserManager.last3 l = firstn 3 l.
Proof.
  intros Hl. unfold UserManager.last3.
  replace (List.length l - 3)%nat with 0%nat by lia.
  cbn [skipn]. symmetry. now apply firstn_all2.
Qed.

Lemma Qltb_irrefl x : Py.Qltb x x = false.
Proof. apply Qltb_ge. lra. Qed.

Lemma scored_length progress :
  (List.length (UserManager.scored progress) <= List.length progress)%nat.
Proof.
  induction progress as [|p progress IH]; [apply le_n |].
  unfold UserManager.scored in *. cbn [flat_map].
  rewrite List.length_app. cbn [List.length].
  destruct (DatabaseManager.pr_session_avg_score p) as [avg |];
    [destruct (Qeq_bool avg 0) |]; cbn [List.length]; lia.
Qed.

Lemma progress_length d uid :
  List.length (DatabaseManager.get_user_progress d uid)
  = List.length
      (List.filter (fun s => Nat.eqb (s_user_id s) uid) (db_sessions d)).
Proof.
  unfold DatabaseManager.get_user_progress.
  now rewrite List.length_map, List.length_rev.
Qed.

(** X16. [get_user_analytics] counts the sessions of the user, whether
    answered or not, and its score history has at most one entry per
    session.  The trend is "No data" exactly for a user without sessions;
    with sessions but fewer than two scored ones it is "Insufficient
    data"; with two or three scored sessions it is always "Needs Focus",
    since the last three and the first three scores are then the same
    scores: "Improving" is only ever reported from four scored sessions
    on. *)
Theorem analytics_trend_needs_four_scores d uid :
  let a := UserManager.get_user_analytics d uid in
  let scores :=
    UserManager.scored (DatabaseManager.get_user_progress d uid) in
  an_total_sessions a
  = List.length
      (List.filter (fun s => Nat.eqb (s_user_id s) uid) (db_sessions d)) /\
  (List.length scores <= an_total_sessions a)%nat /\
  (an_total_sessions a = 0%nat <-> an_improvement_trend a = "No data") /\
  (an_total_sessions a <> 0%nat -> (List.length scores < 2)%nat ->
   an_improvement_trend a = "Insufficient data") /\
  ((2 <= List.length scores <= 3)%nat ->
   an_improvement_trend a = "Needs Focus") /\
  (an_improvement_trend a = "Improving" -> (4 <= List.length scores)%nat).
Proof.
  cbv zeta.
  pose proof (progress_length d uid) as Hlen.
  pose proof (scored_length (DatabaseManager.get_user_progress d uid))
    as Hsc.
  unfold UserManager.get_user_analytics.
  destruct (DatabaseManager.get_user_progress d uid) as [|p progress] eqn:Hp.
  - cbn [an_total_sessions an_improvement_trend].
    cbn [UserManager.scored flat_map List.length] in *.
    repeat split; try (intros; lia); try discriminate; try assumption.
  - set (scores := UserManager.scored (p :: progress)) in *.
    cbn [an_total_sessions an_improvement_trend].
    split; [exact Hlen |]. split; [exact Hsc |].
    cbn [List.length] in *.
    split; [| split; [| split]].
    + split; [discriminate |].
      destruct (2 <=? List.length scores)%nat;
        [destruct (Py.Qltb _ _) |]; discriminate.
    + intros _ Hlt.
      destruct (Nat.leb_spec 2 (List.length scores)); [lia | reflexivity].
    + intros [H2 H3].
      destruct (Nat.leb_spec 2 (List.length scores)); [| lia].
      rewrite last3_short by exact H3. now rewrite Qltb_irrefl.
    + destruct (Nat.leb_spec 2 (List.length scores)) as [H2 | H2];
        [| discriminate].
      destruct (Nat.le_gt_cases (List.length scores) 3) as [H3 | H3];
        [| intros _; exact H3].
      rewrite last3_short by exact H3. rewrite Qltb_irrefl. discriminate.
Qed.

Lemma round2_zero : UserManager.round2 0 == 0.
Proof. reflexivity. Qed.

(** X17. [get_personalized_recommendations] always returns between one
    and five recommendations.  A user without sessions gets the three on
    answering technique and the one on regular practice.  A user with two
    or three scored sessions is always told to review earlier feedback.
    The closing "Keep up the great work!" is given only to a user with at
    least three sessions, an average of at least 0.6 and either exactly
    one or at least four scored sessions. *)
Theorem personalized_recommendations_shape d uid :
  let recs := UserManager.get_personalized_recommendations d uid in
  let a := UserManager.get_user_analytics d uid in
  let scores :=
    UserManager.scored (DatabaseManager.get_user_progress d uid) in
  (1 <= List.length recs <= 5)%nat /\
  (an_total_sessions a = 0%nat ->
   recs =
   [ "Focus on structuring your answers using the STAR method (Situation, Task, Action, Result)";
     "Practice explaining technical concepts in simple terms";
     "Work on providing specific examples from your experience";
     "Continue regular practice to build confidence" ]) /\
  ((2 <= List.length scores <= 3)%nat ->
   In "Review feedback from previous sessions and work on identified weak areas"
      recs) /\
  (In "Keep up the great work! Continue practicing regularly." recs ->
   (3 <= an_total_sessions a)%nat /\ 0.6 <= an_average_score a /\
   (List.length scores = 1%nat \/ (4 <= List.length scores)%nat)).
Proof.
  cbv zeta.
  destruct (analytics_trend_needs_four_scores d uid)
    as (Htot & Hsc & Hnone & Hfew & Hmid & Himp).
  cbv zeta in *.
  unfold UserManager.get_personalized_recommendations.
  set (a := UserManager.get_user_analytics d uid) in *.
  set (scores := UserManager.scored _) in *.
  split; [| split; [| split]].
  - destruct (Py.Qltb (an_average_score a) 0.6),
      (an_total_sessions a <? 3)%nat,
      (String.eqb (an_improvement_trend a) "Needs Focus");
      cbn [app List.length]; lia.
  - intros H0. apply Hnone in H0 as Ht.
    assert (an_average_score a == 0) as Havg.
    { subst a. unfold UserManager.get_user_analytics in *.
      destruct (DatabaseManager.get_user_progress d uid);
        [reflexivity | discriminate]. }
    assert (Py.Qltb (an_average_score a) 0.6 = true) as ->
      by (apply Qltb_lt; rewrite Havg; reflexivity).
    rewrite H0, Ht. reflexivity.
  - intros Hm. rewrite (Hmid Hm).
    destruct (Py.Qltb (an_average_score a) 0.6),
      (an_total_sessions a <? 3)%nat; cbn; auto 10.
  - destruct (Py.Qltb (an_average_score a) 0.6) eqn:Hlow.
    { destruct (an_total_sessions a <? 3)%nat,
        (String.eqb (an_improvement_trend a) "Needs Focus");
        cbn; intros Hin; repeat destruct Hin as [Hin | Hin];
        try discriminate; contradiction. }
    destruct (Nat.ltb_spec (an_total_sessions a) 3) as [Hlt | Hge].
    { destruct (String.eqb (an_improvement_trend a) "Needs Focus");
        cbn; intros Hin; repeat destruct Hin as [Hin | Hin];
        try discriminate; contradiction. }
    destruct (String.eqb_spec (an_improvement_trend a) "Needs Focus")
      as [Hnf | Hnf].
    { cbn; intros Hin; repeat destruct Hin as [Hin | Hin];
        try discriminate; contradiction. }
    intros _. apply Qltb_ge in Hlow.
    split; [exact Hge |]. split; [exact Hlow |].
    destruct (Nat.le_gt_cases 4 (List.length scores)) as [H4 | H4];
      [now right | left].
    destruct (Nat.le_gt_cases 2 (List.length scores)) as [H2 | H2].
    { exfalso. apply Hnf, Hmid. lia. }
    destruct scores as [| x [| y scores']] eqn:Hs;
      [| reflexivity | cbn [List.length] in H2; lia].
    exfalso. clear Hnf Htot Hnone Hfew Hmid Himp Hsc H4 H2.
    subst a scores. unfold UserManager.get_user_analytics in Hlow.
    destruct (DatabaseManager.get_user_progress d uid) as [|p progress].
    + cbn [an_average_score] in Hlow. revert Hlow. now apply Qlt_not_le.
    + cbn [an_average_score] in Hlow. rewrite Hs in Hlow.
      revert Hlow. now apply Qlt_not_le.
Qed.

(** *** Readability *)

Lemma Qnat_mul n m : Py.Qnat (n * m) == Py.Qnat n * Py.Qnat m.
Proof.
  unfold Py.Qnat. rewrite Nat2Z.inj_mul, inject_Z_mult. reflexivity.
Qed.

(** X18. [calculate_readability_score] lies between 0 and 1.  The text
    always counts as at least one sentence, so the score is 0 exactly
    through the word count: it is 0 for a text without words, 1 whenever
    there are words and at most fifteen of them per sentence piece, and 0
    again from thirty-five words per piece on. *)
Theorem readability_score_range text :
  let score := TextProcessor.calculate_readability_score text in
  let sentences := TextProcessor.sentence_pieces text in
  let words := List.length (Py.split text) in
  0 <= score <= 1 /\
  (1 <= sentences)%nat /\
  (words = 0%nat -> score == 0) /\
  ((1 <= words <= 15 * sentences)%nat -> score == 1) /\
  ((35 * sentences <= words)%nat -> score == 0).
Proof.
  cbv zeta. unfold TextProcessor.calculate_readability_score.
  set (sentences := TextProcessor.sentence_pieces text).
  set (words := List.length (Py.split text)).
  assert (1 <= sentences)%nat as Hs
    by (unfold sentences, TextProcessor.sentence_pieces; lia).
  pose proof (Qnat_pos sentences ltac:(lia)) as Hsq.
  destruct (Nat.eqb_spec sentences 0) as [H0 | _]; [lia |].
  cbn [orb].
  destruct (Nat.eqb_spec words 0) as [Hw | Hw].
  - repeat split; try lra; try reflexivity; try lia.
  - cbv zeta. set (avg := Py.Qnat words / Py.Qnat sentences).
    split; [| split; [exact Hs | split; [intros; lia | split]]].
    + split.
      * apply Q.le_max_l.
      * apply Q.max_lub; [lra | apply Q.le_min_l].
    + intros [_ H15].
      assert (avg <= 15) as Ha.
      { unfold avg. apply Qle_shift_div_r; [exact Hsq |].
        apply Qnat_le in H15. rewrite Qnat_mul in H15.
        change (Py.Qnat 15) with 15 in H15. exact H15. }
      clearbody avg.
      assert (Qmin 1 (1 - (avg - 15) / 20) == 1) as Hm
        by (apply Q.min_l; unfold Qdiv; change (/ 20) with (1 # 20); lra).
      rewrite (Q.max_r 0 _); [exact Hm | rewrite Hm; lra].
    + intros H35.
      assert (35 <= avg) as Ha.
      { unfold avg. apply Qle_shift_div_l; [exact Hsq |].
        apply Qnat_le in H35. rewrite Qnat_mul in H35.
        change (Py.Qnat 35) with 35 in H35. exact H35. }
      clearbody avg.
      assert (Qmin 1 (1 - (avg - 15) / 20) == 1 - (avg - 15) / 20) as Hm
        by (apply Q.min_r; unfold Qdiv; change (/ 20) with (1 # 20); lra).
      apply Q.max_l. rewrite Hm.
      unfold Qdiv. change (/ 20) with (1 # 20). lra.
Qed.

End AnalyticsFacts.

(** ** Answers, pauses and the end of a session *)

Module SessionFacts.
Section WithExternals.
Context `{!Externals}.
Import PyFacts.

Lemma collect_type_scores_returns qs evals :
  forall i d,
    (i + List.length evals <= List.length qs)%nat ->
    exists d', ConversationManager.collect_type_scores qs i evals d
               = Returned d'.
Proof.
  induction evals as [|e evals IH]; intros i d Hlen.
  - now exists d.
  - cbn [ConversationManager.collect_type_scores].
    cbn [List.length] in Hlen.
    destruct (nth_error qs i) as [question |] eqn:Hq.
    + apply IH. lia.
    + apply nth_error_None in Hq. lia.
Qed.

Lemma generate_recommendations_returns session :
  evaluations session <> [] ->
  (List.length (evaluations session) <= List.length (questions session))%nat ->
  exists recs,
    ConversationManager._generate_recommendations session
      (AnswerEvaluator.calculate_session_metrics (evaluations session))
    = Returned recs /\
    (2 <= List.length recs <= 5)%nat.
Proof.
  intros Hne Hlen. unfold ConversationManager._generate_recommendations.
  destruct (evaluations session) as [|e evals] eqn:He; [contradiction |].
  cbn [AnswerEvaluator.calculate_session_metrics semantic_average
       keyword_average structure_average].
  destruct (collect_type_scores_returns (questions session) (e :: evals) 0 [])
    as [scores ->]; [exact Hlen |].
  eexists. split; [reflexivity |].
  set (recs := (_ ++ flat_map _ scores)).
  rewrite List.length_firstn.
  destruct recs as [|r recs'];
    rewrite List.length_app; cbn [List.length]; lia.
Qed.

Lemma set_session_twice sid s s' m :
  ConversationManager.set_session sid s'
    (ConversationManager.set_session sid s m)
  = ConversationManager.set_session sid s' m.
Proof.
  unfold ConversationManager.set_session. cbn [db current_sessions env].
  f_equal. apply insert_insert_eq.
Qed.

(** What [process_answer] does for a session that has a question under
    its cursor: the evaluation, the answer row, and the two ways on. *)
Lemma process_answer_cases m sid answer session question question_id :
  current_sessions m !! sid = Some session ->
  nth_error (questions session) (current_question_index session)
  = Some question ->
  q_db_id question = Some question_id ->
  (List.length (evaluations session) <= current_question_index session)%nat ->
  let evaluation :=
    fst (AnswerEvaluator.evaluate_answer (env m) question answer) in
  let env1 :=
    snd (AnswerEvaluator.evaluate_answer (env m) question answer) in
  let d1 :=
    snd (DatabaseManager.save_answer (db m) question_id answer
           (semantic_score evaluation) (keyword_score evaluation)
           (structure_score evaluation) (overall_score evaluation)
           (feedback evaluation)) in
  let recorded :=
    ConversationManager.record_answer
      {| ans_question_id := q_id question; ans_answer := answer |}
      evaluation session in
  let metrics :=
    AnswerEvaluator.calculate_session_metrics (evaluations recorded) in
  exists r s',
    ConversationManager.process_answer m sid answer
    = (Returned r,
       ConversationManager.set_session sid s'
         (ConversationManager.set_env env1
            (ConversationManager.set_db d1 m))) /\
    ((current_question_index session + 1 < List.length (questions session))%nat ->
     s' = recorded /\
     exists next_question followup progress,
       r = QuestionAnswered evaluation next_question followup progress) /\
    ((current_question_index session + 1 = List.length (questions session))%nat ->
     s' = ConversationManager.set_final_metrics metrics
            (ConversationManager.set_status Completed recorded) /\
     exists summary comprehensive recs,
       r = SessionCompleted summary metrics comprehensive recs /\
       summary_total_questions summary = List.length (questions session) /\
       summary_average_score summary = session_average metrics /\
       (2 <= List.length recs <= 5)%nat).
Proof.
  intros Hs Hq Hid Hev. cbv zeta.
  assert (current_question_index session < List.length (questions session))%nat
    as Hlt by (apply nth_error_Some; congruence).
  unfold ConversationManager.process_answer. rewrite Hs, Hq.
  destruct (AnswerEvaluator.evaluate_answer (env m) question answer)
    as [evaluation env1] eqn:Heval.
  rewrite Hid. cbn [fst snd].
  destruct (DatabaseManager.save_answer _ _ _ _ _ _ _ _) as [aid d1] eqn:Hsave.
  cbn [snd].
  set (recorded := ConversationManager.record_answer _ evaluation session).
  cbn [ConversationManager.record_answer questions current_question_index].
  change (questions recorded) with (questions session).
  change (current_question_index recorded)
    with (current_question_index session + 1)%nat.
  destruct (nth_error (questions session) (current_question_index session + 1))
    as [next_question |] eqn:Hnext.
  - eexists. exists recorded. split; [reflexivity |].
    assert (current_question_index session + 1
            < List.length (questions session))%nat
      by (apply nth_error_Some; congruence).
    split; [| intros; lia].
    intros _. split; [reflexivity |]. eauto.
  - apply nth_error_None in Hnext.
    unfold ConversationManager._complete_session.
    cbn [ConversationManager.set_session current_sessions].
    rewrite lookup_insert_eq.
    destruct (generate_recommendations_returns
                (ConversationManager.set_final_metrics
                   (AnswerEvaluator.calculate_session_metrics
                      (evaluations recorded))
                   (ConversationManager.set_status Completed recorded)))
      as (recs & Hrecs & Hlen).
    { cbn [ConversationManager.set_final_metrics
           ConversationManager.set_status evaluations recorded
           ConversationManager.record_answer].
      now destruct (evaluations session). }
    { cbn [ConversationManager.set_final_metrics
           ConversationManager.set_status evaluations questions recorded
           ConversationManager.record_answer].
      rewrite List.length_app. cbn [List.length]. lia. }
    cbn [ConversationManager.set_final_metrics
         ConversationManager.set_status evaluations] in Hrecs.
    cbn [ConversationManager.set_final_metrics
         ConversationManager.set_status evaluations questions].
    rewrite Hrecs.
    eexists. eexists. split.
    { f_equal. apply set_session_twice. }
    split; [intros; lia |].
    intros _. split; [reflexivity |].
    do 3 eexists. split; [reflexivity |].
    split; [reflexivity |]. split; [reflexivity | exact Hlen].
Qed.

Lemma held_question_has_row m sid session question :
  invariant m ->
  current_sessions m !! sid = Some session ->
  nth_error (questions session) (current_question_index session)
  = Some question ->
  (exists question_id, q_db_id question = Some question_id) /\
  (List.length (evaluations session) <= current_question_index session)%nat.
Proof.
  intros [_ Hinv] Hs Hq. destruct (Hinv sid session Hs) as [He Ha _ Hqs _].
  split; [| lia].
  apply (map_nth_error q_db_id) in Hq. rewrite Hqs in Hq.
  apply nth_error_In, in_map_iff in Hq. destruct Hq as (row & Hrow & _).
  eauto.
Qed.


(** X20. In a reachable state, the answer to the last question of a
    session returns the completion result.  The session is then marked
    completed, its cursor is at the end of its questions, and it holds
    the metrics that were returned.  The metrics are those of the
    evaluations held in memory, the new one included; the summary counts
    all questions of the session and repeats the average of the metrics;
    between two and five recommendations are given. *)
Theorem last_answer_completes_session m sid answer session :
  reachable m ->
  current_sessions m !! sid = Some session ->
  (current_question_index session + 1 = List.length (questions session))%nat ->
  exists summary metrics comprehensive recs m' session',
    ConversationManager.process_answer m sid answer
    = (Returned (SessionCompleted summary metrics comprehensive recs), m') /\
    current_sessions m' !! sid = Some session' /\
    status session' = Completed /\
    final_metrics session' = Some metrics /\
    questions session' = questions session /\
    current_question_index session' = List.length (questions session) /\
    metrics = AnswerEvaluator.calculate_session_metrics (evaluations session') /\
    total_questions metrics = (List.length (evaluations session) + 1)%nat /\
    summary_total_questions summary = List.length (questions session) /\
    summary_average_score summary = session_average metrics /\
    (2 <= List.length recs <= 5)%nat.
Proof.
  intros Hr Hs Hlast. apply InvariantFacts.invariant_reachable in Hr.
  destruct (nth_error (questions session) (current_question_index session))
    as [question |] eqn:Hq;
    [| apply nth_error_None in Hq; lia].
  destruct (held_question_has_row m sid session question Hr Hs Hq)
    as [[question_id Hid] Hev].
  destruct (process_answer_cases m sid answer session question
              question_id Hs Hq Hid Hev) as (r & s' & Hp & _ & Hdone).
  destruct (Hdone Hlast) as (-> & summary & comprehensive & recs & -> & Ht
                             & Havg & Hlen).
  do 6 eexists. split; [exact Hp |].
  split; [apply lookup_insert_eq |].
  cbn [ConversationManager.set_final_metrics ConversationManager.set_status
       ConversationManager.record_answer status final_metrics questions
       current_question_index evaluations].
  repeat (split; [reflexivity || assumption || lia |]).
  split.
  - destruct (evaluations session); cbn [app];
      cbn [AnswerEvaluator.calculate_session_metrics total_questions];
      [reflexivity |].
    cbn [List.length]. rewrite List.length_app. cbn [List.length]. lia.
  - repeat split; first [assumption | lia].
Qed.

(** X21. Whenever [process_answer] finds a question under the cursor of
    a session of a reachable state, it appends exactly one answer row to
    the database, for the database id of that question and with the
    answer, the four scores and the feedback of the evaluation of that
    answer, and leaves the other three tables alone.  In memory the
    session gets that evaluation and the answer appended and its cursor
    moved by one; no other session changes. *)
Theorem process_answer_stores_the_evaluation m sid answer session question :
  reachable m ->
  current_sessions m !! sid = Some session ->
  nth_error (questions session) (current_question_index session)
  = Some question ->
  let evaluation :=
    fst (AnswerEvaluator.evaluate_answer (env m) question answer) in
  exists r m' row session' question_id,
    ConversationManager.process_answer m sid answer = (Returned r, m') /\
    q_db_id question = Some question_id /\
    db_answers (db m') = db_answers (db m) ++ [row] /\
    answer_row_of question_id answer evaluation row /\
    ~ In (a_id row) (map a_id (db_answers (db m))) /\
    db_users (db m') = db_users (db m) /\
    db_sessions (db m') = db_sessions (db m) /\
    db_questions (db m') = db_questions (db m) /\
    current_sessions m' !! sid = Some session' /\
    evaluations session' = evaluations session ++ [evaluation] /\
    answers session'
    = answers session
      ++ [{| ans_question_id := q_id question; ans_answer := answer |}] /\
    current_question_index session'
    = (current_question_index session + 1)%nat /\
    questions session' = questions session /\
    (forall other, other <> sid ->
                   current_sessions m' !! other = current_sessions m !! other).
Proof.
  intros Hr Hs Hq. cbv zeta.
  apply InvariantFacts.invariant_reachable in Hr.
  destruct (held_question_has_row m sid session question Hr Hs Hq)
    as [[question_id Hid] Hev].
  destruct (process_answer_cases m sid answer session question
              question_id Hs Hq Hid Hev) as (r & s' & Hp & Hnext & Hdone).
  assert (current_question_index session < List.length (questions session))%nat
    as Hlt by (apply nth_error_Some; congruence).
  exists r. eexists. eexists. exists s', question_id.
  split; [exact Hp |]. split; [exact Hid |].
  cbn [ConversationManager.set_session ConversationManager.set_env
       ConversationManager.set_db db current_sessions
       DatabaseManager.save_answer snd db_answers db_users db_sessions
       db_questions].
  split; [reflexivity |].
  split; [repeat split |].
  split; [apply InvariantFacts.next_id_fresh |].
  do 3 (split; [reflexivity |]).
  split; [apply lookup_insert_eq |].
  assert (evaluations s'
          = evaluations session
            ++ [fst (AnswerEvaluator.evaluate_answer (env m) question answer)]
          /\ answers s'
             = answers session
               ++ [{| ans_question_id := q_id question;
                      ans_answer := answer |}]
          /\ current_question_index s'
             = (current_question_index session + 1)%nat
          /\ questions s' = questions session) as Hshape.
  { destruct (Nat.eq_dec (current_question_index session + 1)%nat
                (List.length (questions session))) as [Hend | Hmore].
    - destruct (Hdone Hend) as [-> _]. repeat split.
    - destruct (Hnext ltac:(lia)) as [-> _]. repeat split. }
  destruct Hshape as (? & ? & ? & ?).
  repeat (split; [assumption |]).
  intros other Hother. now apply lookup_insert_ne.
Qed.

Lemma set_status_back session :
  status session = Active ->
  ConversationManager.set_status Active
    (ConversationManager.set_status Paused session) = session.
Proof. destruct session. cbn. now intros ->. Qed.

Lemma set_session_held m sid session :
  current_sessions m !! sid = Some session ->
  ConversationManager.set_session sid session m = m.
Proof.
  intros Hs. destruct m as [d sessions e].
  unfold ConversationManager.set_session. cbn in *.
  f_equal. now apply insert_id.
Qed.

(** X22. Pausing an active session that has a question under its cursor
    and resuming it gives back that question with the position and the
    number of questions, and leaves the manager exactly as it was before
    the pause. *)
Theorem pause_then_resume_restores m sid session question :
  current_sessions m !! sid = Some session ->
  status session = Active ->
  nth_error (questions session) (current_question_index session)
  = Some question ->
  let paused := snd (ConversationManager.pause_session m sid) in
  fst (ConversationManager.pause_session m sid)
  = PauseSuccess "Session paused" /\
  status <$> current_sessions paused !! sid = Some Paused /\
  ConversationManager.resume_session paused sid
  = (ResumeSuccess question (current_question_index session)
       (List.length (questions session)), m).
Proof.
  intros Hs Hact Hq. cbv zeta.
  unfold ConversationManager.pause_session. rewrite Hs. cbn [fst snd].
  split; [reflexivity |].
  unfold ConversationManager.resume_session.
  cbn [ConversationManager.set_session current_sessions].
  rewrite lookup_insert_eq. cbn [fmap option_fmap option_map].
  split; [reflexivity |].
  cbn [ConversationManager.set_status status questions
       current_question_index].
  rewrite Hq. f_equal.
  change (ConversationManager.set_session sid
            (ConversationManager.set_status Active
               (ConversationManager.set_status Paused session))
            (ConversationManager.set_session sid
               (ConversationManager.set_status Paused session) m) = m).
  rewrite set_session_twice, set_status_back by exact Hact.
  now apply set_session_held.
Qed.

Lemma same_but_status_refl m : same_but_status m m.
Proof. now repeat split. Qed.

Lemma same_but_status_set m sid session st :
  current_sessions m !! sid = Some session ->
  same_but_status m
    (ConversationManager.set_session sid
       (ConversationManager.set_status st session) m).
Proof.
  intros Hs. split; [reflexivity |]. split; [reflexivity |].
  intros other. cbn [ConversationManager.set_session current_sessions].
  destruct (Nat.eq_dec other sid) as [-> | Hne].
  - rewrite lookup_insert_eq, Hs. reflexivity.
  - now rewrite lookup_insert_ne.
Qed.

(** X23. [pause_session], [resume_session] and [end_session_early] never
    write to the database and never touch the evaluator; they add and
    drop no session, and of the sessions held they change nothing but a
    status: not the questions, the cursor, the answers, the evaluations
    or the stored metrics. *)
Theorem status_operations_change_only_a_status m sid :
  same_but_status m (snd (ConversationManager.pause_session m sid)) /\
  same_but_status m (snd (ConversationManager.resume_session m sid)) /\
  same_but_status m (snd (ConversationManager.end_session_early m sid)).
Proof.
  unfold ConversationManager.pause_session,
    ConversationManager.resume_session,
    ConversationManager.end_session_early.
  destruct (current_sessions m !! sid) as [session |] eqn:Hs;
    [| repeat split].
  split; [now apply same_but_status_set |]. split.
  - destruct (status session); try apply same_but_status_refl.
    destruct (nth_error _ _); now apply same_but_status_set.
  - destruct (evaluations session); now apply same_but_status_set.
Qed.

(** X24. [process_answer] does not look at the status of a session: a
    session that was paused, completed, ended early or cancelled is
    answered, evaluated and recorded exactly like an active one, with the
    same result. *)
Theorem process_answer_ignores_the_status m sid answer session st :
  current_sessions m !! sid = Some session ->
  let m_st :=
    ConversationManager.set_session sid
      (ConversationManager.set_status st session) m in
  fst (ConversationManager.process_answer m_st sid answer)
  = fst (ConversationManager.process_answer m sid answer) /\
  db (snd (ConversationManager.process_answer m_st sid answer))
  = db (snd (ConversationManager.process_answer m sid answer)).
Proof.
  intros Hs. cbv zeta. unfold ConversationManager.process_answer.
  cbn [ConversationManager.set_session current_sessions db env].
  rewrite lookup_insert_eq, Hs.
  change (questions (ConversationManager.set_status st session))
    with (questions session).
  change (current_question_index (ConversationManager.set_status st session))
    with (current_question_index session).
  destruct (nth_error (questions session) (current_question_index session))
    as [question |]; [| now split].
  destruct (AnswerEvaluator.evaluate_answer (env m) question answer)
    as [evaluation env1].
  destruct (q_db_id question) as [question_id |]; [| now split].
  destruct (DatabaseManager.save_answer _ _ _ _ _ _ _ _) as [aid d1].
  set (entry := {| ans_question_id := q_id question; ans_answer := answer |}).
  change (questions (ConversationManager.record_answer entry evaluation
                       (ConversationManager.set_status st session)))
    with (questions session).
  change (questions (ConversationManager.record_answer entry evaluation
                       session))
    with (questions session).
  change (current_question_index
            (ConversationManager.record_answer entry evaluation
               (ConversationManager.set_status st session)))
    with (current_question_index session + 1)%nat.
  change (current_question_index
            (ConversationManager.record_answer entry evaluation session))
    with (current_question_index session + 1)%nat.
  destruct (nth_error (questions session) (current_question_index session + 1))
    as [next_question |]; [now split |].
  unfold ConversationManager._complete_session.
  cbn [ConversationManager.set_session ConversationManager.set_env
       ConversationManager.set_db current_sessions db env].
  rewrite !lookup_insert_eq.
  change (evaluations (ConversationManager.record_answer entry evaluation
                         (ConversationManager.set_status st session)))
    with (evaluations session ++ [evaluation]).
  change (evaluations (ConversationManager.record_answer entry evaluation
                         session))
    with (evaluations session ++ [evaluation]).
  set (metrics := AnswerEvaluator.calculate_session_metrics _).
  unfold ConversationManager._generate_recommendations,
    ConversationManager._generate_session_feedback.
  cbn [ConversationManager.set_final_metrics ConversationManager.set_status
       ConversationManager.record_answer evaluations questions].
  destruct (semantic_average metrics), (keyword_average metrics),
    (structure_average metrics); try (now split).
  destruct (ConversationManager.collect_type_scores _ _ _ _); now split.
Qed.

End WithExternals.
End SessionFacts.

(** ** Restarts *)

Module RestartFacts.
Section WithExternals.
Context `{!Externals}.
Import PyFacts.

(** Rows are only ever appended to the two tables the query joins. *)
Lemma select_session_with_user_grows d d' sid :
  (exists rows, db_sessions d' = db_sessions d ++ rows) ->
  (exists rows, db_users d' = db_users d ++ rows) ->
  is_Some (DatabaseManager.select_session_with_user d sid) ->
  is_Some (DatabaseManager.select_session_with_user d' sid).
Proof.
  intros [ss Hss] [us Hus] [x Hx].
  unfold DatabaseManager.select_session_with_user, DatabaseManager.get_user
    in *.
  rewrite Hss, Hus.
  destruct (find _ (db_sessions d)) as [s |] eqn:Hs; [| discriminate].
  rewrite (UserFacts.find_app_found _ _ _ _ Hs).
  destruct (find _ (db_users d)) as [u |] eqn:Hu; [| discriminate].
  rewrite (UserFacts.find_app_found _ _ _ _ Hu). eauto.
Qed.

Lemma resolvable_grows m m' :
  (exists rows, db_sessions (db m') = db_sessions (db m) ++ rows) ->
  (exists rows, db_users (db m') = db_users (db m) ++ rows) ->
  current_sessions m' = current_sessions m ->
  resolvable m -> resolvable m'.
Proof.
  intros Hss Hus Hcs Hres sid s Hs. rewrite Hcs in Hs.
  eapply select_session_with_user_grows; eauto.
Qed.

Lemma resolvable_same m m' :
  db m' = db m -> current_sessions m' = current_sessions m ->
  resolvable m -> resolvable m'.
Proof.
  intros Hd Hc Hres sid s Hs. rewrite Hd. rewrite Hc in Hs. eauto.
Qed.

Lemma resolvable_insert_held m m' sid s s' :
  db_sessions (db m') = db_sessions (db m) ->
  db_users (db m') = db_users (db m) ->
  current_sessions m !! sid = Some s ->
  current_sessions m' = <[sid := s']> (current_sessions m) ->
  resolvable m -> resolvable m'.
Proof.
  intros Hss Hus Hs Hcs Hres other t Ht. rewrite Hcs in Ht.
  apply (select_session_with_user_grows (db m));
    [exists []; now rewrite app_nil_r | exists []; now rewrite app_nil_r |].
  destruct (Nat.eq_dec other sid) as [-> | Hne].
  - eauto.
  - rewrite lookup_insert_ne in Ht by congruence. eauto.
Qed.

Lemma restore_session_resolves d sid s :
  ConversationManager._restore_session_from_db d sid = Some s ->
  is_Some (DatabaseManager.select_session_with_user d sid).
Proof.
  unfold ConversationManager._restore_session_from_db.
  destruct (DatabaseManager.select_session_with_user d sid); [eauto |].
  discriminate.
Qed.

Lemma resolvable_start m uid dom job_description preferences :
  resolvable m ->
  resolvable (step m (OpStart uid dom job_description preferences)).
Proof.
  intros Hres. cbn [step].
  unfold ConversationManager.start_interview_session.
  set (prefs := match preferences with
                | Some p => p
                | None => ConversationManager.default_preferences
                end).
  destruct (DatabaseManager.create_session (db m) uid dom) as [sid d1] eqn:Hc.
  assert (sid = DatabaseManager.next_id (map s_id (db_sessions (db m)))
          /\ db_sessions d1
             = db_sessions (db m)
               ++ [{| s_id := sid; s_user_id := uid; s_domain := dom |}]
          /\ db_users d1 = db_users (db m)) as (Hsid & Hss & Hus).
  { unfold DatabaseManager.create_session in Hc.
    injection Hc as <- <-. now repeat split. }
  destruct (DatabaseManager.get_user d1 uid) as [user_profile |] eqn:Hu.
  - destruct (QuestionGenerator.generate_questions _ _ _ _ _ _)
      as [[generated | exn] env1].
    + destruct (ConversationManager.save_questions d1 sid generated)
        as [qs d2] eqn:Hsave.
      destruct (InvariantFacts.save_questions_spec d1 sid generated)
        as (rows & _ & Hus2 & Hss2 & _).
      rewrite Hsave in Hus2, Hss2. cbn [snd] in Hus2, Hss2.
      cbn [snd]. intros other t Ht.
      cbn [ConversationManager.set_session ConversationManager.set_env
           ConversationManager.set_db current_sessions db] in *.
      destruct (Nat.eq_dec other sid) as [-> | Hne].
      * unfold DatabaseManager.select_session_with_user.
        rewrite Hss2, Hss.
        rewrite UserFacts.find_app_fresh;
          [| rewrite Hsid; apply (UserFacts.next_id_not_used s_id)
           | apply Nat.eqb_refl].
        cbn [s_user_id].
        unfold DatabaseManager.get_user in *. rewrite Hus2, Hu. eauto.
      * rewrite lookup_insert_ne in Ht by congruence.
        apply (select_session_with_user_grows (db m));
          [eexists; rewrite Hss2; exact Hss
          | exists []; rewrite Hus2, Hus; now rewrite app_nil_r
          | eauto].
    + cbn [snd]. eapply resolvable_grows; [| | | exact Hres].
      * eexists. exact Hss.
      * exists []. cbn. now rewrite Hus, app_nil_r.
      * reflexivity.
  - cbn [snd]. eapply resolvable_grows; [| | | exact Hres].
    + eexists. exact Hss.
    + exists []. cbn. now rewrite Hus, app_nil_r.
    + reflexivity.
Qed.

Lemma resolvable_step m op : resolvable m -> resolvable (step m op).
Proof.
  intros Hres. destruct op as [name email dom level | uid dom jd prefs
                              | sid answer | sid | sid | sid | sid |].
  - cbn [step]. eapply resolvable_grows; [| | | exact Hres].
    + exists []. cbn [ConversationManager.set_db db].
      unfold DatabaseManager.create_user.
      destruct (existsb _ _); cbn; now rewrite app_nil_r.
    + cbn [ConversationManager.set_db db].
      unfold DatabaseManager.create_user.
      destruct (existsb _ _); cbn [snd db_users];
        [exists []; now rewrite app_nil_r | eauto].
    + reflexivity.
  - now apply resolvable_start.
  - cbn [step].
    destruct (InvariantFacts.process_answer_state m sid answer)
      as [[Hd Hc] | (s & question & question_id & s' & Hs & _ & _ & Hus & Hss
                     & _ & _ & Hc & _)].
    + now apply (resolvable_same m).
    + eapply resolvable_insert_held; eauto.
  - destruct (InvariantFacts.status_ops_state m (OpPause sid) I)
      as [Hd [Hc | (k & s & s' & Hs & Hc & _)]].
    + now apply (resolvable_same m).
    + apply (resolvable_insert_held m _ k s s'); auto; now rewrite Hd.
  - destruct (InvariantFacts.status_ops_state m (OpResume sid) I)
      as [Hd [Hc | (k & s & s' & Hs & Hc & _)]].
    + now apply (resolvable_same m).
    + apply (resolvable_insert_held m _ k s s'); auto; now rewrite Hd.
  - destruct (InvariantFacts.status_ops_state m (OpEndEarly sid) I)
      as [Hd [Hc | (k & s & s' & Hs & Hc & _)]].
    + now apply (resolvable_same m).
    + apply (resolvable_insert_held m _ k s s'); auto; now rewrite Hd.
  - cbn [step].
    destruct (InvariantFacts.get_session_status_state m sid)
      as [Hd [Hc | (s & Hnone & Hrestore & Hc)]].
    + now apply (resolvable_same m).
    + intros other t Ht. rewrite Hc in Ht. rewrite Hd.
      destruct (Nat.eq_dec other sid) as [-> | Hne].
      * eapply restore_session_resolves; eauto.
      * rewrite lookup_insert_ne in Ht by congruence. eauto.
  - intros other t Ht. cbn in Ht. rewrite lookup_empty in Ht. discriminate.
Qed.

Lemma resolvable_run m ops : resolvable m -> resolvable (run m ops).
Proof.
  revert m. induction ops as [|op ops IH]; intros m Hres; [exact Hres |].
  cbn [run fold_left]. apply IH. now apply resolvable_step.
Qed.

Lemma resolvable_reachable m : reachable m -> resolvable m.
Proof.
  intros [ops ->]. apply resolvable_run.
  intros sid s Hs. cbn in Hs. rewrite lookup_empty in Hs. discriminate.
Qed.

(** X25. When the process restarts, the sessions in memory are gone:
    answers are refused with "Session not found" until the status of the
    session is asked for.  For a session with questions that a reachable
    state holds, [get_session_status] on the restarted manager then
    rebuilds it from the database with the same cursor and the same
    question rows; the answers and evaluations are empty, and the status
    is active or completed by the cursor alone, whatever it was before. *)
Theorem restart_then_status_restores_the_cursor m sid session answer :
  reachable m ->
  current_sessions m !! sid = Some session ->
  questions session <> [] ->
  let restarted := step m OpRestart in
  ConversationManager.process_answer restarted sid answer
  = (Returned (ProcessError "Session not found"), restarted) /\
  exists session',
    ConversationManager.get_session_status restarted sid
    = (Some session',
       ConversationManager.set_session sid session' restarted) /\
    current_question_index session' = current_question_index session /\
    map q_db_id (questions session') = map q_db_id (questions session) /\
    answers session' = [] /\ evaluations session' = [] /\
    status session'
    = (if (current_question_index session
           <? List.length (questions session))%nat
       then Active else Completed).
Proof.
  intros Hr Hs Hqs. cbv zeta.
  pose proof (resolvable_reachable m Hr sid session Hs) as [[row u] Hrow].
  apply InvariantFacts.invariant_reachable in Hr as [_ Hinv].
  destruct (Hinv sid session Hs) as [_ _ Hcur Hmap _].
  cbn [step]. unfold ConversationManager.process_answer,
    ConversationManager.get_session_status.
  cbn [ConversationManager.init current_sessions db].
  rewrite !lookup_empty. split; [reflexivity |].
  destruct (ConversationManager._restore_session_from_db (db m) sid)
    as [session' |] eqn:Hrestore.
  - exists session'. split; [reflexivity |].
    destruct (ManagerFacts.restore_cursor (db m) sid session' Hrestore)
      as (Hc' & Hlen' & Ha' & He' & Hst' & Hmap').
    assert (List.length (questions session')
            = List.length (questions session)) as Hlen.
    { rewrite <- (List.length_map q_db_id (questions session)), Hmap,
        List.length_map. exact Hlen'. }
    split; [congruence |]. split; [congruence |].
    split; [exact Ha' |]. split; [exact He' |].
    rewrite Hst', Hlen. now rewrite Hc', <- Hcur.
  - exfalso. unfold ConversationManager._restore_session_from_db in Hrestore.
    rewrite Hrow in Hrestore.
    destruct (DatabaseManager.select_questions (db m) sid) as [|r rows];
      [| discriminate].
    destruct (questions session); [contradiction | discriminate].
Qed.

End WithExternals.
End RestartFacts.

(** ** The start of a session *)

Module StartFacts.
Section WithExternals.
Context `{!Externals}.
Import PyFacts.



(** X27. With a known user, a positive number of questions and an empty
    list of question types, [start_interview_session] raises, from the
    random choice among no types.  The session row has been inserted by
    then: it stays in the database without questions, and no session is
    held in memory. *)
Theorem start_without_question_types_raises m uid dom job_description prefs
    user_profile :
  DatabaseManager.get_user (db m) uid = Some user_profile ->
  question_types prefs = [] ->
  (0 < num_questions prefs)%nat ->
  exists m',
    ConversationManager.start_interview_session m uid dom job_description
      (Some prefs)
    = (Raised "IndexError: Cannot choose from an empty sequence", m') /\
    current_sessions m' = current_sessions m /\
    db_sessions (db m')
    = db_sessions (db m)
      ++ [{| s_id := DatabaseManager.next_id (map s_id (db_sessions (db m)));
             s_user_id := uid; s_domain := dom |}] /\
    db_questions (db m') = db_questions (db m) /\
    db_answers (db m') = db_answers (db m).
Proof.
  intros Hu Htypes Hn.
  unfold ConversationManager.start_interview_session.
  unfold DatabaseManager.create_session.
  set (d1 := {| db_users := db_users (db m); db_sessions := _;
                db_questions := db_questions (db m);
                db_answers := db_answers (db m) |}).
  change (DatabaseManager.get_user d1 uid)
    with (DatabaseManager.get_user (db m) uid).
  rewrite Hu, Htypes.
  unfold QuestionGenerator.generate_questions.
  destruct (num_questions prefs) as [|n]; [lia |].
  cbn [QuestionGenerator.generate_from].
  rewrite GeneratorFacts.random_choice_empty.
  eexists. split; [reflexivity |]. now repeat split.
Qed.

End WithExternals.
End StartFacts.

(** ** The further properties on concrete runs *)

Module MoreRuns.
Import Scenarios Cases.

(** X3 on the offline answer. *)
Lemma rouge_package_stays_off_witness :
  use_rouge_package Offline.env0 = false /\
  use_rouge_package
    (snd (AnswerEvaluator.evaluate_answer (H := Offline.externals)
            Offline.env0 Offline.rest_question Offline.rest_answer))
  = false.
Proof.
  assert (use_rouge_package Offline.env0 = false) as Hoff by reflexivity.
  split; [exact Hoff |].
  exact (proj1 (MetricsFacts.rouge_package_stays_off (H := Offline.externals)
                  Offline.env0 Offline.rest_question Offline.rest_answer
                  Hoff)).
Defined.

(** X8 on a list of one evaluation. *)
Lemma performance_distribution_witness :
  [rest_evaluation] <> [] /\
  total_questions (AnswerEvaluator.calculate_session_metrics [rest_evaluation])
  = 1%nat.
Proof.
  assert ([rest_evaluation] <> []) as Hne by discriminate.
  split; [exact Hne |].
  exact (proj1 (MetricsFacts.performance_distribution_partitions
                  [rest_evaluation] Hne)).
Defined.


(** X12 with the chat service out of reach. *)
Lemma failed_completion_witness :
  groq_question (Externals := Offline.externals) (draws Offline.env0)
    "Data Science" "technical" "Easy" ""
  = None /\
  qd_keywords
    (fst (QuestionGenerator._generate_single_question
            (H := Offline.externals) Offline.env0 "Data Science" "technical"
            "Easy" ""))
  = ["data"; "model"; "analysis"; "algorithm"; "metrics"].
Proof.
  assert (groq_question (Externals := Offline.externals)
            (draws Offline.env0) "Data Science" "technical" "Easy" ""
          = None) as Hdown by reflexivity.
  split; [exact Hdown |].
  destruct (GeneratorFacts.failed_completion_gives_template
              (H := Offline.externals) Offline.env0 "Data Science"
              "technical" "Easy" "" (or_introl Hdown))
    as (_ & Hk & _).
  rewrite Hk. reflexivity.
Defined.

(** X13 on a completion of two lines. *)
Lemma fallback_parse_witness :
  json_loads_question (Externals := Offline.externals) two_lines
  = JsonDecodeError /\
  (QuestionGenerator._parse_question_response (H := Offline.externals)
     two_lines = Returned None \/
   exists line,
     QuestionGenerator._parse_question_response (H := Offline.externals)
       two_lines
     = Returned (Some {| qd_question := line; qd_keywords := [];
                         qd_criteria := [];
                         qd_sample_answer := EmptyString |})
     /\ line <> Py.strip two_lines).
Proof.
  assert (json_loads_question (Externals := Offline.externals) two_lines
          = JsonDecodeError) as Hbad by reflexivity.
  split; [exact Hbad |].
  destruct (GeneratorFacts.fallback_parse_picks_a_question_line
              (H := Offline.externals) two_lines Hbad)
    as [Hnone | (line & Hr & _ & _ & Hne & _)].
  - left. exact Hnone.
  - right. exists line. split; [exact Hr | exact Hne].
Defined.


(** X20 on the second question of a session of two. *)
Lemma last_answer_completes_witness :
  reachable (H := Offline.externals) one_answer /\
  exists session summary metrics comprehensive recs m',
    current_sessions one_answer !! 1%nat = Some session /\
    (current_question_index session + 1
     = List.length (questions session))%nat /\
    ConversationManager.process_answer (H := Offline.externals) one_answer 1
      last_answer
    = (Returned (SessionCompleted summary metrics comprehensive recs), m') /\
    status <$> current_sessions m' !! 1%nat = Some Completed /\
    summary_total_questions summary = 2%nat.
Proof.
  assert (reachable (H := Offline.externals) one_answer) as Hr
    by (eexists; reflexivity).
  split; [exact Hr |].
  destruct (current_sessions one_answer !! 1%nat) as [session |] eqn:Hs;
    [| exfalso; revert Hs; vm_compute; discriminate].
  assert (current_question_index session = 1%nat
          /\ List.length (questions session) = 2%nat) as [Hc Hl].
  { revert Hs. vm_compute. intros [= <-]. split; reflexivity. }
  assert (current_question_index session + 1
          = List.length (questions session))%nat as Hlast
    by (rewrite Hc, Hl; reflexivity).
  destruct (SessionFacts.last_answer_completes_session
              (H := Offline.externals) one_answer 1 last_answer session Hr
              Hs Hlast)
    as (summary & metrics & comprehensive & recs & m' & session' & Hp & Hs'
        & Hst & _ & _ & _ & _ & _ & Ht & _).
  exists session, summary, metrics, comprehensive, recs, m'.
  split; [reflexivity |]. split; [exact Hlast |].
  split; [exact Hp |].
  split.
  - rewrite Hs'. cbn [fmap option_fmap option_map]. now rewrite Hst.
  - now rewrite Ht, Hl.
Defined.

(** X21 on the second question of a session of two. *)
Lemma process_answer_stores_witness :
  reachable (H := Offline.externals) one_answer /\
  exists session question r m' row,
    current_sessions one_answer !! 1%nat = Some session /\
    nth_error (questions session) (current_question_index session)
    = Some question /\
    ConversationManager.process_answer (H := Offline.externals) one_answer 1
      last_answer
    = (Returned r, m') /\
    db_answers (db m') = db_answers (db one_answer) ++ [row] /\
    a_user_answer row = last_answer.
Proof.
  assert (reachable (H := Offline.externals) one_answer) as Hr
    by (eexists; reflexivity).
  split; [exact Hr |].
  destruct (current_sessions one_answer !! 1%nat) as [session |] eqn:Hs;
    [| exfalso; revert Hs; vm_compute; discriminate].
  assert (exists question,
             nth_error (questions session) (current_question_index session)
             = Some question) as [question Hq].
  { revert Hs. vm_compute. intros [= <-]. eexists. reflexivity. }
  destruct (SessionFacts.process_answer_stores_the_evaluation
              (H := Offline.externals) one_answer 1 last_answer session
              question Hr Hs Hq)
    as (r & m' & row & session' & question_id & Hp & _ & Hdb & Hrow & _).
  exists session, question, r, m', row.
  split; [reflexivity |]. split; [exact Hq |]. split; [exact Hp |].
  split; [exact Hdb |]. exact (proj1 (proj2 Hrow)).
Defined.

(** X22 on a session with its second question open. *)
Lemma pause_then_resume_witness :
  exists session question,
    current_sessions one_answer !! 1%nat = Some session /\
    status session = Active /\
    nth_error (questions session) (current_question_index session)
    = Some question /\
    snd (ConversationManager.resume_session
           (snd (ConversationManager.pause_session one_answer 1)) 1)
    = one_answer.
Proof.
  destruct (current_sessions one_answer !! 1%nat) as [session |] eqn:Hs;
    [| exfalso; revert Hs; vm_compute; discriminate].
  assert (status session = Active
          /\ exists question,
               nth_error (questions session) (current_question_index session)
               = Some question) as [Hact [question Hq]].
  { revert Hs. vm_compute. intros [= <-].
    split; [reflexivity |]. eexists. reflexivity. }
  destruct (SessionFacts.pause_then_resume_restores one_answer 1 session
              question Hs Hact Hq) as (_ & _ & Hback).
  exists session, question.
  split; [reflexivity |]. split; [exact Hact |]. split; [exact Hq |].
  now rewrite Hback.
Defined.

(** X24 on a session that was paused. *)
Lemma process_answer_ignores_status_witness :
  exists session,
    current_sessions one_answer !! 1%nat = Some session /\
    fst (ConversationManager.process_answer (H := Offline.externals)
           (ConversationManager.set_session 1
              (ConversationManager.set_status Paused session) one_answer)
           1 last_answer)
    = fst (ConversationManager.process_answer (H := Offline.externals)
             one_answer 1 last_answer).
Proof.
  destruct (current_sessions one_answer !! 1%nat) as [session |] eqn:Hs;
    [| exfalso; revert Hs; vm_compute; discriminate].
  exists session. split; [reflexivity |].
  exact (proj1 (SessionFacts.process_answer_ignores_the_status
                  (H := Offline.externals) one_answer 1 last_answer session
                  Paused Hs)).
Defined.

(** X25 on a session of two questions with one answer. *)
Lemma restart_then_status_witness :
  reachable (H := Offline.externals) one_answer /\
  exists session session',
    current_sessions one_answer !! 1%nat = Some session /\
    questions session <> [] /\
    fst (ConversationManager.get_session_status
           (step (H := Offline.externals) one_answer OpRestart) 1)
    = Some session' /\
    current_question_index session' = 1%nat /\
    answers session' = [].
Proof.
  assert (reachable (H := Offline.externals) one_answer) as Hr
    by (eexists; reflexivity).
  split; [exact Hr |].
  destruct (current_sessions one_answer !! 1%nat) as [session |] eqn:Hs;
    [| exfalso; revert Hs; vm_compute; discriminate].
  assert (questions session <> [] /\ current_question_index session = 1%nat)
    as [Hne Hc].
  { revert Hs. vm_compute. intros [= <-]. split; [discriminate | reflexivity]. }
  destruct (RestartFacts.restart_then_status_restores_the_cursor
              (H := Offline.externals) one_answer 1 session last_answer Hr
              Hs Hne)
    as (_ & session' & Hg & Hc' & _ & Ha & _).
  exists session, session'.
  split; [reflexivity |]. split; [exact Hne |].
  rewrite Hg. split; [reflexivity |]. split; [congruence | exact Ha].
Defined.


(** X27 for the one user of the database. *)
Lemma start_without_types_witness :
  DatabaseManager.get_user (db one_user) 1
  = Some {| u_id := 1; u_name := "Ann"; u_email := "ann@example.com";
            u_domain := "Software Engineering";
            u_experience_level := "Beginner" |} /\
  question_types no_types = [] /\
  (0 < num_questions no_types)%nat /\
  fst (ConversationManager.start_interview_session (H := Offline.externals)
         one_user 1 "Software Engineering" "" (Some no_types))
  = Raised "IndexError: Cannot choose from an empty sequence".
Proof.
  assert (DatabaseManager.get_user (db one_user) 1
          = Some {| u_id := 1; u_name := "Ann"; u_email := "ann@example.com";
                    u_domain := "Software Engineering";
                    u_experience_level := "Beginner" |}) as Hu
    by (vm_compute; reflexivity).
  assert (question_types no_types = []) as Hnone by reflexivity.
  assert (0 < num_questions no_types)%nat as Hpos by (cbn; lia).
  split; [exact Hu |]. split; [exact Hnone |]. split; [exact Hpos |].
  destruct (StartFacts.start_without_question_types_raises
              (H := Offline.externals) one_user 1 "Software Engineering" ""
              no_types _ Hu Hnone Hpos) as (m' & Hr & _).
  now rewrite Hr.
Defined.

End MoreRuns.
